(** * ask-about-repo: the navigation toolkit and the repository cache

    A shallow embedding of
      - src/mastra/tools/codebase-tools.ts  (glob, grep, read, list),
      - the documentation tools             (list-docs, read-doc, search-docs),
      - the ask-about-repo workflow         (getRepoIdentifier, getRepoPath,
                                             cloneExists, cloneRepoStep),
    together with the properties the specification states about them.

    Conventions.
      - A JavaScript string is a [string]; each [ascii] stands for one UTF-16
        code unit in the range U+0000..U+00FF.
      - A JavaScript number that the code uses as an index, a count, a size or
        a time stamp is a [Z]; fractional numbers, NaN and the infinities are
        outside the model.
      - An optional value ([string | undefined], [null]) is an [option].
      - The file system and the child processes are oracles handed to the
        tools: the code only sees them through [fs.*Sync] and [spawnSync]. *)

From Stdlib Require Import ZArith Lia List String Ascii Bool Arith.
From Stdlib Require Import DecimalString DecimalPos Sorted Permutation.
Import ListNotations.

Open Scope string_scope.
Open Scope Z_scope.

Set Warnings "-register-all".

(* ================================================================== *)
(** ** JavaScript primitives *)
(* ================================================================== *)

Module Js.

(** Completion of a call: a value, or a thrown exception. *)
Inductive Exn : Type :=
| JsError (message : string)            (* [new Error(message)] *)
| SysError (code : string) (path : string). (* thrown by [fs] / [child_process] *)

Inductive Completion (A : Type) : Type :=
| Returned (a : A)
| Thrown (e : Exn).
Arguments Returned {A} a.
Arguments Thrown {A} e.

Definition nl : string := String "010"%char "".

(** [if (s)] on a string: the empty string is falsy. *)
Definition truthy (s : string) : bool := negb (s =? "")%string.

(** [if (o)] on an optional string. *)
Definition truthy_opt (o : option string) : bool :=
  match o with Some s => truthy s | None => false end.

(** Relative index of [Array.prototype.slice] / [String.prototype.slice]. *)
Definition rel_index (len i : Z) : Z :=
  if i <? 0 then Z.max (len + i) 0 else Z.min i len.

(** [arr.slice(start, end)]. *)
Definition slice {A : Type} (l : list A) (start end_ : Z) : list A :=
  let len := Z.of_nat (List.length l) in
  let k := rel_index len start in
  let f := rel_index len end_ in
  firstn (Z.to_nat (f - k)) (skipn (Z.to_nat k) l).

(** [s.slice(0, n)] and [s.substring(0, n)] for a literal [n >= 0]. *)
Definition take (n : nat) (s : string) : string := substring 0 n s.

(** White space of [\s] and of [trim], within U+0000..U+00FF. *)
Definition is_ws (c : ascii) : bool :=
  let n := N_of_ascii c in
  ((9 <=? n) && (n <=? 13) || (n =? 32) || (n =? 160))%N.

(** [s.split(/[...]/)] for a character class [sep]. *)
Fixpoint split_by (sep : ascii -> bool) (s : string) : list string :=
  match s with
  | EmptyString => [""]
  | String a s' =>
      if sep a then "" :: split_by sep s'
      else match split_by sep s' with
           | h :: t => String a h :: t
           | [] => [String a ""]
           end
  end.

(** [s.split(c)] for a one-character separator. *)
Definition split_on (c : ascii) (s : string) : list string :=
  split_by (fun a => (a =? c)%char) s.

(** [s.split(/\s+/)]: [inws] tells that the scan is inside a run of white
    space, [cur] is the token being read. *)
Fixpoint split_ws_from (inws : bool) (cur : string) (s : string) : list string :=
  match s with
  | EmptyString => [cur]
  | String c s' =>
      if is_ws c then
        if inws then split_ws_from true cur s'
        else cur :: split_ws_from true "" s'
      else split_ws_from false (cur ++ String c "") s'
  end.

Definition split_ws (s : string) : list string := split_ws_from false "" s.

(** [arr.join(sep)]. *)
Definition join (sep : string) (l : list string) : string := concat sep l.

Fixpoint trimStart (s : string) : string :=
  match s with
  | EmptyString => ""
  | String c s' => if is_ws c then trimStart s' else s
  end.

Fixpoint trimEnd (s : string) : string :=
  match s with
  | EmptyString => ""
  | String c s' =>
      let t := trimEnd s' in
      if (t =? "")%string && is_ws c then "" else String c t
  end.

Definition trim (s : string) : string := trimEnd (trimStart s).

(** [c.toLowerCase()] on one code unit of U+0000..U+00FF. *)
Definition lower_char (c : ascii) : ascii :=
  let n := N_of_ascii c in
  if ((65 <=? n) && (n <=? 90)
      || (192 <=? n) && (n <=? 222) && negb (n =? 215))%N
  then ascii_of_N (n + 32) else c.

Fixpoint toLowerCase (s : string) : string :=
  match s with
  | EmptyString => ""
  | String c s' => String (lower_char c) (toLowerCase s')
  end.

Definition startsWith (s p : string) : bool := prefix p s.

(** [hay.includes(needle)]. *)
Fixpoint includes (hay needle : string) : bool :=
  if prefix needle hay then true
  else match hay with
       | EmptyString => false
       | String _ hay' => includes hay' needle
       end.

Fixpoint endsWith (s p : string) : bool :=
  if (s =? p)%string then true
  else match s with
       | EmptyString => false
       | String _ s' => endsWith s' p
       end.

(** [s.replace(/c/g, r)] for a one-character pattern. *)
Fixpoint replace_char_all (c : ascii) (r : string) (s : string) : string :=
  match s with
  | EmptyString => ""
  | String a s' =>
      if (a =? c)%char then r ++ replace_char_all c r s'
      else String a (replace_char_all c r s')
  end.

(** [s.replace("c", r)] for a one-character string pattern: only the first
    occurrence is replaced. *)
Fixpoint replace_char_first (c : ascii) (r : string) (s : string) : string :=
  match s with
  | EmptyString => ""
  | String a s' =>
      if (a =? c)%char then r ++ s'
      else String a (replace_char_first c r s')
  end.

(** [Number.MAX_SAFE_INTEGER]: up to it, in absolute value, an integer is a
    JavaScript number and the arithmetic on integers is exact. *)
Definition MAX_SAFE_INTEGER : Z := 9007199254740991.

(** [n.toString()] for an integer that a JavaScript number holds exactly:
    all its digits, after a minus sign when it is negative. *)
Definition toString (n : Z) : string := NilZero.string_of_int (Z.to_int n).

Fixpoint repeat_char (c : ascii) (n : nat) : string :=
  match n with
  | O => ""
  | S n' => String c (repeat_char c n')
  end.

(** [s.padStart(width, "0")], and more generally a one-character filler. *)
Definition padStart (width : nat) (c : ascii) (s : string) : string :=
  repeat_char c (width - String.length s) ++ s.

(** Bytes [s] takes in UTF-8: one for U+0000..U+007F, two up to U+00FF. *)
Fixpoint utf8_size (s : string) : Z :=
  match s with
  | EmptyString => 0
  | String c s' => (if (N_of_ascii c <? 128)%N then 1 else 2) + utf8_size s'
  end.

End Js.

(* ================================================================== *)
(** ** Node's [path] module (POSIX flavour) *)
(* ================================================================== *)

Module Path.

Definition slash : ascii := "/"%char.

Definition isAbsolute (p : string) : bool :=
  match p with
  | String c _ => (c =? slash)%char
  | EmptyString => false
  end.

Fixpoint ends_with_slash (p : string) : bool :=
  match p with
  | EmptyString => false
  | String c EmptyString => (c =? slash)%char
  | String _ p' => ends_with_slash p'
  end.

(** The segment machine of [normalizeString]: [stack] holds the segments
    kept so far, innermost first. *)
Fixpoint norm_segs (allowAboveRoot : bool) (stack : list string)
         (segs : list string) : list string :=
  match segs with
  | [] => rev stack
  | s :: rest =>
      if ((s =? "") || (s =? "."))%string then
        norm_segs allowAboveRoot stack rest
      else if (s =? "..")%string then
        match stack with
        | top :: stack' =>
            if (top =? "..")%string then
              norm_segs allowAboveRoot
                (if allowAboveRoot then ".." :: stack else stack) rest
            else norm_segs allowAboveRoot stack' rest
        | [] =>
            norm_segs allowAboveRoot
              (if allowAboveRoot then [".."] else []) rest
        end
      else norm_segs allowAboveRoot (s :: stack) rest
  end.

Definition normalizeString (p : string) (allowAboveRoot : bool) : string :=
  Js.join "/" (norm_segs allowAboveRoot [] (Js.split_on slash p)).

Definition normalize (p : string) : string :=
  if (p =? "")%string then "."
  else
    let isAbs := isAbsolute p in
    let trailing := ends_with_slash p in
    let body := normalizeString p (negb isAbs) in
    if (body =? "")%string then
      if isAbs then "/" else if trailing then "./" else "."
    else
      (if isAbs then "/" else "") ++ body ++ (if trailing then "/" else "").

(** [path.join(...args)]. *)
Definition join (args : list string) : string :=
  match filter Js.truthy args with
  | [] => "."
  | parts => normalize (Js.join "/" parts)
  end.

(** The right-to-left loop of [path.resolve]: stops at the first absolute
    argument. *)
Fixpoint resolve_loop (args_rev : list string) (acc : string) : string * bool :=
  match args_rev with
  | [] => (acc, false)
  | p :: rest =>
      if (p =? "")%string then resolve_loop rest acc
      else
        let acc' := p ++ "/" ++ acc in
        if isAbsolute p then (acc', true) else resolve_loop rest acc'
  end.

(** [path.resolve(...args)], with [cwd] the value of [process.cwd()]. *)
Definition resolve (cwd : string) (args : list string) : string :=
  let '(rp, abs) := resolve_loop (rev args ++ [cwd]) "" in
  let body := normalizeString rp (negb abs) in
  if abs then "/" ++ body
  else if (body =? "")%string then "." else body.

Fixpoint strip_common (a b : list string) : list string * list string :=
  match a, b with
  | x :: a', y :: b' =>
      if (x =? y)%string then strip_common a' b' else (a, b)
  | _, _ => (a, b)
  end.

(** [path.relative(from, to)]. *)
Definition relative (cwd : string) (from to : string) : string :=
  if (from =? to)%string then ""
  else
    let f := resolve cwd [from] in
    let t := resolve cwd [to] in
    if (f =? t)%string then ""
    else
      let '(fs, ts) := strip_common (filter Js.truthy (Js.split_on slash f))
                                    (filter Js.truthy (Js.split_on slash t)) in
      Js.join "/" (map (fun _ => "..") fs ++ ts).

Fixpoint rev_chars (s : string) (acc : list ascii) : list ascii :=
  match s with
  | EmptyString => acc
  | String c s' => rev_chars s' (c :: acc)
  end.

Fixpoint drop_slashes (l : list ascii) : list ascii :=
  match l with
  | c :: l' => if (c =? slash)%char then drop_slashes l' else l
  | [] => []
  end.

Fixpoint drop_component (l : list ascii) : list ascii :=
  match l with
  | c :: l' => if (c =? slash)%char then l else drop_component l'
  | [] => []
  end.

Fixpoint take_component (l : list ascii) : list ascii :=
  match l with
  | c :: l' => if (c =? slash)%char then [] else c :: take_component l'
  | [] => []
  end.

Definition of_rev (l : list ascii) : string :=
  string_of_list_ascii (rev l).

(** [path.dirname(p)]. *)
Definition dirname (p : string) : string :=
  match p with
  | EmptyString => "."
  | String c0 tl =>
      let hasRoot := (c0 =? slash)%char in
      match drop_component (drop_slashes (rev_chars tl [])) with
      | [] => if hasRoot then "/" else "."
      | _ :: r =>
          if hasRoot && Nat.eqb (List.length r) 0 then "//"
          else String c0 (of_rev r)
      end
  end.

(** [path.basename(p)]. *)
Definition basename (p : string) : string :=
  of_rev (take_component (drop_slashes (rev_chars p []))).

End Path.

(* ================================================================== *)
(** ** The environment: file system and child processes *)
(* ================================================================== *)

Module Env.
Import Js.

(** What a path names. A file's content is its UTF-8 decoding; time stamps
    are [stats.mtime.getTime()]. *)
Inductive Node : Type :=
| RegFile (content : string) (mtime : Z)
| Directory (entries : list string) (dsize : Z) (mtime : Z).

(** The file system, as path lookup. *)
Definition Fs : Type := string -> option Node.

Record Stats : Type := { size : Z; mtime : Z }.

Definition existsSync (fs : Fs) (p : string) : bool :=
  match fs p with Some _ => true | None => false end.

Definition statSync (fs : Fs) (p : string) : Completion Stats :=
  match fs p with
  | Some (RegFile c m) => Returned {| size := utf8_size c; mtime := m |}
  | Some (Directory _ s m) => Returned {| size := s; mtime := m |}
  | None => Thrown (SysError "ENOENT" p)
  end.

Definition readdirSync (fs : Fs) (p : string) : Completion (list string) :=
  match fs p with
  | Some (Directory es _ _) => Returned es
  | Some (RegFile _ _) => Thrown (SysError "ENOTDIR" p)
  | None => Thrown (SysError "ENOENT" p)
  end.

Definition readFileSync (fs : Fs) (p : string) : Completion string :=
  match fs p with
  | Some (RegFile c _) => Returned c
  | Some (Directory _ _ _) => Thrown (SysError "EISDIR" p)
  | None => Thrown (SysError "ENOENT" p)
  end.

(** The object [spawnSync] returns. [status] is [null] when the child was
    not started or was killed; [stdout] is [null] when it was not started. *)
Record SpawnResult : Type := {
  status : option Z;
  stdout : option string;
  stderr : option string;
  error : option string
}.

(** [spawnSync(command, args, {cwd})]: it returns, or throws on arguments
    it refuses. *)
Definition Spawn : Type :=
  string -> list string -> option string -> Completion SpawnResult.

(** [status === 0]. *)
Definition status_is_zero (st : option Z) : bool :=
  match st with Some s => s =? 0 | None => false end.

End Env.

(* ================================================================== *)
(** ** src/mastra/tools/codebase-tools.ts *)
(* ================================================================== *)

Module CodebaseTools.
Import Js Env.

Definition IGNORE_PATTERNS : list string :=
  [ "node_modules/"; "__pycache__/"; ".git/"; "dist/"; "build/"; "target/";
    "vendor/"; "bin/"; "obj/"; ".idea/"; ".vscode/"; ".zig-cache/";
    "zig-out"; ".coverage"; "coverage/"; "tmp/"; "temp/"; ".cache/";
    "cache/"; "logs/"; ".venv/"; "venv/"; "env/" ].

Definition DEFAULT_READ_LIMIT : Z := 2000.
Definition MAX_LINE_LENGTH : nat := 2000.

(** [directory || process.cwd()]. *)
Definition or_cwd (directory : option string) (cwd : string) : string :=
  match directory with
  | Some d => if truthy d then d else cwd
  | None => cwd
  end.

(** [stdout.trim().split("\n").filter((f) => f.length > 0)]. *)
Definition stdout_lines (out : string) : list string :=
  filter truthy (split_on "010"%char (trim out)).

(** [result.status === 0 && result.stdout]. *)
Definition succeeded (r : SpawnResult) : option string :=
  match status r, stdout r with
  | Some 0, Some out => if truthy out then Some out else None
  | _, _ => None
  end.

(** Stable sort, as [Array.prototype.sort(cmp)] on a consistent comparator:
    [x] stays before [y] when [cmp x y <= 0]. *)
Fixpoint insert_by {A : Type} (cmp : A -> A -> Z) (x : A) (l : list A) : list A :=
  match l with
  | [] => [x]
  | y :: l' => if cmp x y <=? 0 then x :: l else y :: insert_by cmp x l'
  end.

Fixpoint sort_by {A : Type} (cmp : A -> A -> Z) (l : list A) : list A :=
  match l with
  | [] => []
  | x :: l' => insert_by cmp x (sort_by cmp l')
  end.

(* ---------------------------------------------------------------- *)
(** *** glob *)

Record GlobOutput : Type := {
  files : list string;
  count : Z;
  truncated : bool
}.

(** [pattern.replace(/\*\*/g, "")]. *)
Fixpoint remove_double_star (s : string) : string :=
  match s with
  | EmptyString => ""
  | String a s' =>
      match s' with
      | String b s'' =>
          if ((a =? "*") && (b =? "*"))%char then remove_double_star s''
          else String a (remove_double_star s')
      | EmptyString => String a ""
      end
  end.

Definition findPattern (pattern : string) : string :=
  replace_char_all "*"%char "*" (remove_double_star pattern).

(** The predicate of "Filter out ignored patterns". *)
Definition not_ignored (cwd searchDir f : string) : bool :=
  let relative := Path.relative cwd searchDir f in
  negb (existsb
          (fun ignore => includes relative (replace_char_first "/"%char "" ignore))
          IGNORE_PATTERNS).

(** [statSync(p).mtime.getTime()], and 0 when [statSync] throws. *)
Definition mtime_or_0 (fs : Fs) (p : string) : Z :=
  match statSync fs p with
  | Returned st => mtime st
  | Thrown _ => 0
  end.

(** The inner [try]/[catch]: the primary backend, and in the handler the
    [find] fallback. An exception of the handler leaves the inner block. *)
Definition glob_candidates (spawn : Spawn) (cwd searchDir pattern : string)
  : Completion (list string) :=
  match spawn "rg" ["--files"; "--glob"; pattern] (Some searchDir) with
  | Returned result =>
      match succeeded result with
      | Some out =>
          Returned (map (fun f => Path.resolve cwd [searchDir; f]) (stdout_lines out))
      | None => Returned []
      end
  | Thrown _ =>
      match spawn "find" [searchDir; "-name"; findPattern pattern; "-type"; "f"] None with
      | Returned result =>
          match succeeded result with
          | Some out => Returned (stdout_lines out)
          | None => Returned []
          end
      | Thrown e => Thrown e
      end
  end.

(** The candidates that pass the ignore filter. *)
Definition glob_qualifying (spawn : Spawn) (cwd searchDir pattern : string)
  : Completion (list string) :=
  match glob_candidates spawn cwd searchDir pattern with
  | Returned fl => Returned (filter (not_ignored cwd searchDir) fl)
  | Thrown e => Thrown e
  end.

Definition by_mtime_desc (a b : string * Z) : Z := snd b - snd a.

Definition globTool (fs : Fs) (spawn : Spawn) (cwd : string)
           (pattern : string) (directory : option string) : GlobOutput :=
  let searchDir := or_cwd directory cwd in
  let limit := 100 in
  match glob_qualifying spawn cwd searchDir pattern with
  | Returned fl =>
      let filesWithMtime :=
        map (fun filePath => (filePath, mtime_or_0 fs filePath))
            (slice fl 0 (limit * 2)) in
      let sorted := sort_by by_mtime_desc filesWithMtime in
      let truncated := Z.of_nat (List.length sorted) >? limit in
      let finalFiles := map fst (slice sorted 0 limit) in
      {| files := finalFiles;
         count := Z.of_nat (List.length finalFiles);
         truncated := truncated |}
  | Thrown _ => {| files := []; count := 0; truncated := false |}
  end.

(* ---------------------------------------------------------------- *)
(** *** grep *)

Record Match : Type := {
  file : string;
  line : Z;
  content : string
}.

Record GrepOutput : Type := {
  matches : list Match;
  gcount : Z;
  gtruncated : bool
}.

Definition no_matches : GrepOutput :=
  {| matches := []; gcount := 0; gtruncated := false |}.

Definition is_digit (c : ascii) : bool :=
  let n := N_of_ascii c in ((48 <=? n) && (n <=? 57))%N.

Fixpoint digits_value (s : string) (acc : option Z) : option Z :=
  match s with
  | String c s' =>
      if is_digit c then
        digits_value s'
          (Some (10 * match acc with Some a => a | None => 0 end
                 + (Z.of_N (N_of_ascii c) - 48)))
      else acc
  | EmptyString => acc
  end.

(** [parseInt(s, 10)]; [None] is NaN. An absent argument reads
    ["undefined"], which has no digits. The digits are read exactly, as
    JavaScript does for a numeral up to [MAX_SAFE_INTEGER]. *)
Definition parseInt (s : option string) : option Z :=
  match s with
  | None => None
  | Some s =>
      match trimStart s with
      | String "-" r => option_map Z.opp (digits_value r None)
      | String "+" r => digits_value r None
      | r => digits_value r None
      end
  end.

(** [parseInt(lineNum, 10) || 0]. *)
Definition parseInt_or_0 (s : option string) : Z :=
  match parseInt s with Some n => n | None => 0 end.

(** [const [filePath, lineNum, ...rest] = line.split(sep)] and the object
    built from it. *)
Definition parse_match (sep : ascii) (ln : string) : Match :=
  let parts := split_on sep ln in
  {| file := hd "" parts;
     line := parseInt_or_0 (nth_error parts 1);
     content := take MAX_LINE_LENGTH (join (String sep "") (skipn 2 parts)) |}.

Definition include_args (flag : string) (include : option string) : list string :=
  match include with
  | Some i => if truthy i then [flag; i] else []
  | None => []
  end.

Definition rg_args (pattern searchDir : string) (include : option string) : list string :=
  ["-n"; "-H"; "--field-match-separator=|"; "--regexp"; pattern]
    ++ include_args "--glob" include
    ++ flat_map (fun ignore => ["--glob"; "!" ++ ignore ++ "*"]) IGNORE_PATTERNS
    ++ [searchDir].

Definition grep_args (pattern searchDir : string) (include : option string) : list string :=
  ["-rn"; "-E"; pattern] ++ include_args "--include" include ++ [searchDir].

(** The fallback branch, from the output of [grep]. *)
Definition grep_fallback (grepResult : SpawnResult) : GrepOutput :=
  let limit := 100 in
  if truthy_opt (stdout grepResult) then
    let lines := stdout_lines (match stdout grepResult with
                               | Some o => o
                               | None => ""
                               end) in
    let ms := map (parse_match ":"%char) (slice lines 0 limit) in
    {| matches := ms;
       gcount := Z.of_nat (List.length ms);
       gtruncated := Z.of_nat (List.length lines) >? limit |}
  else no_matches.

Definition by_mtime_desc_m (a b : Match * Z) : Z := snd b - snd a.

(** The primary branch, from the output of ripgrep. *)
Definition grep_primary (fs : Fs) (result : SpawnResult) : GrepOutput :=
  let limit := 100 in
  let lines := stdout_lines (match stdout result with
                             | Some o => o
                             | None => ""
                             end) in
  let matchesWithMtime :=
    map (fun ln => let m := parse_match "|"%char ln in (m, mtime_or_0 fs (file m)))
        lines in
  let sorted := sort_by by_mtime_desc_m matchesWithMtime in
  let finalMatches := map fst (slice sorted 0 limit) in
  {| matches := finalMatches;
     gcount := Z.of_nat (List.length finalMatches);
     gtruncated := Z.of_nat (List.length sorted) >? limit |}.

Definition status_is (r : SpawnResult) (n : Z) : bool :=
  match status r with Some s => s =? n | None => false end.

Definition grepTool (fs : Fs) (spawn : Spawn) (cwd : string)
           (pattern : string) (directory include : option string) : GrepOutput :=
  let searchDir := or_cwd directory cwd in
  match spawn "rg" (rg_args pattern searchDir include) None with
  | Thrown _ => no_matches
  | Returned result =>
      if status_is result 1 then no_matches
      else if negb (status_is result 0) && negb (status_is result 1) then
        match spawn "grep" (grep_args pattern searchDir include) None with
        | Thrown _ => no_matches
        | Returned grepResult => grep_fallback grepResult
        end
      else grep_primary fs result
  end.

(* ---------------------------------------------------------------- *)
(** *** read *)

Record ReadOutput : Type := {
  rcontent : string;
  totalLines : Z;
  hasMore : bool
}.

(** The "File not found" branch. *)
Definition read_not_found (fs : Fs) (filePath : string) : Exn :=
  let dir := Path.dirname filePath in
  let base := toLowerCase (Path.basename filePath) in
  if existsSync fs dir then
    match readdirSync fs dir with
    | Thrown e => e
    | Returned entries =>
        let suggestions :=
          map (fun entry => Path.join [dir; entry])
              (slice (filter (fun entry =>
                                includes (toLowerCase entry) base
                                || includes base (toLowerCase entry))
                             entries) 0 3) in
        if 0 <? Z.of_nat (List.length suggestions) then
          JsError ("File not found: " ++ filePath
                   ++ nl ++ nl ++ "Did you mean one of these?" ++ nl
                   ++ join nl suggestions)
        else JsError ("File not found: " ++ filePath)
    end
  else JsError ("File not found: " ++ filePath).

(** [Math.round(size / 1024 / 1024)] for a size that is an integer. *)
Definition round_MB (sz : Z) : Z := (2 * sz + 1048576) / 2097152.

Definition cut_line (ln : string) : string :=
  if (MAX_LINE_LENGTH <? String.length ln)%nat
  then take MAX_LINE_LENGTH ln ++ "..." else ln.

(** [lines.slice(offset, offset + limit).map(...)]. *)
Definition selectedLines (fileContent : string) (offset limit : Z) : list string :=
  map cut_line (slice (split_on "010"%char fileContent) offset (offset + limit)).

Fixpoint number_lines (offset : Z) (index : Z) (l : list string) : list string :=
  match l with
  | [] => []
  | ln :: l' =>
      (padStart 5 "0"%char (toString (index + offset + 1)) ++ "| " ++ ln)
        :: number_lines offset (index + 1) l'
  end.

(** The part of [execute] after the size check. *)
Definition read_window (fileContent : string) (offset limit : Z) : ReadOutput :=
  let lines := split_on "010"%char fileContent in
  let totalLines := Z.of_nat (List.length lines) in
  let selected := selectedLines fileContent offset limit in
  let content := join nl (number_lines offset 0 selected) in
  let lastReadLine := offset + Z.of_nat (List.length selected) in
  let hasMore := totalLines >? lastReadLine in
  let output :=
    "<file>" ++ nl ++ content
    ++ (if hasMore
        then nl ++ nl ++ "(File has more lines. Use 'offset' parameter to read beyond line "
             ++ toString lastReadLine ++ ")"
        else nl ++ nl ++ "(End of file - total " ++ toString totalLines ++ " lines)")
    ++ nl ++ "</file>" in
  {| rcontent := output; totalLines := totalLines; hasMore := hasMore |}.

(** "Resolve relative paths". *)
Definition read_path (cwd filePath0 : string) : string :=
  if Path.isAbsolute filePath0 then filePath0
  else Path.resolve cwd [cwd; filePath0].

Definition readTool (fs : Fs) (cwd : string) (filePath0 : string)
           (offset_opt limit_opt : option Z) : Completion ReadOutput :=
  let offset := match offset_opt with Some o => o | None => 0 end in
  let limit := match limit_opt with Some l => l | None => DEFAULT_READ_LIMIT end in
  let filePath := read_path cwd filePath0 in
  if negb (existsSync fs filePath) then Thrown (read_not_found fs filePath)
  else
    match statSync fs filePath with
    | Thrown e => Thrown e
    | Returned stats =>
        if size stats >? 10 * 1024 * 1024 then
          Thrown (JsError ("File is too large (" ++ toString (round_MB (size stats))
                           ++ "MB). Max size: 10MB"))
        else
          match readFileSync fs filePath with
          | Thrown e => Thrown e
          | Returned fileContent => Returned (read_window fileContent offset limit)
          end
    end.

(* ---------------------------------------------------------------- *)
(** *** list *)

Record ListOutput : Type := {
  tree : string;
  fileCount : Z;
  ltruncated : bool
}.

Definition find_args (searchDir : string) (ignore : list string) : list string :=
  [searchDir; "-type"; "f"]
    ++ flat_map (fun pattern => ["-not"; "-path"; "*/" ++ pattern ++ "*"])
                (IGNORE_PATTERNS ++ ignore).

(** Every non-empty line of the enumeration, before the cap. *)
Definition list_candidates (result : SpawnResult) : list string :=
  match succeeded result with
  | Some out => stdout_lines out
  | None => []
  end.

(** [dirs.add(x)] on a [Set]: insertion order, no repetition. *)
Fixpoint set_add (x : string) (l : list string) : list string :=
  match l with
  | [] => [x]
  | y :: l' => if (x =? y)%string then l else y :: set_add x l'
  end.

(** [filesByDir.get(k).push(v)], after [set(k, [])] for a new key. *)
Fixpoint map_push (k v : string) (m : list (string * list string))
  : list (string * list string) :=
  match m with
  | [] => [(k, [v])]
  | (k', vs) :: m' =>
      if (k =? k')%string then (k', (vs ++ [v])%list) :: m' else (k', vs) :: map_push k v m'
  end.

Fixpoint map_get (k : string) (m : list (string * list string)) : list string :=
  match m with
  | [] => []
  | (k', vs) :: m' => if (k =? k')%string then vs else map_get k m'
  end.

(** One turn of "Build directory structure". *)
Definition add_file (cwd searchDir : string)
           (st : list string * list (string * list string)) (f : string)
  : list string * list (string * list string) :=
  let relative := Path.relative cwd searchDir f in
  let dir := Path.dirname relative in
  let parts := if (dir =? ".")%string then [] else split_on "/"%char dir in
  let dirs :=
    fold_left
      (fun ds i =>
         set_add (if Nat.eqb i 0 then "." else join "/" (slice parts 0 (Z.of_nat i))) ds)
      (seq 0 (S (List.length parts))) (fst st) in
  (dirs, map_push dir (Path.basename f) (snd st)).

(** [arr.sort()] on strings: by code units. *)
Definition by_code_units (a b : string) : Z :=
  match String.compare a b with
  | Lt => -1
  | Eq => 0
  | Gt => 1
  end.

Fixpoint repeat_string (s : string) (n : nat) : string :=
  match n with
  | O => ""
  | S n' => s ++ repeat_string s n'
  end.

(** [renderDir(dirPath, depth)]. A child is a directory of [dirs] other than
    [dirPath] whose [dirname] is [dirPath], so a chain of calls visits each
    directory at most once; [fuel] bounds its length. *)
Fixpoint renderDir (fuel : nat) (dirs : list string)
         (filesByDir : list (string * list string))
         (dirPath : string) (depth : nat) : string :=
  match fuel with
  | O => ""
  | S fuel' =>
      let indent := repeat_string "  " depth in
      let head :=
        if (0 <? depth)%nat then indent ++ Path.basename dirPath ++ "/" ++ nl else "" in
      let childIndent := repeat_string "  " (depth + 1) in
      let children :=
        sort_by by_code_units
          (filter (fun d => (Path.dirname d =? dirPath)%string && negb (d =? dirPath)%string)
                  dirs) in
      let dirFiles := sort_by by_code_units (map_get dirPath filesByDir) in
      head
        ++ concat "" (map (fun child => renderDir fuel' dirs filesByDir child (depth + 1))
                          children)
        ++ concat "" (map (fun f => childIndent ++ f ++ nl) dirFiles)
  end.

(** [String(error)] of a caught exception: ["Error: " + message] for
    [new Error(message)]. Of a system error the code and the path are kept,
    in place of the longer text Node prints for it. *)
Definition exn_text (e : Exn) : string :=
  match e with
  | JsError m => "Error: " ++ m
  | SysError code p => "Error: " ++ code ++ ": " ++ p
  end.

(** The files kept for the tree: the candidates cut at the cap. *)
Definition list_files (result : SpawnResult) : list string :=
  slice (list_candidates result) 0 100.

Definition listTool (spawn : Spawn) (cwd : string)
           (directory : option string) (ignore : option (list string)) : ListOutput :=
  let ignore := match ignore with Some l => l | None => [] end in
  let searchDir := Path.resolve cwd [cwd; or_cwd directory "."] in
  let limit := 100 in
  match spawn "find" (find_args searchDir ignore) None with
  | Thrown e =>
      {| tree := "Error listing directory: " ++ exn_text e;
         fileCount := 0;
         ltruncated := false |}
  | Returned result =>
      let fl := list_files result in
      let '(dirs, filesByDir) := fold_left (add_file cwd searchDir) fl ([], []) in
      {| tree := searchDir ++ "/" ++ nl
                 ++ renderDir (S (List.length dirs)) dirs filesByDir "." 0;
         fileCount := Z.of_nat (List.length fl);
         ltruncated := Z.of_nat (List.length fl) >=? limit |}
  end.

(* ---------------------------------------------------------------- *)
(** *** bash *)

Record BashOutput : Type := {
  bstdout : string;
  bstderr : string;
  exitCode : Z
}.

(** [spawnSync(command, args, {cwd, timeout})]. *)
Definition SpawnTimed : Type :=
  string -> list string -> option string -> Z -> Completion SpawnResult.

(** [x || ""] on an optional string. *)
Definition or_empty (o : option string) : string :=
  match o with Some x => x | None => "" end.

Definition bashTool (spawn : SpawnTimed) (cwd : string) (command : string)
           (workdir : option string) (timeout : option Z) : BashOutput :=
  let timeout := match timeout with Some t => t | None => 30000 end in
  match spawn "bash" ["-c"; command] (Some (or_cwd workdir cwd)) timeout with
  | Returned result =>
      {| bstdout := or_empty (stdout result);
         bstderr := or_empty (stderr result);
         exitCode := match status result with Some st => st | None => 0 end |}
  | Thrown e => {| bstdout := ""; bstderr := exn_text e; exitCode := 1 |}
  end.

End CodebaseTools.

(* ================================================================== *)
(** ** The ask-about-repo workflow: repository identity and cache *)
(* ================================================================== *)

Module Workflow.
Import Js Env.

(** [path.join(process.cwd(), "../../.repos")]. *)
Definition REPOS_DIR (cwd : string) : string := Path.join [cwd; "../../.repos"].

(** [s.replace(/\.git$/, "")]. *)
Fixpoint strip_dot_git (s : string) : string :=
  if (s =? ".git")%string then ""
  else match s with
       | EmptyString => ""
       | String c s' => String c (strip_dot_git s')
       end.

Definition url_sep (c : ascii) : bool := ((c =? "/") || (c =? ":"))%char.

Definition getRepoIdentifier (repoUrl : string) : string :=
  let cleanUrl := strip_dot_git repoUrl in
  let parts := filter truthy (split_by url_sep cleanUrl) in
  if (2 <=? List.length parts)%nat then
    let repo := nth (List.length parts - 1) parts "" in
    let owner := nth (List.length parts - 2) parts "" in
    owner ++ "/" ++ repo
  else
    match nth_error parts (List.length parts - 1) with
    | Some p => if truthy p then p else "repo"
    | None => "repo"
    end.

(** "Sanitize branch name for filesystem (replace / with -)". *)
Definition safeBranch (branch : string) : string :=
  replace_char_all "/"%char "-" branch.

Definition getRepoPath (cwd : string) (repoUrl : string) (branch : option string) : string :=
  let repoId := getRepoIdentifier repoUrl in
  match branch with
  | Some b =>
      if truthy b then Path.join [REPOS_DIR cwd; repoId ++ "@" ++ safeBranch b]
      else Path.join [REPOS_DIR cwd; repoId]
  | None => Path.join [REPOS_DIR cwd; repoId]
  end.

(** *** The world the workflow step acts on *)

(** What the step does to the world, in order. Existence checks only read
    and are not recorded. *)
Inductive Event : Type :=
| EvMkdir (p : string)
| EvRm (p : string)
| EvSpawn (command : string) (args : list string) (cwd : option string).

(** The system calls of the step over a world [W]. *)
Class System (W : Type) : Type := {
  sys_exists : string -> W -> bool;
  sys_mkdir : string -> W -> Completion unit * W;
  sys_rm : string -> W -> Completion unit * W;
  sys_spawn : string -> list string -> option string -> W -> Completion SpawnResult * W
}.

(** State, exceptions and the record of events. *)
Definition M (W A : Type) : Type := W -> Completion A * W * list Event.

Definition ret {W A : Type} (a : A) : M W A := fun w => (Returned a, w, []).

Definition throw {W A : Type} (e : Exn) : M W A := fun w => (Thrown e, w, []).

Definition bind {W A B : Type} (m : M W A) (k : A -> M W B) : M W B :=
  fun w =>
    match m w with
    | (Returned a, w1, ev1) =>
        let '(r, w2, ev2) := k a w1 in (r, w2, (ev1 ++ ev2)%list)
    | (Thrown e, w1, ev1) => (Thrown e, w1, ev1)
    end.

(** [try { m } catch { h }]. *)
Definition try_catch {W A : Type} (m : M W A) (h : M W A) : M W A :=
  fun w =>
    match m w with
    | (Returned a, w1, ev1) => (Returned a, w1, ev1)
    | (Thrown _, w1, ev1) =>
        let '(r, w2, ev2) := h w1 in (r, w2, (ev1 ++ ev2)%list)
    end.

Declare Scope step_scope.
Delimit Scope step_scope with step.
Notation "x <- m ;; k" := (bind m (fun x => k))
  (at level 61, m at next level, right associativity) : step_scope.
Notation "m ;;; k" := (bind m (fun _ => k))
  (at level 61, right associativity) : step_scope.

Section Step.
Context {W : Type} `{System W}.
Variable cwd : string.

Local Open Scope step_scope.

Definition existsSync (p : string) : M W bool :=
  fun w => (Returned (sys_exists p w), w, []).

Definition mkdirSync (p : string) : M W unit :=
  fun w => let '(r, w') := sys_mkdir p w in (r, w', [EvMkdir p]).

Definition rmSync (p : string) : M W unit :=
  fun w => let '(r, w') := sys_rm p w in (r, w', [EvRm p]).

Definition spawnSync (command : string) (args : list string)
           (dir : option string) : M W SpawnResult :=
  fun w =>
    let '(r, w') := sys_spawn command args dir w in
    (r, w', [EvSpawn command args dir]).

(** [null] is [None]. Reading [stdout] of a result that has none throws,
    and the handler returns [null]. *)
Definition getCurrentBranch (repoPath : string) : M W (option string) :=
  try_catch
    (result <- spawnSync "git" ["rev-parse"; "--abbrev-ref"; "HEAD"] (Some repoPath) ;;
     if status_is_zero (status result) then
       match stdout result with
       | Some out => ret (Some (trim out))
       | None => throw (JsError "TypeError")
       end
     else ret None)
    (ret None).

Definition cloneExists (repoPath : string) (branch : option string) : M W bool :=
  try_catch
    (let gitDir := Path.join [repoPath; ".git"] in
     ex <- existsSync gitDir ;;
     if negb ex then ret false
     else
       match branch with
       | Some b =>
           if truthy b then
             currentBranch <- getCurrentBranch repoPath ;;
             match currentBranch with
             | Some c => if (c =? b)%string then ret true else ret false
             | None => ret false
             end
           else ret true
       | None => ret true
       end)
    (ret false).

Record StepInput : Type := {
  repoUrl : string;
  question : string;
  branch : option string
}.

Record StepOutput : Type := {
  out_repoPath : string;
  out_question : string;
  out_branch : option string
}.

Definition cloneArgs (url repoPath : string) (br : option string) : list string :=
  ["clone"; "--depth"; "1"]
    ++ match br with
       | Some b => if truthy b then ["--branch"; b] else []
       | None => []
       end
    ++ [url; repoPath].

(** [result.stderr || result.error], as the template string prints it. *)
Definition clone_diagnostic (result : SpawnResult) : string :=
  match stderr result with
  | Some s => if truthy s then s else
                match error result with Some e => e | None => "undefined" end
  | None => match error result with Some e => e | None => "undefined" end
  end.

Definition cloneRepoStep (inputData : StepInput) : M W StepOutput :=
  let url := repoUrl inputData in
  let br := branch inputData in
  let done (repoPath : string) : StepOutput :=
    {| out_repoPath := repoPath;
       out_question := question inputData;
       out_branch := br |} in
  reposExist <- existsSync (REPOS_DIR cwd) ;;
  (if negb reposExist then mkdirSync (REPOS_DIR cwd) else ret tt) ;;;
  let repoPath := getRepoPath cwd url br in
  cached <- cloneExists repoPath br ;;
  if cached then ret (done repoPath)
  else
    stale <- existsSync repoPath ;;
    (if stale then rmSync repoPath else ret tt) ;;;
    result <- spawnSync "git" (cloneArgs url repoPath br) None ;;
    if negb (status_is_zero (status result)) then
      throw (JsError ("Failed to clone repository: " ++ clone_diagnostic result))
    else ret (done repoPath).

End Step.

(** A fetch: [git clone ...]. *)
Definition is_fetch (e : Event) : bool :=
  match e with
  | EvSpawn command (a :: _) _ => ((command =? "git") && (a =? "clone"))%string
  | _ => false
  end.

(** A deletion of a working copy. *)
Definition is_rm (e : Event) : bool :=
  match e with EvRm _ => true | _ => false end.

(** *** A world to run the step in: the existing paths, and for each
    working copy the branch [git rev-parse --abbrev-ref HEAD] prints. *)
Record MemWorld : Type := {
  paths : list string;
  heads : list (string * string)
}.

Definition mem_exists (p : string) (w : MemWorld) : bool :=
  existsb (String.eqb p) (paths w).

Fixpoint assoc (k : string) (l : list (string * string)) : option string :=
  match l with
  | [] => None
  | (k', v) :: l' => if (k =? k')%string then Some v else assoc k l'
  end.

Definition under (p q : string) : bool :=
  (q =? p)%string || prefix (p ++ "/") q.

Definition exit_with (code : Z) (out err : string) : SpawnResult :=
  {| status := Some code; stdout := Some out; stderr := Some err; error := None |}.

Definition mem_spawn (command : string) (args : list string) (dir : option string)
           (w : MemWorld) : Completion SpawnResult * MemWorld :=
  match command, args, dir with
  | "git", ["rev-parse"; "--abbrev-ref"; "HEAD"], Some d =>
      match assoc d (heads w) with
      | Some b => (Returned (exit_with 0 (b ++ nl) ""), w)
      | None => (Returned (exit_with 128 "" "fatal: not a git repository"), w)
      end
  | "git", ["clone"; "--depth"; "1"; "--branch"; b; _; dest], None =>
      (Returned (exit_with 0 "" ""),
       {| paths := dest :: Path.join [dest; ".git"] :: paths w;
          heads := (dest, b) :: heads w |})
  | "git", ["clone"; "--depth"; "1"; _; dest], None =>
      (Returned (exit_with 0 "" ""),
       {| paths := dest :: Path.join [dest; ".git"] :: paths w;
          heads := (dest, "main") :: heads w |})
  | _, _, _ =>
      (Returned {| status := None; stdout := None; stderr := None;
                   error := Some "Error: spawnSync ENOENT" |}, w)
  end.

#[global] Instance MemSystem : System MemWorld := {
  sys_exists := mem_exists;
  sys_mkdir := fun p w => (Returned tt, {| paths := p :: paths w; heads := heads w |});
  sys_rm := fun p w =>
    (Returned tt,
     {| paths := filter (fun q => negb (under p q)) (paths w);
        heads := filter (fun kv => negb (under p (fst kv))) (heads w) |});
  sys_spawn := mem_spawn
}.

End Workflow.

(* ================================================================== *)
(** ** The documentation tools *)
(* ================================================================== *)

Module DocsTools.
Import Js.

(** A directory entry as [readdirSync(dir, { withFileTypes: true })] gives
    it, with what the file system holds below it: the content of a regular
    file, the entries of a directory. [Other] is an entry that is neither
    [isFile()] nor [isDirectory()]. *)
Inductive Dirent : Type :=
| File (name : string) (content : string)
| Dir (name : string) (children : list Dirent)
| Other (name : string).

Definition name_of (e : Dirent) : string :=
  match e with
  | File n _ => n
  | Dir n _ => n
  | Other n => n
  end.

(** The entry named [n] of a directory, if any: [fs.existsSync(join(dir, n))]. *)
Definition lookup (n : string) (entries : list Dirent) : option Dirent :=
  find (fun e => (name_of e =? n)%string) entries.

Definition possibleNames : list string := ["docs"; "documentation"; "doc"].

(** The loop of [getDocsPath] over the candidates, with the entry found
    at the path it returns. *)
Fixpoint first_existing (repoPath : string) (root : list Dirent)
         (names : list string) : option (string * Dirent) :=
  match names with
  | [] => None
  | n :: rest =>
      match lookup n root with
      | Some e => Some (Path.join [repoPath; n], e)
      | None => first_existing repoPath root rest
      end
  end.


(** An element of the array of [findMarkdownFiles]; [doc_content] is what
    [fs.readFileSync(path, "utf-8")] returns for it. *)
Record DocFile : Type := {
  path : string;
  relativePath : string;
  doc_content : string
}.

Section Walk.
Variable cwd : string.
Variable basePath : string.

(** One turn of the loop over [entries], for the entry [e] of [dir]. *)
Fixpoint visit (dir : string) (e : Dirent) {struct e} : list DocFile :=
  match e with
  | Dir n children =>
      let fullPath := Path.join [dir; n] in
      if negb (startsWith n ".") && negb (n =? "node_modules")%string
      then flat_map (visit fullPath) children
      else []
  | File n c =>
      let fullPath := Path.join [dir; n] in
      if endsWith n ".md" || endsWith n ".mdx"
      then [ {| path := fullPath;
                relativePath := Path.relative cwd basePath fullPath;
                doc_content := c |} ]
      else []
  | Other _ => []
  end.

(** [findMarkdownFiles(dir, basePath)] where [dir] exists and holds
    [node]: listing something that is not a directory throws. *)
Definition findMarkdownFiles (dir : string) (node : Dirent)
  : Completion (list DocFile) :=
  match node with
  | Dir _ children => Returned (flat_map (visit dir) children)
  | _ => Thrown (SysError "ENOTDIR" dir)
  end.
End Walk.

Record LineMatch : Type := {
  line : Z;
  content : string
}.

Record FileResult : Type := {
  file : string;
  matches : list LineMatch;
  score : Z
}.

Record SearchOutput : Type := {
  results : list FileResult;
  totalMatches : Z
}.

(** [searchTerms.some((term) => lineLower.includes(term))]. *)
Definition line_matches (searchTerms : list string) (ln : string) : bool :=
  existsb (fun term => includes (toLowerCase ln) term) searchTerms.

(** The inner loop: [i] is the index of the head of [lines]. *)
Fixpoint scan_lines (searchTerms : list string) (i : Z) (lines : list string)
  : list LineMatch :=
  match lines with
  | [] => []
  | ln :: rest =>
      if line_matches searchTerms ln
      then {| line := i + 1; content := take 200 ln |}
             :: scan_lines searchTerms (i + 1) rest
      else scan_lines searchTerms (i + 1) rest
  end.

Definition file_matches (searchTerms : list string) (f : DocFile) : list LineMatch :=
  scan_lines searchTerms 0 (split_on "010"%char (doc_content f)).

(** The outer loop: one result per file with at least one matching line. *)
Fixpoint collect (searchTerms : list string) (fl : list DocFile) : list FileResult :=
  match fl with
  | [] => []
  | f :: rest =>
      let ms := file_matches searchTerms f in
      if 0 <? Z.of_nat (List.length ms)
      then {| file := relativePath f;
              matches := slice ms 0 5;
              score := Z.of_nat (List.length ms) |}
             :: collect searchTerms rest
      else collect searchTerms rest
  end.

Definition by_score_desc (a b : FileResult) : Z := score b - score a.

Definition searchTerms_of (query : string) : list string :=
  split_ws (toLowerCase query).

(** The ranking over the files [findMarkdownFiles] found. *)
Definition rank (fl : list DocFile) (query : string) (maxResults : Z) : SearchOutput :=
  let sorted := CodebaseTools.sort_by by_score_desc (collect (searchTerms_of query) fl) in
  {| results := slice sorted 0 maxResults;
     totalMatches := fold_left (fun sum r => sum + score r) sorted 0 |}.

Definition searchDocsTool (cwd : string) (repoPath : string) (root : list Dirent)
           (query : string) (maxResults_opt : option Z) : Completion SearchOutput :=
  let maxResults := match maxResults_opt with Some m => m | None => 10 end in
  match first_existing repoPath root possibleNames with
  | None => Returned {| results := []; totalMatches := 0 |}
  | Some (docsPath, node) =>
      match findMarkdownFiles cwd docsPath docsPath node with
      | Thrown e => Thrown e
      | Returned fl => Returned (rank fl query maxResults)
      end
  end.

End DocsTools.

(* ================================================================== *)
(** ** Concrete inputs the examples below run on *)
(* ================================================================== *)

Module Samples.
Import Js Env.

(** [s] repeated [p] times, by doubling. *)
Fixpoint str_pow (s : string) (p : positive) : string :=
  match p with
  | xH => s
  | xO p' => let r := str_pow s p' in r ++ r
  | xI p' => let r := str_pow s p' in s ++ r ++ r
  end.



(** A repository with a README, a source directory and nothing else. *)
Definition fs_repo : Fs :=
  fun p =>
    if (p =? "/repo")%string then Some (Directory ["README.md"; "src"] 4096 10)
    else if (p =? "/repo/README.md")%string
         then Some (RegFile ("# Title" ++ nl ++ "text" ++ nl ++ "end") 20)
    else if (p =? "/repo/src")%string
         then Some (Directory ["index.ts"; "Index.test.ts"; "main.ts"; "index.ts.bak";
                               "reindex.ts"] 4096 30)
    else if (p =? "/repo/src/index.ts")%string then Some (RegFile "export {}" 40)
    else if (p =? "/repo/src/main.ts")%string then Some (RegFile "main()" 50)
    else None.

(** [find] prints exactly one hundred files. *)
Definition hundred_files : string :=
  concat "" (map (fun i => "/repo/f" ++ toString (Z.of_nat i) ++ ".ts" ++ nl) (seq 0 100)).

Definition ok_result (out : string) : SpawnResult :=
  {| status := Some 0; stdout := Some out; stderr := Some ""; error := None |}.

Definition failed_result (code : option Z) : SpawnResult :=
  {| status := code; stdout := None; stderr := None;
     error := Some "Error: spawnSync ENOENT" |}.

Definition spawn_find_100 : Spawn :=
  fun command _ _ =>
    if (command =? "find")%string then Returned (ok_result hundred_files)
    else Returned (failed_result None).

(** ripgrep is not installed; [find] and [grep] work. *)
Definition spawn_without_rg : Spawn :=
  fun command _ _ =>
    if (command =? "find")%string
    then Returned (ok_result ("/repo/src/index.ts" ++ nl ++ "/repo/src/main.ts" ++ nl))
    else if (command =? "grep")%string
    then Returned (ok_result ("/repo/node_modules/x.js:3:main()" ++ nl
                              ++ "/repo/src/main.ts:1:main()" ++ nl))
    else Returned (failed_result None).

(** Every [spawnSync] throws. *)
Definition spawn_throws : Spawn :=
  fun command _ _ => Thrown (SysError "ERR_INVALID_ARG_VALUE" command).

(** A cache that holds one working copy, checked out on [main]. *)
Definition world_cached : Workflow.MemWorld :=
  {| Workflow.paths :=
       ["/app/.repos"; "/app/.repos/mastra-ai/mastra@main";
        "/app/.repos/mastra-ai/mastra@main/.git"];
     Workflow.heads := [("/app/.repos/mastra-ai/mastra@main", "main")] |}.

Definition world_empty : Workflow.MemWorld :=
  {| Workflow.paths := []; Workflow.heads := [] |}.

Definition ask_main : Workflow.StepInput :=
  {| Workflow.repoUrl := "https://github.com/mastra-ai/mastra";
     Workflow.question := "How do I create an agent?";
     Workflow.branch := Some "main" |}.

(** A repository with a docs folder: one file with three lines that speak
    of agents or memory, one with a single such line, one without, and files
    the walk skips. *)
Definition repo_with_docs : list DocsTools.Dirent :=
  [ DocsTools.File "README.md" "agent";
    DocsTools.Dir "docs"
      [ DocsTools.File "memory.md" ("# Memory" ++ nl ++ "text");
        DocsTools.File "agents.mdx"
          ("# Agents" ++ nl ++ "An agent has memory." ++ nl ++ "" ++ nl ++ "Create an AGENT.");
        DocsTools.Dir "guide" [ DocsTools.File "intro.md" ("Welcome" ++ nl ++ "bye") ];
        DocsTools.Dir ".cache" [ DocsTools.File "agent.md" "agent" ];
        DocsTools.File "notes.txt" "agent";
        DocsTools.Other "link.md" ] ].

(** [bash] runs into its timeout: the child is killed, there is no status. *)
Definition spawn_killed : CodebaseTools.SpawnTimed :=
  fun _ _ _ _ =>
    Returned {| status := None; stdout := Some "partial"; stderr := Some "";
                error := Some "Error: spawnSync bash ETIMEDOUT" |}.

(** A stale entry: the directory is there, its marker is not. *)
Definition world_stale : Workflow.MemWorld :=
  {| Workflow.paths := ["/app/.repos"; "/app/.repos/mastra-ai/mastra@main"];
     Workflow.heads := [] |}.

(** The entry is on [dev] when [main] is asked for. *)
Definition world_other_branch : Workflow.MemWorld :=
  {| Workflow.paths :=
       ["/app/.repos"; "/app/.repos/mastra-ai/mastra@main";
        "/app/.repos/mastra-ai/mastra@main/.git"];
     Workflow.heads := [("/app/.repos/mastra-ai/mastra@main", "dev")] |}.

(** ripgrep finds two files, one of them under an ignored fragment. *)
Definition spawn_rg_two : Spawn :=
  fun command _ _ =>
    if (command =? "rg")%string
    then Returned (ok_result ("src/main.ts" ++ nl ++ "src/environment.ts" ++ nl))
    else Returned (failed_result None).

(** ripgrep prints two matches: one in the older, one in the newer file. *)
Definition spawn_rg_matches : Spawn :=
  fun command _ _ =>
    if (command =? "rg")%string
    then Returned (ok_result ("/repo/src/index.ts|1|export {}" ++ nl
                              ++ "/repo/src/main.ts|1|main() | 0" ++ nl))
    else Returned (failed_result None).


(** Ten and a half MiB of letters. *)
Definition large_text : string := str_pow "a" 11010048.

Definition fs_large : Fs :=
  fun p => if (p =? "/repo/large.txt")%string then Some (RegFile large_text 0) else None.

Fixpoint same_args (a b : list string) : bool :=
  match a, b with
  | [], [] => true
  | x :: a', y :: b' => (x =? y)%string && same_args a' b'
  | _, _ => false
  end.

(** ripgrep, asked for [*.ts] under [/repo], prints the older file first. *)
Definition spawn_rg_sources : Spawn :=
  fun command args cwd =>
    if (command =? "rg")%string && same_args args ["--files"; "--glob"; "*.ts"]
       && match cwd with Some d => (d =? "/repo")%string | None => false end
    then Returned (ok_result ("src/index.ts" ++ nl ++ "src/main.ts" ++ nl))
    else Returned (failed_result None).

(** ripgrep is not installed, and [grep] answers one question only: the
    search for [main] in the [*.ts] files of [/repo]. *)
Definition spawn_grep_filtered : Spawn :=
  fun command args _ =>
    if (command =? "grep")%string
       && same_args args ["-rn"; "-E"; "main"; "--include"; "*.ts"; "/repo"]
    then Returned (ok_result ("/repo/node_modules/x.ts:3:main()" ++ nl
                              ++ "/repo/src/main.ts:1:main()" ++ nl))
    else Returned (failed_result None).

End Samples.

(* ================================================================== *)
(** ** Notions the properties are stated with *)
(* ================================================================== *)

Module Notions.
Import Js.

(** Every character of [s] satisfies [P]. *)
Fixpoint str_all (P : ascii -> bool) (s : string) : bool :=
  match s with
  | EmptyString => true
  | String c s' => P c && str_all P s'
  end.

(** The entries the "File not found" message proposes. *)
Definition suggested (base : string) (entries : list string) : list string :=
  firstn 3 (filter (fun entry =>
                      includes (toLowerCase entry) (toLowerCase base)
                      || includes (toLowerCase base) (toLowerCase entry))
                   entries).

(** [s] holds no [/]. *)
Definition no_slash (s : string) : bool :=
  str_all (fun c => negb (c =? "/")%char) s.

(** [a] may stand before [b] in a sequence that descends along [key]. *)
Definition desc_by {A : Type} (key : A -> Z) (a b : A) : Prop := key b <= key a.

(** The result of [glob] on a failure. *)
Definition glob_empty : CodebaseTools.GlobOutput :=
  {| CodebaseTools.files := []; CodebaseTools.count := 0;
     CodebaseTools.truncated := false |}.

(** The query is empty-ended on the left, resp. on the right. *)
Definition begins_ws (q : string) : bool :=
  match q with
  | String c _ => is_ws c
  | EmptyString => false
  end.

Fixpoint ends_ws (q : string) : bool :=
  match q with
  | EmptyString => false
  | String c EmptyString => is_ws c
  | String _ q' => ends_ws q'
  end.

(** The lines of a text with their 1-based numbers, counted from [i]. *)
Fixpoint numbered_from (i : Z) (lines : list string) : list (Z * string) :=
  match lines with
  | [] => []
  | ln :: rest => (i, ln) :: numbered_from (i + 1) rest
  end.

Definition doc_lines (f : DocsTools.DocFile) : list string :=
  split_on "010"%char (DocsTools.doc_content f).

(** A line matches when its lower-case form contains one of the tokens. *)
Definition matching (terms : list string) (f : DocsTools.DocFile) : list (Z * string) :=
  filter (fun p => DocsTools.line_matches terms (snd p)) (numbered_from 1 (doc_lines f)).

(** The number of matching lines of a file, all of them. *)
Definition count_matching (terms : list string) (f : DocsTools.DocFile) : nat :=
  List.length (filter (DocsTools.line_matches terms) (doc_lines f)).

Definition snippet (p : Z * string) : DocsTools.LineMatch :=
  {| DocsTools.line := fst p; DocsTools.content := take 200 (snd p) |}.

(** What the search says about one file: at most five snippets, and the
    count of all its matching lines as score. *)
Definition result_of (terms : list string) (f : DocsTools.DocFile) : DocsTools.FileResult :=
  {| DocsTools.file := DocsTools.relativePath f;
     DocsTools.matches := map snippet (firstn 5 (matching terms f));
     DocsTools.score := Z.of_nat (count_matching terms f) |}.

Definition has_match (terms : list string) (f : DocsTools.DocFile) : bool :=
  existsb (DocsTools.line_matches terms) (doc_lines f).


Definition sum_scores (rs : list DocsTools.FileResult) : Z :=
  fold_right (fun r acc => DocsTools.score r + acc) 0 rs.

(** The lines of a text: a line ends at its line feed, and what follows the
    last line feed is a line when it is not empty. *)
Fixpoint text_lines (s : string) : list string :=
  match s with
  | EmptyString => []
  | String a s' =>
      if (a =? "010")%char then "" :: text_lines s'
      else match text_lines s' with
           | h :: t => String a h :: t
           | [] => [String a ""]
           end
  end.

(** The text is not empty and its last character is not a line feed. *)
Fixpoint ends_open (s : string) : bool :=
  match s with
  | EmptyString => false
  | String a EmptyString => negb (a =? "010")%char
  | String _ s' => ends_open s'
  end.

(** The lines with one more, empty, line after a final line feed and for
    the empty text. *)
Definition counted_lines (s : string) : list string :=
  if ends_open s then text_lines s else (text_lines s ++ [""])%list.

(** A line as it is shown: its first 2000 characters and a mark when it is
    longer. *)
Definition shown (ln : string) : string :=
  if (2000 <? String.length ln)%nat then substring 0 2000 ln ++ "..." else ln.

(** The rows of a listing whose first line has the number [first]. *)
Definition labelled (first : Z) (lines : list string) : list string :=
  map (fun p => padStart 5 "0"%char (toString (fst p)) ++ "| " ++ snd p)
      (numbered_from first lines).

Definition end_note (total : Z) : string :=
  "(End of file - total " ++ toString total ++ " lines)".

Definition more_note (last : Z) : string :=
  "(File has more lines. Use 'offset' parameter to read beyond line "
  ++ toString last ++ ")".

(** The text block: the rows, an empty line, the note. *)
Definition file_block (rows : list string) (note : string) : string :=
  "<file>" ++ nl ++ join nl rows ++ nl ++ nl ++ note ++ nl ++ "</file>".

(** The modification time the file system holds for a path, 0 for a path
    that names nothing. *)
Definition modified (fs : Env.Fs) (p : string) : Z :=
  match fs p with
  | Some (Env.RegFile _ m) => m
  | Some (Env.Directory _ _ m) => m
  | None => 0
  end.

(** [mb] is the whole number of MiB nearest to [sz] bytes, the upper one
    of two that are equally near. *)
Definition nearest_MiB (sz mb : Z) : Prop :=
  1048576 * mb - 524288 <= sz < 1048576 * mb + 524288.

End Notions.

(* ================================================================== *)
(** * Properties *)
(* ================================================================== *)

Import Notions.

(** ** Lists and strings *)

Section ListFacts.
Context {A : Type}.
Implicit Types l : list A.

Lemma slice_from_0 l (n : Z) :
  0 <= n -> Js.slice l 0 n = firstn (Z.to_nat n) l.
Proof.
  intros Hn. unfold Js.slice.
  set (len := Z.of_nat (List.length l)).
  assert (K0 : Js.rel_index len 0 = 0).
  { unfold Js.rel_index. cbn [Z.ltb Z.compare]. apply Z.min_l. subst len. lia. }
  assert (Kn : Js.rel_index len n = Z.min n len).
  { unfold Js.rel_index. destruct (n <? 0) eqn:E; [apply Z.ltb_lt in E; lia|reflexivity]. }
  rewrite K0, Kn. cbn [Z.to_nat skipn]. rewrite Z.sub_0_r.
  destruct (Z.le_gt_cases n len) as [H|H].
  - now rewrite Z.min_l.
  - rewrite Z.min_r by lia. subst len. rewrite Nat2Z.id.
    rewrite firstn_all. symmetry. apply firstn_all2. lia.
Qed.

Lemma slice_from_0_all l (n : Z) :
  Z.of_nat (List.length l) <= n -> Js.slice l 0 n = l.
Proof.
  intros H. rewrite slice_from_0 by lia. apply firstn_all2. lia.
Qed.

Lemma slice_length_le l (a b : Z) :
  (List.length (Js.slice l a b) <= List.length l)%nat.
Proof.
  unfold Js.slice. rewrite length_firstn, length_skipn. lia.
Qed.

Lemma in_firstn (n : nat) l x : In x (firstn n l) -> In x l.
Proof.
  revert l. induction n as [|n IH]; intros [|y l]; simpl; try tauto.
  intros [->|H]; auto.
Qed.

Lemma in_skipn (n : nat) l x : In x (skipn n l) -> In x l.
Proof.
  revert l. induction n as [|n IH]; intros [|y l]; simpl; auto.
Qed.

Lemma slice_incl l (a b : Z) x : In x (Js.slice l a b) -> In x l.
Proof.
  unfold Js.slice. intros H. now apply in_firstn, in_skipn in H.
Qed.

Lemma firstn_length_min l (n : nat) :
  List.length (firstn n l) = Nat.min n (List.length l).
Proof. apply length_firstn. Qed.
End ListFacts.

Section StringFacts.
Import Js.

Lemma str_all_app P s t : str_all P (s ++ t) = str_all P s && str_all P t.
Proof.
  induction s as [|c s IH]; simpl; [reflexivity|].
  now rewrite IH, andb_assoc.
Qed.


Lemma split_by_nonempty sep s : split_by sep s <> [].
Proof.
  destruct s as [|c s]; simpl; [discriminate|].
  destruct (sep c); [discriminate|].
  destruct (split_by sep s); discriminate.
Qed.

Lemma split_by_no_sep sep s :
  str_all (fun c => negb (sep c)) s = true -> split_by sep s = [s].
Proof.
  induction s as [|c s IH]; simpl; [reflexivity|].
  intros H. apply andb_prop in H as [Hc Hs].
  apply negb_true_iff in Hc. rewrite Hc, (IH Hs). reflexivity.
Qed.

Lemma utf8_size_app s t : utf8_size (s ++ t) = utf8_size s + utf8_size t.
Proof.
  induction s as [|c s IH]; simpl; [reflexivity|]. rewrite IH. lia.
Qed.

Lemma utf8_size_pow s p :
  utf8_size (Samples.str_pow s p) = Z.pos p * utf8_size s.
Proof.
  induction p as [p IH|p IH|]; simpl Samples.str_pow.
  - rewrite !utf8_size_app, IH. lia.
  - rewrite utf8_size_app, IH. lia.
  - lia.
Qed.

Lemma str_app_assoc (a b c : string) : (a ++ b) ++ c = a ++ b ++ c.
Proof. induction a as [|x a IH]; simpl; [reflexivity|]. now rewrite IH. Qed.

Lemma str_app_nil_r (a : string) : a ++ "" = a.
Proof. induction a as [|x a IH]; simpl; [reflexivity|]. now rewrite IH. Qed.

Lemma str_app_inv_head (a b c : string) : a ++ b = a ++ c -> b = c.
Proof. induction a as [|x a IH]; simpl; [auto|]. intros [= H]. auto. Qed.

Lemma take_length n s : (String.length (take n s) <= n)%nat.
Proof.
  unfold take. revert s. induction n as [|n IH]; intros [|c s]; simpl; try lia.
  specialize (IH s). lia.
Qed.
End StringFacts.

(* ------------------------------------------------------------------ *)
(** ** read *)

Section ReadFacts.
Import Js Env CodebaseTools.

(** On a regular file within the size ceiling, [readTool] returns the
    window computed by [read_window]. *)
Lemma readTool_regular fs cwd filePath c m offset limit :
  fs (read_path cwd filePath) = Some (RegFile c m) ->
  utf8_size c <= 10485760 ->
  readTool fs cwd filePath (Some offset) (Some limit)
  = Returned (read_window c offset limit).
Proof.
  intros Hf Hsz. unfold readTool. fold (read_path cwd filePath).
  unfold existsSync, statSync, readFileSync. rewrite Hf. cbn [negb size].
  replace (10 * 1024 * 1024) with 10485760 by reflexivity.
  destruct (utf8_size c >? 10485760) eqn:E; [|reflexivity].
  apply Z.gtb_lt in E. lia.
Qed.

(** Above the size ceiling a regular file is rejected, whatever its lines. *)
Lemma readTool_too_large fs cwd filePath c m offset limit :
  fs (read_path cwd filePath) = Some (RegFile c m) ->
  10485760 < utf8_size c ->
  readTool fs cwd filePath offset limit
  = Thrown (JsError ("File is too large (" ++ toString (round_MB (utf8_size c))
                     ++ "MB). Max size: 10MB")).
Proof.
  intros Hf Hsz. unfold readTool. fold (read_path cwd filePath).
  unfold existsSync, statSync. rewrite Hf. cbn [negb size].
  replace (10 * 1024 * 1024) with 10485760 by reflexivity.
  destruct (utf8_size c >? 10485760) eqn:E; [reflexivity|].
  rewrite Z.gtb_ltb in E. apply Z.ltb_ge in E. lia.
Qed.

(** An absent path always ends in the "File not found" branch. *)
Lemma readTool_absent fs cwd filePath offset limit :
  existsSync fs (read_path cwd filePath) = false ->
  readTool fs cwd filePath offset limit
  = Thrown (read_not_found fs (read_path cwd filePath)).
Proof.
  intros H. unfold readTool. fold (read_path cwd filePath). now rewrite H.
Qed.

Lemma suggested_at_most_3 base entries :
  (List.length (suggested base entries) <= 3)%nat.
Proof. unfold suggested. rewrite length_firstn. lia. Qed.

Lemma suggested_sound base entries e :
  In e (suggested base entries) ->
  In e entries
  /\ (includes (toLowerCase e) (toLowerCase base) = true
      \/ includes (toLowerCase base) (toLowerCase e) = true).
Proof.
  unfold suggested. intros H. apply in_firstn in H.
  apply filter_In in H as [Hin Hm]. split; [exact Hin|].
  now apply orb_true_iff in Hm.
Qed.

(** When the parent of the absent path is a directory, the error is
    "File not found", with up to three siblings proposed. *)
Lemma read_not_found_in_directory fs p entries ds dm :
  fs (Path.dirname p) = Some (Directory entries ds dm) ->
  read_not_found fs p
  = match suggested (Path.basename p) entries with
    | [] => JsError ("File not found: " ++ p)
    | sg => JsError ("File not found: " ++ p ++ nl ++ nl
                     ++ "Did you mean one of these?" ++ nl
                     ++ join nl (map (fun e => Path.join [Path.dirname p; e]) sg))
    end.
Proof.
  intros Hd. unfold read_not_found, existsSync, readdirSync. rewrite Hd.
  rewrite slice_from_0 by lia. change (Z.to_nat 3) with 3%nat.
  fold (suggested (Path.basename p) entries).
  destruct (suggested (Path.basename p) entries) as [|e sg]; reflexivity.
Qed.

(** When the parent does not exist either, the bare message. *)
Lemma read_not_found_no_directory fs p :
  fs (Path.dirname p) = None ->
  read_not_found fs p = JsError ("File not found: " ++ p).
Proof.
  intros Hd. unfold read_not_found, existsSync. now rewrite Hd.
Qed.
(** The cut the tool applies is the one a shown line has. *)
Lemma cut_line_shown ln : cut_line ln = shown ln.
Proof. reflexivity. Qed.

Lemma text_lines_cons a s : text_lines (String a s) <> [].
Proof.
  cbn [text_lines]. destruct (a =? "010")%char; [discriminate|].
  destruct (text_lines s); discriminate.
Qed.

Lemma ends_open_after_feed a s :
  (a =? "010")%char = true -> ends_open (String a s) = ends_open s.
Proof. intros Ha. destruct s as [|b s]; cbn [ends_open]; [now rewrite Ha|reflexivity]. Qed.

(** What [split] gives at line feeds are the lines, and one more, empty,
    piece after a final line feed and for the empty text. *)
Lemma split_on_counted c : split_on "010"%char c = counted_lines c.
Proof.
  unfold split_on, counted_lines.
  induction c as [|a s IH]; [reflexivity|].
  cbn [split_by text_lines].
  destruct (a =? "010")%char eqn:Ea.
  - rewrite (ends_open_after_feed a s Ea), IH.
    destruct (ends_open s); reflexivity.
  - destruct s as [|b s']; [cbn; now rewrite Ea|].
    change (ends_open (String a (String b s'))) with (ends_open (String b s')).
    rewrite IH. pose proof (text_lines_cons b s') as Hne.
    destruct (text_lines (String b s')) as [|h t]; [contradiction|].
    destruct (ends_open (String b s')); reflexivity.
Qed.

Lemma number_lines_labelled offset i l :
  number_lines offset i l = labelled (i + offset + 1) l.
Proof.
  unfold labelled. revert i. induction l as [|ln l IH]; intros i; [reflexivity|].
  cbn [number_lines numbered_from map fst snd]. rewrite IH.
  replace (i + 1 + offset + 1) with (i + offset + 1 + 1) by lia. reflexivity.
Qed.

(** The reply of [read_window], in terms of the lines of the text. *)
Lemma read_window_block c offset limit :
  let lines := counted_lines c in
  let T := Z.of_nat (List.length lines) in
  let returned := map shown (slice lines offset (offset + limit)) in
  let last := offset + Z.of_nat (List.length returned) in
  read_window c offset limit
  = {| rcontent := file_block (labelled (offset + 1) returned)
                              (if T >? last then more_note last else end_note T);
       totalLines := T;
       hasMore := T >? last |}.
Proof.
  intros lines T returned last. unfold read_window, selectedLines.
  rewrite split_on_counted. fold lines. fold T.
  change (map cut_line (slice lines offset (offset + limit))) with returned.
  fold last. rewrite number_lines_labelled. cbn [Z.add].
  f_equal. unfold file_block. do 2 f_equal.
  destruct (T >? last); unfold more_note, end_note;
    rewrite ?str_app_assoc; reflexivity.
Qed.

Lemma readTool_block fs cwd filePath c m offset limit :
  fs (read_path cwd filePath) = Some (RegFile c m) ->
  utf8_size c <= 10485760 ->
  let lines := counted_lines c in
  let T := Z.of_nat (List.length lines) in
  let returned := map shown (slice lines offset (offset + limit)) in
  let last := offset + Z.of_nat (List.length returned) in
  readTool fs cwd filePath (Some offset) (Some limit)
  = Returned {| rcontent := file_block (labelled (offset + 1) returned)
                                       (if T >? last then more_note last else end_note T);
                totalLines := T;
                hasMore := T >? last |}.
Proof.
  intros Hf Hsz. cbv zeta.
  rewrite (readTool_regular _ _ _ _ _ _ _ Hf Hsz). f_equal. apply read_window_block.
Qed.


End ReadFacts.




(** C8, at the failing inputs: the requested path is absent and its parent
    exists as a regular file. Listing the parent throws ENOTDIR, and that
    exception leaves [readTool] in place of the "File not found" error. *)
Theorem read_under_regular_file_throws :
  forall (fs : Env.Fs) (cwd filePath : string) (offset limit : option Z)
         (c : string) (m : Z),
    let p := CodebaseTools.read_path cwd filePath in
    Env.existsSync fs p = false ->
    fs (Path.dirname p) = Some (Env.RegFile c m) ->
    CodebaseTools.readTool fs cwd filePath offset limit
    = Js.Thrown (Js.SysError "ENOTDIR" (Path.dirname p)).
Proof.
  intros fs cwd filePath offset limit c m p Habs Hdir.
  rewrite (readTool_absent _ _ _ _ _ Habs). fold p.
  unfold CodebaseTools.read_not_found, Env.existsSync, Env.readdirSync.
  now rewrite Hdir.
Qed.

Lemma read_under_regular_file_throws_witness :
  Env.existsSync Samples.fs_repo "/repo/README.md/intro" = false
  /\ Env.existsSync Samples.fs_repo (Path.dirname "/repo/README.md/intro") = true
  /\ CodebaseTools.readTool Samples.fs_repo "/w" "/repo/README.md/intro" None None
     = Js.Thrown (Js.SysError "ENOTDIR" "/repo/README.md").
Proof.
  split; [reflexivity|]. split; [reflexivity|].
  apply (read_under_regular_file_throws Samples.fs_repo "/w" "/repo/README.md/intro"
           None None ("# Title" ++ Js.nl ++ "text" ++ Js.nl ++ "end") 20); reflexivity.
Defined.

(* ------------------------------------------------------------------ *)
(** ** Sorting *)

Section SortFacts.
Import CodebaseTools.
Context {A : Type} (key : A -> Z) (cmp : A -> A -> Z).
Hypothesis cmp_key : forall a b, cmp a b = key b - key a.

Lemma insert_by_perm x l : Permutation (insert_by cmp x l) (x :: l).
Proof.
  induction l as [|y l IH]; simpl; [reflexivity|].
  destruct (cmp x y <=? 0); [reflexivity|].
  rewrite IH. apply perm_swap.
Qed.

Lemma sort_by_perm l : Permutation (sort_by cmp l) l.
Proof.
  induction l as [|x l IH]; simpl; [reflexivity|].
  rewrite insert_by_perm. now constructor.
Qed.

Lemma sort_by_length l : List.length (sort_by cmp l) = List.length l.
Proof. apply Permutation_length, sort_by_perm. Qed.

Lemma desc_by_trans a b c : desc_by key a b -> desc_by key b c -> desc_by key a c.
Proof. unfold desc_by. lia. Qed.

Lemma insert_by_sorted x l :
  StronglySorted (desc_by key) l -> StronglySorted (desc_by key) (insert_by cmp x l).
Proof.
  induction 1 as [|y l Hs IH Hall]; simpl.
  - repeat constructor.
  - destruct (cmp x y <=? 0) eqn:E.
    + apply Z.leb_le in E. rewrite cmp_key in E.
      constructor; [now constructor|].
      constructor; [unfold desc_by; lia|].
      eapply Forall_impl; [|exact Hall].
      intros b Hb. unfold desc_by in *. lia.
    + apply Z.leb_gt in E. rewrite cmp_key in E.
      constructor; [exact IH|].
      eapply Permutation_Forall; [symmetry; apply insert_by_perm|].
      constructor; [unfold desc_by; lia|exact Hall].
Qed.

Lemma sort_by_sorted l : StronglySorted (desc_by key) (sort_by cmp l).
Proof.
  induction l as [|x l IH]; simpl; [constructor|].
  now apply insert_by_sorted.
Qed.
End SortFacts.

Section SortedFacts.
Context {A : Type} (R : A -> A -> Prop).

Lemma StronglySorted_firstn (n : nat) l :
  StronglySorted R l -> StronglySorted R (firstn n l).
Proof.
  intros H. revert n. induction H as [|x l Hs IH Hall]; intros [|n]; simpl;
    try constructor; auto.
  rewrite Forall_forall in *. intros y Hy. apply Hall. eapply in_firstn, Hy.
Qed.

Lemma StronglySorted_map {B : Type} (f : A -> B) (Q : B -> B -> Prop) l :
  (forall a b, In a l -> In b l -> R a b -> Q (f a) (f b)) ->
  StronglySorted R l -> StronglySorted Q (map f l).
Proof.
  intros HRQ H. induction H as [|x l Hs IH Hall]; simpl; constructor.
  - apply IH. intros a b Ha Hb. apply HRQ; now right.
  - rewrite Forall_forall in *. intros y Hy.
    apply in_map_iff in Hy as [a [<- Ha]].
    apply HRQ; [now left|now right|now apply Hall].
Qed.
End SortedFacts.

(* ------------------------------------------------------------------ *)
(** ** glob and list *)

Section GlobFacts.
Import Js Env CodebaseTools.

Lemma globTool_on_error fs spawn cwd pattern directory e :
  glob_qualifying spawn cwd (or_cwd directory cwd) pattern = Thrown e ->
  globTool fs spawn cwd pattern directory = glob_empty.
Proof. intros H. unfold globTool. now rewrite H. Qed.

(** The files [glob] returns once the candidates are known. *)
Lemma globTool_files fs spawn cwd pattern directory fl :
  glob_qualifying spawn cwd (or_cwd directory cwd) pattern = Returned fl ->
  files (globTool fs spawn cwd pattern directory)
  = map fst (firstn 100
               (sort_by by_mtime_desc
                  (map (fun p => (p, mtime_or_0 fs p)) (firstn 200 fl)))).
Proof.
  intros H. unfold globTool. rewrite H. cbn [files].
  change (100 * 2) with 200. now rewrite !slice_from_0 by lia.
Qed.

Lemma glob_count fs spawn cwd pattern directory :
  let out := globTool fs spawn cwd pattern directory in
  count out = Z.of_nat (List.length (files out)).
Proof.
  unfold globTool. destruct (glob_qualifying _ _ _ _); reflexivity.
Qed.

(** [truncated] tells exactly that qualifying files were left out. *)
Lemma glob_truncated_iff fs spawn cwd pattern directory fl :
  glob_qualifying spawn cwd (or_cwd directory cwd) pattern = Returned fl ->
  let out := globTool fs spawn cwd pattern directory in
  truncated out = true <-> (List.length (files out) < List.length fl)%nat.
Proof.
  intros H out. subst out. rewrite (globTool_files _ _ _ _ _ _ H).
  unfold globTool. rewrite H. cbn [truncated].
  change (100 * 2) with 200. rewrite !slice_from_0 by lia.
  change (Z.to_nat 200) with 200%nat. change (Z.to_nat 100) with 100%nat.
  rewrite length_map, length_firstn.
  rewrite !(sort_by_length by_mtime_desc).
  rewrite !length_map, !length_firstn.
  rewrite Z.gtb_gt. lia.
Qed.

Lemma glob_exactly_100_not_truncated fs spawn cwd pattern directory fl :
  glob_qualifying spawn cwd (or_cwd directory cwd) pattern = Returned fl ->
  List.length fl = 100%nat ->
  let out := globTool fs spawn cwd pattern directory in
  truncated out = false /\ List.length (files out) = 100%nat.
Proof.
  intros H Hlen out.
  pose proof (glob_truncated_iff fs _ _ _ _ _ H) as Ht. cbv zeta in Ht. fold out in Ht.
  assert (Hl : List.length (files out) = 100%nat).
  { subst out. rewrite (globTool_files _ _ _ _ _ _ H).
    rewrite length_map, length_firstn.
    rewrite (sort_by_length by_mtime_desc).
    rewrite length_map, length_firstn. lia. }
  split; [|exact Hl].
  destruct (truncated out); [|reflexivity].
  assert (List.length (files out) < List.length fl)%nat by now apply Ht. lia.
Qed.

Lemma list_count spawn cwd directory ignore r :
  spawn "find"
        (find_args (Path.resolve cwd [cwd; or_cwd directory "."])
                   (match ignore with Some l => l | None => [] end)) None
  = Returned r ->
  fileCount (listTool spawn cwd directory ignore)
  = Z.of_nat (List.length (list_files r)).
Proof.
  intros H. unfold listTool. rewrite H.
  destruct (fold_left _ _ _). reflexivity.
Qed.

(** [list] reports truncation as soon as the cap is reached. *)
Lemma list_truncated_iff spawn cwd directory ignore r :
  spawn "find"
        (find_args (Path.resolve cwd [cwd; or_cwd directory "."])
                   (match ignore with Some l => l | None => [] end)) None
  = Returned r ->
  ltruncated (listTool spawn cwd directory ignore) = true
  <-> (100 <= List.length (list_candidates r))%nat.
Proof.
  intros H. unfold listTool. rewrite H.
  destruct (fold_left _ _ _). cbn [ltruncated]. unfold list_files.
  rewrite slice_from_0 by lia. rewrite length_firstn.
  change (Z.to_nat 100) with 100%nat.
  rewrite Z.geb_le. lia.
Qed.
(** The time [glob] and [grep] sort by is the one the file system holds. *)
Lemma mtime_or_0_modified fs p : mtime_or_0 fs p = modified fs p.
Proof.
  unfold mtime_or_0, statSync, modified.
  destruct (fs p) as [[c m|es s m]|]; reflexivity.
Qed.

End GlobFacts.

(** C3, at the failing inputs: the enumeration prints exactly one hundred
    files. [list] keeps all of them, none is left out, and still it reports
    [truncated = true]. *)
Theorem list_exactly_100_reports_truncated :
  forall (spawn : Env.Spawn) (cwd : string) (directory : option string)
         (ignore : option (list string)) (r : Env.SpawnResult),
    spawn "find"
          (CodebaseTools.find_args
             (Path.resolve cwd [cwd; CodebaseTools.or_cwd directory "."])
             (match ignore with Some l => l | None => [] end)) None
    = Js.Returned r ->
    List.length (CodebaseTools.list_candidates r) = 100%nat ->
    let out := CodebaseTools.listTool spawn cwd directory ignore in
    CodebaseTools.list_files r = CodebaseTools.list_candidates r
    /\ CodebaseTools.fileCount out = 100
    /\ CodebaseTools.ltruncated out = true.
Proof.
  intros spawn cwd directory ignore r Hsp Hlen out.
  assert (Hall : CodebaseTools.list_files r = CodebaseTools.list_candidates r).
  { unfold CodebaseTools.list_files. apply slice_from_0_all. lia. }
  split; [exact Hall|]. split.
  - subst out. rewrite (list_count _ _ _ _ _ Hsp), Hall, Hlen. reflexivity.
  - apply (list_truncated_iff _ _ _ _ _ Hsp). lia.
Qed.

Lemma list_exactly_100_reports_truncated_witness :
  let out := CodebaseTools.listTool Samples.spawn_find_100 "/repo" None None in
  List.length (CodebaseTools.list_candidates (Samples.ok_result Samples.hundred_files))
  = 100%nat
  /\ CodebaseTools.fileCount out = 100
  /\ CodebaseTools.ltruncated out = true.
Proof.
  split; [reflexivity|].
  apply (list_exactly_100_reports_truncated Samples.spawn_find_100 "/repo" None None
           (Samples.ok_result Samples.hundred_files)); reflexivity.
Defined.

(** C4, at the failing input: when ripgrep returns without success (it is
    not installed and the status is null, or it exits with a non-zero
    status), [glob] returns the empty result whatever [find] would print:
    the fallback is not tried. *)
Theorem glob_no_fallback_when_rg_fails :
  forall (fs : Env.Fs) (spawn : Env.Spawn) (cwd pattern : string)
         (directory : option string) (r : Env.SpawnResult),
    spawn "rg" ["--files"; "--glob"; pattern] (Some (CodebaseTools.or_cwd directory cwd))
    = Js.Returned r ->
    Env.status r <> Some 0 ->
    CodebaseTools.globTool fs spawn cwd pattern directory = glob_empty.
Proof.
  intros fs spawn cwd pattern directory r Hrg Hst.
  unfold CodebaseTools.globTool, CodebaseTools.glob_qualifying,
    CodebaseTools.glob_candidates.
  rewrite Hrg.
  assert (Hs : CodebaseTools.succeeded r = None).
  { unfold CodebaseTools.succeeded. destruct (Env.status r) as [[|p|p]|]; try reflexivity.
    now elim Hst. }
  rewrite Hs. reflexivity.
Qed.

Lemma glob_no_fallback_when_rg_fails_witness :
  Samples.spawn_without_rg "find" ["/repo"; "-name"; CodebaseTools.findPattern "*.ts"; "-type"; "f"] None
  = Js.Returned (Samples.ok_result ("/repo/src/index.ts" ++ Js.nl ++ "/repo/src/main.ts" ++ Js.nl))
  /\ CodebaseTools.globTool Samples.fs_repo Samples.spawn_without_rg "/w" "*.ts" (Some "/repo")
     = glob_empty.
Proof.
  split; [reflexivity|].
  apply (glob_no_fallback_when_rg_fails Samples.fs_repo Samples.spawn_without_rg
           "/w" "*.ts" (Some "/repo") (Samples.failed_result None)).
  - reflexivity.
  - discriminate.
Defined.

(** C9: the files [glob] returns descend along their modification time in
    the file system (0 for a path that names nothing): they are the first
    100 of the first 200 qualifying files put in that order. When both
    backends throw, the result is empty with [truncated = false]; [glob]
    itself never throws. *)
Theorem glob_sorted_and_total :
  forall (fs : Env.Fs) (spawn : Env.Spawn) (cwd pattern : string)
         (directory : option string),
    let out := CodebaseTools.globTool fs spawn cwd pattern directory in
    StronglySorted (desc_by (modified fs)) (CodebaseTools.files out)
    /\ (forall fl,
          CodebaseTools.glob_qualifying spawn cwd (CodebaseTools.or_cwd directory cwd) pattern
          = Js.Returned fl ->
          exists sorted,
            Permutation sorted (firstn 200 fl)
            /\ StronglySorted (desc_by (modified fs)) sorted
            /\ CodebaseTools.files out = firstn 100 sorted)
    /\ (forall e1 e2,
          spawn "rg" ["--files"; "--glob"; pattern] (Some (CodebaseTools.or_cwd directory cwd))
          = Js.Thrown e1 ->
          spawn "find" [CodebaseTools.or_cwd directory cwd; "-name";
                        CodebaseTools.findPattern pattern; "-type"; "f"] None
          = Js.Thrown e2 ->
          out = glob_empty).
Proof.
  intros fs spawn cwd pattern directory out.
  assert (Hmid : forall fl,
            CodebaseTools.glob_qualifying spawn cwd (CodebaseTools.or_cwd directory cwd) pattern
            = Js.Returned fl ->
            exists sorted,
              Permutation sorted (firstn 200 fl)
              /\ StronglySorted (desc_by (modified fs)) sorted
              /\ CodebaseTools.files out = firstn 100 sorted).
  { intros fl Hq.
    set (l := map (fun p => (p, CodebaseTools.mtime_or_0 fs p)) (firstn 200 fl)).
    exists (map fst (CodebaseTools.sort_by CodebaseTools.by_mtime_desc l)).
    split; [|split].
    - rewrite (sort_by_perm CodebaseTools.by_mtime_desc l). subst l.
      rewrite map_map. cbn [fst]. now rewrite map_id.
    - apply (StronglySorted_map (desc_by snd)).
      + intros a b Ha Hb Hab.
        assert (Hkey : forall x, In x (CodebaseTools.sort_by CodebaseTools.by_mtime_desc l) ->
                                 snd x = modified fs (fst x)).
        { intros x Hx.
          apply (Permutation_in _ (sort_by_perm CodebaseTools.by_mtime_desc l)) in Hx.
          subst l. apply in_map_iff in Hx as [p [<- _]]. apply mtime_or_0_modified. }
        unfold desc_by in *. rewrite <- (Hkey a Ha), <- (Hkey b Hb). exact Hab.
      + apply (sort_by_sorted snd CodebaseTools.by_mtime_desc). reflexivity.
    - subst out. rewrite (globTool_files _ _ _ _ _ _ Hq). fold l.
      symmetry. apply firstn_map. }
  split; [|split; [exact Hmid|]].
  - destruct (CodebaseTools.glob_qualifying spawn cwd (CodebaseTools.or_cwd directory cwd) pattern)
      as [fl|e] eqn:Hq.
    + destruct (Hmid fl eq_refl) as [sorted [_ [Hs ->]]].
      now apply StronglySorted_firstn.
    + subst out. rewrite (globTool_on_error _ _ _ _ _ _ Hq). constructor.
  - intros e1 e2 H1 H2. subst out. apply (globTool_on_error _ _ _ _ _ e2).
    unfold CodebaseTools.glob_qualifying, CodebaseTools.glob_candidates.
    now rewrite H1, H2.
Qed.

Lemma glob_sorted_and_total_witness :
  CodebaseTools.glob_qualifying Samples.spawn_rg_sources "/w" "/repo" "*.ts"
  = Js.Returned ["/repo/src/index.ts"; "/repo/src/main.ts"]
  /\ CodebaseTools.files
       (CodebaseTools.globTool Samples.fs_repo Samples.spawn_rg_sources "/w" "*.ts"
                               (Some "/repo"))
     = ["/repo/src/main.ts"; "/repo/src/index.ts"]
  /\ StronglySorted (desc_by (modified Samples.fs_repo))
       (CodebaseTools.files
          (CodebaseTools.globTool Samples.fs_repo Samples.spawn_rg_sources "/w" "*.ts"
                                  (Some "/repo")))
  /\ CodebaseTools.globTool Samples.fs_repo Samples.spawn_throws "/w" "*.ts" (Some "/repo")
     = glob_empty.
Proof.
  split; [reflexivity|]. split; [reflexivity|]. split.
  - apply (glob_sorted_and_total Samples.fs_repo Samples.spawn_rg_sources "/w" "*.ts"
             (Some "/repo")).
  - apply (proj2 (proj2 (glob_sorted_and_total Samples.fs_repo Samples.spawn_throws
                           "/w" "*.ts" (Some "/repo")))
             (Js.SysError "ERR_INVALID_ARG_VALUE" "rg")
             (Js.SysError "ERR_INVALID_ARG_VALUE" "find")); reflexivity.
Defined.

(* ------------------------------------------------------------------ *)
(** ** grep *)

Section GrepFacts.
Import Js Env CodebaseTools.

Lemma status_is_true r n : status_is r n = true <-> status r = Some n.
Proof.
  unfold status_is. destruct (status r) as [s|].
  - rewrite Z.eqb_eq. split; [now intros ->|now intros [= ->]].
  - split; discriminate.
Qed.

Lemma status_is_false r n : status r <> Some n -> status_is r n = false.
Proof.
  intros H. destruct (status_is r n) eqn:E; [|reflexivity].
  now apply status_is_true in E.
Qed.

(** The fallback reports every non-empty line of [grep], up to the cap:
    no line is dropped for its path. *)
Lemma grep_fallback_matches g out :
  stdout g = Some out -> out <> "" ->
  matches (grep_fallback g)
  = map (parse_match ":"%char) (firstn 100 (stdout_lines out)).
Proof.
  intros Ho Hne. unfold grep_fallback. rewrite Ho. cbn [truthy_opt].
  unfold truthy. destruct (String.eqb_spec out ""); [contradiction|].
  cbn [negb matches]. now rewrite slice_from_0 by lia.
Qed.
End GrepFacts.

(** C6: when ripgrep exits with status 1, [grep] returns the empty result.
    When it returns with any status other than 0 and 1 (null when it could
    not be started), [grep] runs [grep -rn -E pattern] on the search
    directory, with [--include i] exactly when ripgrep was given the filter
    [--glob i], and with no exclusion among its arguments; it reports every
    line [grep] prints (up to the cap), paths of the ignore list included. *)
Theorem grep_no_match_and_fallback :
  forall (fs : Env.Fs) (spawn : Env.Spawn) (cwd pattern : string)
         (directory : option string) (r : Env.SpawnResult),
    let searchDir := CodebaseTools.or_cwd directory cwd in
    let excludes :=
      flat_map (fun ignore => ["--glob"; ("!" ++ ignore ++ "*")%string])
               CodebaseTools.IGNORE_PATTERNS in
    (forall i : string,
       i <> "" ->
       spawn "rg"
             (["-n"; "-H"; "--field-match-separator=|"; "--regexp"; pattern; "--glob"; i]
                ++ excludes ++ [searchDir])%list None
       = Js.Returned r ->
       (Env.status r = Some 1 ->
        CodebaseTools.grepTool fs spawn cwd pattern directory (Some i)
        = CodebaseTools.no_matches)
       /\ (Env.status r <> Some 0 -> Env.status r <> Some 1 ->
           CodebaseTools.grepTool fs spawn cwd pattern directory (Some i)
           = match spawn "grep" ["-rn"; "-E"; pattern; "--include"; i; searchDir] None with
             | Js.Returned g => CodebaseTools.grep_fallback g
             | Js.Thrown _ => CodebaseTools.no_matches
             end))
    /\ (forall include : option string,
          include = None \/ include = Some "" ->
          spawn "rg"
                (["-n"; "-H"; "--field-match-separator=|"; "--regexp"; pattern]
                   ++ excludes ++ [searchDir])%list None
          = Js.Returned r ->
          (Env.status r = Some 1 ->
           CodebaseTools.grepTool fs spawn cwd pattern directory include
           = CodebaseTools.no_matches)
          /\ (Env.status r <> Some 0 -> Env.status r <> Some 1 ->
              CodebaseTools.grepTool fs spawn cwd pattern directory include
              = match spawn "grep" ["-rn"; "-E"; pattern; searchDir] None with
                | Js.Returned g => CodebaseTools.grep_fallback g
                | Js.Thrown _ => CodebaseTools.no_matches
                end))
    /\ (forall g out,
          Env.stdout g = Some out -> out <> "" ->
          CodebaseTools.matches (CodebaseTools.grep_fallback g)
          = map (CodebaseTools.parse_match ":"%char)
                (firstn 100 (CodebaseTools.stdout_lines out))).
Proof.
  intros fs spawn cwd pattern directory r searchDir excludes.
  split; [|split].
  - intros i Hi Hrg.
    assert (Ht : Js.truthy i = true).
    { unfold Js.truthy. destruct (String.eqb_spec i ""); [contradiction|reflexivity]. }
    unfold CodebaseTools.grepTool, CodebaseTools.rg_args, CodebaseTools.grep_args,
      CodebaseTools.include_args.
    fold searchDir. rewrite Ht. fold excludes.
    change (["-n"; "-H"; "--field-match-separator=|"; "--regexp"; pattern]
              ++ ["--glob"; i] ++ excludes ++ [searchDir])%list
      with (["-n"; "-H"; "--field-match-separator=|"; "--regexp"; pattern; "--glob"; i]
              ++ excludes ++ [searchDir])%list.
    rewrite Hrg. split.
    + intros H1. now rewrite (proj2 (status_is_true r 1) H1).
    + intros H0 H1. rewrite (status_is_false r 1 H1), (status_is_false r 0 H0).
      reflexivity.
  - intros include Hinc Hrg.
    assert (Hargs : CodebaseTools.include_args "--glob" include = []
                    /\ CodebaseTools.include_args "--include" include = []).
    { destruct Hinc as [-> | ->]; split; reflexivity. }
    destruct Hargs as [Ha Hb].
    unfold CodebaseTools.grepTool, CodebaseTools.rg_args, CodebaseTools.grep_args.
    fold searchDir. rewrite Ha, Hb. fold excludes.
    change (([] : list string) ++ excludes ++ [searchDir])%list
      with (excludes ++ [searchDir])%list.
    rewrite Hrg. split.
    + intros H1. now rewrite (proj2 (status_is_true r 1) H1).
    + intros H0 H1. rewrite (status_is_false r 1 H1), (status_is_false r 0 H0).
      reflexivity.
  - intros g out. apply grep_fallback_matches.
Qed.

Lemma grep_no_match_and_fallback_witness :
  CodebaseTools.grepTool Samples.fs_repo Samples.spawn_grep_filtered "/w" "main"
                         (Some "/repo") (Some "*.ts")
  = {| CodebaseTools.matches :=
         [ {| CodebaseTools.file := "/repo/node_modules/x.ts";
              CodebaseTools.line := 3;
              CodebaseTools.content := "main()" |};
           {| CodebaseTools.file := "/repo/src/main.ts";
              CodebaseTools.line := 1;
              CodebaseTools.content := "main()" |} ];
       CodebaseTools.gcount := 2;
       CodebaseTools.gtruncated := false |}.
Proof.
  destruct (grep_no_match_and_fallback Samples.fs_repo Samples.spawn_grep_filtered
              "/w" "main" (Some "/repo") (Samples.failed_result None))
    as [H _].
  destruct (H "*.ts") as [_ Hf]; [discriminate|reflexivity|].
  rewrite Hf; [reflexivity|discriminate|discriminate].
Defined.

(* ------------------------------------------------------------------ *)
(** ** Repository identity and the derived path *)

Section PathFacts.
Import Js.

(** Appending text without separator extends the last piece only. *)
Lemma split_by_app_last sep s t :
  str_all (fun c => negb (sep c)) t = true ->
  split_by sep (s ++ t)
  = (removelast (split_by sep s) ++ [(last (split_by sep s) "" ++ t)%string])%list.
Proof.
  intros Ht. induction s as [|c s IH]; simpl append.
  - now rewrite split_by_no_sep.
  - cbn [split_by]. rewrite IH.
    pose proof (split_by_nonempty sep s) as Hne.
    destruct (split_by sep s) as [|h [|h2 tl]] eqn:E; [contradiction| |];
      destruct (sep c); reflexivity.
Qed.

Lemma has_at_not_dots (l t : string) :
  let x := l ++ "@" ++ t in
  (x =? "")%string = false /\ (x =? ".")%string = false /\ (x =? "..")%string = false.
Proof.
  cbv zeta. repeat split; apply String.eqb_neq.
  - destruct l; discriminate.
  - destruct l as [|a [|b l]]; try discriminate.
  - destruct l as [|a [|b [|c l]]]; try discriminate.
Qed.

(** A last segment that is a name stays last, and what comes before it is
    normalised on its own. *)
Lemma norm_segs_snoc allow st pre x :
  (x =? "")%string = false -> (x =? ".")%string = false -> (x =? "..")%string = false ->
  Path.norm_segs allow st (pre ++ [x]) = (Path.norm_segs allow st pre ++ [x])%list.
Proof.
  intros H0 H1 H2. revert st. induction pre as [|s pre IH]; intros st.
  - cbn [app Path.norm_segs]. rewrite H0, H1, H2. reflexivity.
  - cbn [app Path.norm_segs].
    destruct ((s =? "") || (s =? "."))%string; [apply IH|].
    destruct (s =? "..")%string; [|apply IH].
    destruct st as [|top st']; [apply IH|].
    destruct (top =? "..")%string; apply IH.
Qed.

Lemma join_snoc sep K x :
  join sep (K ++ [x])
  = match K with [] => "" | _ => join sep K ++ sep end ++ x.
Proof.
  unfold join. induction K as [|k K IH]; [reflexivity|].
  cbn [app]. destruct K as [|k2 K].
  - cbn. now rewrite !str_app_assoc.
  - change (concat sep (k :: (k2 :: K) ++ [x])%list)
      with (k ++ sep ++ concat sep ((k2 :: K) ++ [x])%list).
    rewrite IH.
    change (concat sep (k :: k2 :: K)) with (k ++ sep ++ concat sep (k2 :: K)).
    now rewrite !str_app_assoc.
Qed.

Lemma ends_with_slash_app u t :
  t <> "" -> Path.ends_with_slash (u ++ t) = Path.ends_with_slash t.
Proof.
  intros Ht. induction u as [|c u IH]; [reflexivity|].
  simpl append. cbn [Path.ends_with_slash]. rewrite IH.
  destruct (u ++ t) eqn:E; [|reflexivity].
  destruct u; simpl in E; [contradiction|discriminate].
Qed.

Lemma no_slash_ends t : no_slash t = true -> Path.ends_with_slash t = false.
Proof.
  unfold no_slash. induction t as [|c t IH]; [reflexivity|].
  cbn [str_all Path.ends_with_slash]. intros H. apply andb_prop in H as [Hc Ht].
  destruct t; [|now apply IH].
  apply negb_true_iff in Hc. exact Hc.
Qed.

(** Normalising a path whose last segment ends in [@t] keeps [t] as its end:
    what precedes [t] depends on the rest of the path only. *)
Lemma normalize_at_suffix (P : string) :
  exists C, forall t,
    t <> "" -> no_slash t = true -> Path.normalize (P ++ "@" ++ t) = C ++ t.
Proof.
  set (X := split_by (fun a => (a =? Path.slash)%char) P).
  set (abs := Path.isAbsolute (P ++ "@")).
  set (K := Path.norm_segs (negb abs) [] (removelast X)).
  exists ((if abs then "/" else "")
          ++ match K with [] => "" | _ => join "/" K ++ "/" end
          ++ last X "" ++ "@").
  intros t Hne Hns.
  unfold Path.normalize.
  assert (E0 : (P ++ "@" ++ t =? "")%string = false).
  { apply String.eqb_neq. destruct P; discriminate. }
  rewrite E0.
  assert (Eabs : Path.isAbsolute (P ++ "@" ++ t) = abs).
  { subst abs. destruct P; reflexivity. }
  rewrite Eabs.
  assert (Etr : Path.ends_with_slash (P ++ "@" ++ t) = false).
  { rewrite <- str_app_assoc. rewrite ends_with_slash_app by exact Hne.
    now apply no_slash_ends. }
  rewrite Etr.
  unfold Path.normalizeString, split_on.
  rewrite (split_by_app_last _ P ("@" ++ t)).
  2:{ exact Hns. }
  fold X.
  destruct (has_at_not_dots (last X "") t) as [H0 [H1 H2]].
  rewrite (norm_segs_snoc _ _ _ _ H0 H1 H2). fold K.
  rewrite join_snoc.
  assert (Eb : (match K with [] => "" | _ => join "/" K ++ "/" end
                ++ last X "" ++ "@" ++ t =? "")%string = false).
  { apply String.eqb_neq.
    destruct K as [|k K']; [|destruct (join "/" (k :: K')); discriminate].
    destruct (last X ""); discriminate. }
  rewrite Eb. rewrite str_app_nil_r.
  now rewrite !str_app_assoc.
Qed.

Lemma path_join_at_suffix (R id : string) :
  exists C, forall t,
    t <> "" -> no_slash t = true -> Path.join [R; id ++ "@" ++ t] = C ++ t.
Proof.
  destruct (normalize_at_suffix (R ++ "/" ++ id)) as [C1 HC1].
  destruct (normalize_at_suffix id) as [C2 HC2].
  exists (if truthy R then C1 else C2). intros t Hne Hns.
  unfold Path.join. cbn [filter].
  assert (Ht : truthy (id ++ "@" ++ t) = true).
  { unfold truthy. apply negb_true_iff, String.eqb_neq. destruct id; discriminate. }
  rewrite Ht. destruct (truthy R).
  - change (join "/" [R; id ++ "@" ++ t]) with (R ++ "/" ++ id ++ "@" ++ t).
    rewrite <- (HC1 t Hne Hns). now rewrite !str_app_assoc.
  - change (join "/" [id ++ "@" ++ t]) with (id ++ "@" ++ t).
    now apply HC2.
Qed.
End PathFacts.

Section IdentityFacts.
Import Js Workflow.

Lemma safeBranch_no_slash b : no_slash (safeBranch b) = true.
Proof.
  unfold safeBranch, no_slash. induction b as [|c b IH]; [reflexivity|].
  cbn [replace_char_all]. destruct (c =? "/")%char eqn:E.
  - cbn. exact IH.
  - cbn [str_all]. now rewrite E, IH.
Qed.

Lemma safeBranch_nonempty b : b <> "" -> safeBranch b <> "".
Proof.
  unfold safeBranch. destruct b as [|c b]; [contradiction|]. intros _.
  cbn [replace_char_all]. destruct (c =? "/")%char; discriminate.
Qed.

Lemma safeBranch_id b : no_slash b = true -> safeBranch b = b.
Proof.
  unfold safeBranch, no_slash. induction b as [|c b IH]; [reflexivity|].
  cbn [str_all replace_char_all]. intros H. apply andb_prop in H as [Hc Hb].
  apply negb_true_iff in Hc. now rewrite Hc, IH.
Qed.

Lemma getRepoPath_branch cwd url b :
  b <> "" ->
  getRepoPath cwd url (Some b)
  = Path.join [REPOS_DIR cwd; getRepoIdentifier url ++ "@" ++ safeBranch b].
Proof.
  intros Hb. unfold getRepoPath, truthy.
  destruct (String.eqb_spec b ""); [contradiction|reflexivity].
Qed.
End IdentityFacts.

(** C2 (amended): the derived path is a function of the URL's owner/name and
    of the branch: the same identifier and branch give the same path, it is
    [root/owner/name] without a branch and [root/owner/name@branch] with
    every [/] of the branch replaced by [-], and two non-empty branch names
    of one owner/name whose sanitised forms differ (in particular two
    distinct names without [/]) give distinct paths. *)
Theorem repo_path_distinct_branches :
  forall (cwd url1 url2 b1 b2 : string),
    Workflow.getRepoIdentifier url1 = Workflow.getRepoIdentifier url2 ->
    b1 <> "" -> b2 <> "" ->
    (b1 = b2 ->
     Workflow.getRepoPath cwd url1 (Some b1) = Workflow.getRepoPath cwd url2 (Some b2))
    /\ Workflow.getRepoPath cwd url1 (Some b1)
       = Path.join [Workflow.REPOS_DIR cwd;
                    Workflow.getRepoIdentifier url1 ++ "@"
                      ++ Js.replace_char_all "/"%char "-" b1]
    /\ Workflow.getRepoPath cwd url1 None
       = Path.join [Workflow.REPOS_DIR cwd; Workflow.getRepoIdentifier url1]
    /\ (Workflow.safeBranch b1 <> Workflow.safeBranch b2 ->
        Workflow.getRepoPath cwd url1 (Some b1) <> Workflow.getRepoPath cwd url2 (Some b2))
    /\ (no_slash b1 = true -> no_slash b2 = true -> b1 <> b2 ->
        Workflow.getRepoPath cwd url1 (Some b1) <> Workflow.getRepoPath cwd url2 (Some b2)).
Proof.
  intros cwd url1 url2 b1 b2 Hid Hb1 Hb2.
  assert (Hdist : Workflow.safeBranch b1 <> Workflow.safeBranch b2 ->
                  Workflow.getRepoPath cwd url1 (Some b1)
                  <> Workflow.getRepoPath cwd url2 (Some b2)).
  { intros Hsafe Heq.
    rewrite !getRepoPath_branch in Heq by assumption. rewrite <- Hid in Heq.
    destruct (path_join_at_suffix (Workflow.REPOS_DIR cwd) (Workflow.getRepoIdentifier url1))
      as [C HC].
    rewrite (HC _ (safeBranch_nonempty _ Hb1) (safeBranch_no_slash b1)) in Heq.
    rewrite (HC _ (safeBranch_nonempty _ Hb2) (safeBranch_no_slash b2)) in Heq.
    now apply str_app_inv_head in Heq. }
  split; [|split; [|split; [|split]]].
  - intros ->. unfold Workflow.getRepoPath. now rewrite Hid.
  - now apply getRepoPath_branch.
  - reflexivity.
  - exact Hdist.
  - intros N1 N2 Hne. apply Hdist. now rewrite !safeBranch_id.
Qed.

Lemma repo_path_distinct_branches_witness :
  Workflow.getRepoPath "/app/src/mastra" "https://github.com/mastra-ai/mastra" (Some "main")
  <> Workflow.getRepoPath "/app/src/mastra" "git@github.com:mastra-ai/mastra.git" (Some "dev").
Proof.
  apply (repo_path_distinct_branches "/app/src/mastra"
           "https://github.com/mastra-ai/mastra" "git@github.com:mastra-ai/mastra.git"
           "main" "dev"); try reflexivity; discriminate.
Defined.

(** C2, as stated, fails: a branch with [/] and the branch that has [-] in
    its place are distinct names of one repository with one path. *)
Lemma repo_path_branch_collision :
  "feature/x" <> "feature-x"
  /\ Workflow.getRepoPath "/app/src/mastra" "https://github.com/mastra-ai/mastra"
                          (Some "feature/x")
     = Workflow.getRepoPath "/app/src/mastra" "https://github.com/mastra-ai/mastra"
                            (Some "feature-x").
Proof. split; [discriminate|reflexivity]. Qed.

(* ------------------------------------------------------------------ *)
(** ** The clone step *)

Section CloneFacts.
Import Js Env Workflow.
Context {W : Type} `{System W}.

(** The reuse check accepts an entry that has the marker directory and, when
    a branch is asked for, is on that branch; it only reads. *)
Lemma cloneExists_valid (repoPath : string) (br : option string) (w : W) :
  sys_exists (Path.join [repoPath; ".git"]) w = true ->
  (forall b, br = Some b -> b <> "" ->
     exists r w' out,
       sys_spawn "git" ["rev-parse"; "--abbrev-ref"; "HEAD"] (Some repoPath) w
       = (Returned r, w')
       /\ status r = Some 0 /\ stdout r = Some out /\ trim out = b) ->
  exists w' ev,
    cloneExists repoPath br w = (Returned true, w', ev)
    /\ existsb is_fetch ev = false /\ existsb is_rm ev = false.
Proof.
  intros Hgit Hbr.
  unfold cloneExists, try_catch, bind, existsSync. rewrite Hgit. cbn [negb].
  destruct br as [b|]; [|exists w, []; repeat split].
  unfold truthy. destruct (String.eqb_spec b "") as [->|Hne];
    [exists w, []; repeat split|]. cbn [negb].
  destruct (Hbr b eq_refl Hne) as [r [w' [out [Hsp [Hst [Hout Htrim]]]]]].
  unfold getCurrentBranch, try_catch, bind, spawnSync. rewrite Hsp, Hst, Hout.
  cbn [status_is_zero Z.eqb ret]. rewrite Htrim, String.eqb_refl.
  eexists _, _. split; [reflexivity|]. split; reflexivity.
Qed.
End CloneFacts.

(** C7: when the cache root exists and the derived path holds a valid entry
    (its marker directory exists and, when a branch is asked for, the current
    branch read from it is that branch), the step returns the derived path,
    which depends on the URL and the branch only, and neither fetches nor
    deletes anything. *)
Theorem clone_step_reuses_valid_entry :
  forall (W : Type) (Sys : Workflow.System W) (cwd : string)
         (input : Workflow.StepInput) (w : W),
    let repoPath :=
      Workflow.getRepoPath cwd (Workflow.repoUrl input) (Workflow.branch input) in
    Workflow.sys_exists (Workflow.REPOS_DIR cwd) w = true ->
    Workflow.sys_exists (Path.join [repoPath; ".git"]) w = true ->
    (forall b, Workflow.branch input = Some b -> b <> "" ->
       exists r w' out,
         Workflow.sys_spawn "git" ["rev-parse"; "--abbrev-ref"; "HEAD"] (Some repoPath) w
         = (Js.Returned r, w')
         /\ Env.status r = Some 0 /\ Env.stdout r = Some out /\ Js.trim out = b) ->
    exists w' events,
      Workflow.cloneRepoStep cwd input w
      = (Js.Returned {| Workflow.out_repoPath := repoPath;
                        Workflow.out_question := Workflow.question input;
                        Workflow.out_branch := Workflow.branch input |},
         w', events)
      /\ existsb Workflow.is_fetch events = false
      /\ existsb Workflow.is_rm events = false.
Proof.
  intros W Sys cwd input w repoPath Hroot Hgit Hbr.
  destruct (cloneExists_valid repoPath (Workflow.branch input) w Hgit Hbr)
    as [w' [ev [Hce [Hf Hr]]]].
  exists w', ev.
  unfold Workflow.cloneRepoStep, Workflow.bind, Workflow.existsSync.
  rewrite Hroot. cbn [negb Workflow.ret]. fold repoPath. rewrite Hce.
  cbn [Workflow.ret app]. rewrite app_nil_r. repeat split; assumption.
Qed.

Lemma clone_step_reuses_valid_entry_witness :
  exists w' events,
    Workflow.cloneRepoStep "/app/src/mastra" Samples.ask_main Samples.world_cached
    = (Js.Returned {| Workflow.out_repoPath := "/app/.repos/mastra-ai/mastra@main";
                      Workflow.out_question := "How do I create an agent?";
                      Workflow.out_branch := Some "main" |},
       w', events)
    /\ existsb Workflow.is_fetch events = false
    /\ existsb Workflow.is_rm events = false.
Proof.
  apply (clone_step_reuses_valid_entry Workflow.MemWorld Workflow.MemSystem
           "/app/src/mastra" Samples.ask_main Samples.world_cached).
  - reflexivity.
  - reflexivity.
  - intros b [= <-] _.
    exists (Workflow.exit_with 0 ("main" ++ Js.nl) ""), Samples.world_cached, ("main" ++ Js.nl).
    repeat split; reflexivity.
Defined.

(** From an empty cache, the first run of the step fetches and the second
    run, on the world the first one left, returns the same path without a
    fetch. *)
Example clone_step_twice :
  let '(r1, w1, ev1) :=
    Workflow.cloneRepoStep "/app/src/mastra" Samples.ask_main Samples.world_empty in
  let '(r2, w2, ev2) := Workflow.cloneRepoStep "/app/src/mastra" Samples.ask_main w1 in
  existsb Workflow.is_fetch ev1 = true
  /\ r2 = r1
  /\ w2 = w1
  /\ existsb Workflow.is_fetch ev2 = false.
Proof. vm_compute. repeat split; reflexivity. Qed.

(* ------------------------------------------------------------------ *)
(** ** Searching the documentation *)

Section DocsFacts.
Import Js DocsTools.

Lemma scan_lines_numbered terms i lines :
  scan_lines terms i lines
  = map snippet (filter (fun p => line_matches terms (snd p)) (numbered_from (i + 1) lines)).
Proof.
  revert i. induction lines as [|ln rest IH]; intros i; [reflexivity|].
  cbn [scan_lines numbered_from filter snd].
  destruct (line_matches terms ln); cbn [map]; now rewrite IH.
Qed.

Lemma numbered_filter_length (q : string -> bool) i lines :
  List.length (filter (fun p => q (snd p)) (numbered_from i lines))
  = List.length (filter q lines).
Proof.
  revert i. induction lines as [|ln rest IH]; intros i; [reflexivity|].
  cbn [numbered_from filter snd]. destruct (q ln); cbn [List.length]; now rewrite IH.
Qed.

Lemma numbered_from_nth i lines p :
  In p (numbered_from i lines) ->
  exists k, nth_error lines k = Some (snd p) /\ fst p = i + Z.of_nat k.
Proof.
  revert i. induction lines as [|ln rest IH]; intros i; [intros []|].
  cbn [numbered_from]. intros [<-|Hin].
  - exists 0%nat. split; [reflexivity|cbn; lia].
  - destruct (IH _ Hin) as [k [Hk Hf]]. exists (S k). split; [exact Hk|lia].
Qed.

Lemma filter_length_pos {A : Type} (q : A -> bool) l :
  (0 <? Z.of_nat (List.length (filter q l))) = existsb q l.
Proof.
  induction l as [|x l IH]; [reflexivity|].
  cbn [filter existsb]. destruct (q x); [reflexivity|exact IH].
Qed.

Lemma file_matches_spec terms f :
  file_matches terms f = map snippet (matching terms f).
Proof. unfold file_matches. now rewrite scan_lines_numbered. Qed.

Lemma file_matches_length terms f :
  List.length (file_matches terms f) = count_matching terms f.
Proof.
  rewrite file_matches_spec, length_map. apply numbered_filter_length.
Qed.

(** One result per file with a matching line, in the order of the files. *)
Lemma collect_spec terms fl :
  collect terms fl = map (result_of terms) (filter (has_match terms) fl).
Proof.
  induction fl as [|f fl IH]; [reflexivity|].
  cbn [collect filter]. rewrite file_matches_length.
  unfold has_match at 1, count_matching at 1. rewrite filter_length_pos.
  destruct (existsb (line_matches terms) (doc_lines f)); [|exact IH].
  cbn [map]. rewrite IH. f_equal.
  unfold result_of. f_equal.
  rewrite slice_from_0 by lia. rewrite file_matches_spec.
  change (Z.to_nat 5) with 5%nat. apply firstn_map.
Qed.

Lemma fold_sum_scores rs acc :
  fold_left (fun sum r => sum + score r) rs acc = acc + sum_scores rs.
Proof.
  revert acc. induction rs as [|r rs IH]; intros acc; cbn; [lia|].
  rewrite IH. unfold sum_scores. lia.
Qed.

Lemma sum_scores_perm rs rs' : Permutation rs rs' -> sum_scores rs = sum_scores rs'.
Proof.
  induction 1 as [|r l l' Hp IH|r r' l|l l' l'' Hp1 IH1 Hp2 IH2];
    unfold sum_scores in *; cbn [fold_right]; lia.
Qed.

Lemma result_of_bounds terms f :
  (List.length (matches (result_of terms f)) <= 5)%nat
  /\ Forall (fun m => (String.length (content m) <= 200)%nat) (matches (result_of terms f))
  /\ Forall (fun m => exists k ln,
                 nth_error (doc_lines f) k = Some ln
                 /\ line m = Z.of_nat k + 1
                 /\ line_matches terms ln = true
                 /\ content m = take 200 ln)
            (matches (result_of terms f)).
Proof.
  cbn [result_of matches]. split; [|split].
  - rewrite length_map, length_firstn. lia.
  - apply Forall_forall. intros m Hm. apply in_map_iff in Hm as [p [<- _]].
    apply take_length.
  - apply Forall_forall. intros m Hm. apply in_map_iff in Hm as [p [<- Hp]].
    apply in_firstn in Hp. apply filter_In in Hp as [Hin Hq].
    destruct (numbered_from_nth _ _ _ Hin) as [k [Hk Hf]].
    exists k, (snd p). cbn [snippet line content]. repeat split; auto. lia.
Qed.

(** The ranking, stated on the results of the files with a match. *)
Lemma rank_spec fl query maxResults :
  0 <= maxResults ->
  let all := map (result_of (searchTerms_of query)) (filter (has_match (searchTerms_of query)) fl) in
  exists ranked,
    Permutation ranked all
    /\ StronglySorted (desc_by score) ranked
    /\ results (rank fl query maxResults) = firstn (Z.to_nat maxResults) ranked
    /\ totalMatches (rank fl query maxResults) = sum_scores all.
Proof.
  intros Hm all.
  exists (CodebaseTools.sort_by by_score_desc (collect (searchTerms_of query) fl)).
  rewrite collect_spec. fold all.
  split; [apply sort_by_perm|].
  split; [apply (sort_by_sorted score by_score_desc); reflexivity|].
  unfold rank. cbn [results totalMatches]. rewrite collect_spec. fold all.
  split; [now apply slice_from_0|].
  rewrite fold_sum_scores. rewrite Z.add_0_l.
  apply sum_scores_perm, sort_by_perm.
Qed.



Lemma is_ws_lower c : is_ws (lower_char c) = is_ws c.
Proof. destruct c as [[] [] [] [] [] [] [] []]; reflexivity. Qed.

Lemma begins_ws_lower q : begins_ws (toLowerCase q) = begins_ws q.
Proof. destruct q; [reflexivity|apply is_ws_lower]. Qed.

Lemma ends_ws_lower q : ends_ws (toLowerCase q) = ends_ws q.
Proof.
  induction q as [|c q IH]; [reflexivity|].
  cbn [toLowerCase ends_ws]. destruct q as [|d q]; [apply is_ws_lower|exact IH].
Qed.

(** A run of white space at the end of the text leaves an empty last token. *)
Lemma split_ws_from_ends inws cur s :
  (inws = true -> cur = "") ->
  ends_ws s = true ->
  In "" (split_ws_from inws cur s).
Proof.
  revert inws cur. induction s as [|c s IH]; intros inws cur Hinv He; [discriminate|].
  cbn [split_ws_from]. destruct s as [|d s].
  - cbn [ends_ws] in He. rewrite He. destruct inws.
    + cbn. left. now apply Hinv.
    + cbn. right. now left.
  - assert (He' : ends_ws (String d s) = true) by exact He.
    destruct (is_ws c).
    + destruct inws.
      * apply IH; auto.
      * right. apply IH; auto.
    + apply IH; [discriminate|exact He'].
Qed.

Lemma searchTerms_blank query :
  query = "" \/ begins_ws query = true \/ ends_ws query = true ->
  In "" (searchTerms_of query).
Proof.
  unfold searchTerms_of, split_ws. intros [->|[Hb|He]].
  - now left.
  - rewrite <- begins_ws_lower in Hb. destruct (toLowerCase query) as [|c q]; [discriminate|].
    cbn [begins_ws] in Hb. cbn [split_ws_from]. rewrite Hb. now left.
  - rewrite <- ends_ws_lower in He. apply split_ws_from_ends; [discriminate|exact He].
Qed.




End DocsFacts.

(** C5: when the docs root is a directory, [searchDocs] returns, for the
    files with at least one matching line: at most five snippets per file,
    each of at most 200 characters and each a matching line under its
    1-based number; as score the count of all matching lines of the file;
    the files ranked by descending score and cut to the first [maxResults];
    and as [totalMatches] the sum of the scores of all those files, the ones
    cut off included. *)
Theorem search_docs_ranking :
  forall (cwd repoPath : string) (root : list DocsTools.Dirent) (query : string)
         (maxResults : Z) (docsPath n : string) (children : list DocsTools.Dirent),
    DocsTools.first_existing repoPath root DocsTools.possibleNames
    = Some (docsPath, DocsTools.Dir n children) ->
    0 <= maxResults ->
    let terms := Js.split_ws (Js.toLowerCase query) in
    let docs := flat_map (DocsTools.visit cwd docsPath docsPath) children in
    let all := map (result_of terms) (filter (has_match terms) docs) in
    exists out ranked,
      DocsTools.searchDocsTool cwd repoPath root query (Some maxResults) = Js.Returned out
      /\ Permutation ranked all
      /\ StronglySorted (desc_by DocsTools.score) ranked
      /\ DocsTools.results out = firstn (Z.to_nat maxResults) ranked
      /\ DocsTools.totalMatches out = sum_scores all
      /\ Forall (fun r =>
                   (List.length (DocsTools.matches r) <= 5)%nat
                   /\ Forall (fun m => (String.length (DocsTools.content m) <= 200)%nat)
                             (DocsTools.matches r))
                all
      /\ (forall f, DocsTools.score (result_of terms f)
                    = Z.of_nat (List.length (filter (DocsTools.line_matches terms) (doc_lines f))))
      /\ DocsTools.searchDocsTool cwd repoPath root query None
         = DocsTools.searchDocsTool cwd repoPath root query (Some 10).
Proof.
  intros cwd repoPath root query maxResults docsPath n children Hdocs Hmax terms docs all.
  destruct (rank_spec docs query maxResults Hmax) as [ranked [Hp [Hs [Hr Ht]]]].
  exists (DocsTools.rank docs query maxResults), ranked.
  split.
  { unfold DocsTools.searchDocsTool. rewrite Hdocs. reflexivity. }
  repeat split; try assumption.
  apply Forall_forall. intros r Hr'. apply in_map_iff in Hr' as [f [<- _]].
  destruct (result_of_bounds terms f) as [H5 [H200 _]]. split; assumption.
Qed.

Lemma search_docs_ranking_witness :
  exists out,
    DocsTools.searchDocsTool "/w" "/repo" Samples.repo_with_docs "agent memory" (Some 1)
    = Js.Returned out
    /\ map DocsTools.file (DocsTools.results out) = ["agents.mdx"]
    /\ map DocsTools.score (DocsTools.results out) = [3]
    /\ DocsTools.totalMatches out = 4.
Proof.
  destruct (search_docs_ranking "/w" "/repo" Samples.repo_with_docs "agent memory" 1
              "/repo/docs" "docs"
              [ DocsTools.File "memory.md" ("# Memory" ++ Js.nl ++ "text");
                DocsTools.File "agents.mdx"
                  ("# Agents" ++ Js.nl ++ "An agent has memory." ++ Js.nl ++ "" ++ Js.nl
                   ++ "Create an AGENT.");
                DocsTools.Dir "guide" [ DocsTools.File "intro.md" ("Welcome" ++ Js.nl ++ "bye") ];
                DocsTools.Dir ".cache" [ DocsTools.File "agent.md" "agent" ];
                DocsTools.File "notes.txt" "agent";
                DocsTools.Other "link.md" ])
    as [out [ranked [Hout [_ [_ [_ [Htotal _]]]]]]].
  - reflexivity.
  - lia.
  - exists out. split; [exact Hout|].
    assert (E : out = DocsTools.rank
                        (flat_map (DocsTools.visit "/w" "/repo/docs" "/repo/docs")
                                  [ DocsTools.File "memory.md" ("# Memory" ++ Js.nl ++ "text");
                                    DocsTools.File "agents.mdx"
                                      ("# Agents" ++ Js.nl ++ "An agent has memory." ++ Js.nl
                                       ++ "" ++ Js.nl ++ "Create an AGENT.");
                                    DocsTools.Dir "guide"
                                      [ DocsTools.File "intro.md" ("Welcome" ++ Js.nl ++ "bye") ];
                                    DocsTools.Dir ".cache" [ DocsTools.File "agent.md" "agent" ];
                                    DocsTools.File "notes.txt" "agent";
                                    DocsTools.Other "link.md" ])
                        "agent memory" 1).
    { vm_compute in Hout. injection Hout as <-. reflexivity. }
    split; [rewrite E; reflexivity|]. split; [rewrite E; reflexivity|].
    rewrite Htotal. reflexivity.
Defined.



(* ================================================================== *)
(** * Further properties of the tools *)
(* ================================================================== *)

(* ------------------------------------------------------------------ *)
(** ** The tokens of a query *)

Section TokenFacts.
Import Js DocsTools.

Lemma ends_ws_nonempty s : ends_ws s = true -> s <> "".
Proof. destruct s; [discriminate|discriminate]. Qed.

Lemma ends_ws_cons c s : s <> "" -> ends_ws (String c s) = ends_ws s.
Proof. destruct s; [contradiction|reflexivity]. Qed.

(** Where the empty token of [split_ws_from] comes from: the token being
    read is empty at a separator, or the text ends inside white space. *)
Lemma split_ws_from_blank s :
  (forall cur, cur <> "" -> In "" (split_ws_from false cur s) -> ends_ws s = true)
  /\ (In "" (split_ws_from true "" s) -> s = "" \/ ends_ws s = true).
Proof.
  induction s as [|c s [IH1 IH2]].
  - split; [|now left]. intros cur Hne [H|[]]. now elim Hne.
  - assert (Hws : is_ws c = true ->
                  In "" (split_ws_from true "" s) -> ends_ws (String c s) = true).
    { intros Hc Hin. destruct (IH2 Hin) as [->|He]; [exact Hc|].
      rewrite ends_ws_cons; [exact He|now apply ends_ws_nonempty]. }
    split.
    + intros cur Hne. cbn [split_ws_from]. destruct (is_ws c) eqn:Hc.
      * intros [H|Hin]; [now elim Hne|now apply Hws].
      * intros Hin. apply IH1 in Hin; [|destruct cur; discriminate].
        rewrite ends_ws_cons; [exact Hin|now apply ends_ws_nonempty].
    + cbn [split_ws_from]. destruct (is_ws c) eqn:Hc.
      * intros Hin. right. now apply Hws.
      * intros Hin. right. apply IH1 in Hin; [|discriminate].
        rewrite ends_ws_cons; [exact Hin|now apply ends_ws_nonempty].
Qed.

Lemma split_ws_from_no_ws inws cur s :
  str_all (fun c => negb (is_ws c)) cur = true ->
  Forall (fun t => str_all (fun c => negb (is_ws c)) t = true) (split_ws_from inws cur s).
Proof.
  revert inws cur. induction s as [|c s IH]; intros inws cur Hcur.
  - now constructor.
  - cbn [split_ws_from]. destruct (is_ws c) eqn:Hc.
    + destruct inws; [now apply IH|]. constructor; [exact Hcur|now apply IH].
    + apply IH. rewrite str_all_app, Hcur. cbn. now rewrite Hc.
Qed.
End TokenFacts.

(** X1: the tokens of a query hold no white space, and the empty token is
    among them exactly when the query is empty or begins or ends with white
    space. *)
Theorem query_tokens_blank_iff :
  forall query : string,
    Forall (fun t => str_all (fun c => negb (Js.is_ws c)) t = true)
           (DocsTools.searchTerms_of query)
    /\ (In "" (DocsTools.searchTerms_of query)
        <-> query = "" \/ begins_ws query = true \/ ends_ws query = true).
Proof.
  intros query. split; [now apply split_ws_from_no_ws|].
  split; [|apply searchTerms_blank].
  unfold DocsTools.searchTerms_of, Js.split_ws.
  rewrite <- (begins_ws_lower query), <- (ends_ws_lower query).
  destruct query as [|c q]; [now left|]. intros Hin. right.
  cbn [Js.toLowerCase Js.split_ws_from begins_ws] in Hin |- *.
  destruct (Js.is_ws (Js.lower_char c)) eqn:Hc; [now left|]. right.
  apply (proj1 (split_ws_from_blank (Js.toLowerCase q))) in Hin; [|discriminate].
  change (ends_ws (String (Js.lower_char c) (Js.toLowerCase q)) = true).
  rewrite ends_ws_cons; [exact Hin|now apply ends_ws_nonempty].
Qed.

(* ------------------------------------------------------------------ *)
(** ** Reading a line of a search backend *)

Section ParseFacts.
Import Js CodebaseTools.

(** Splitting at a character and joining with it gives the text back. *)
Lemma join_split_on c s : join (String c "") (split_on c s) = s.
Proof.
  unfold join, split_on. induction s as [|a s IH]; [reflexivity|].
  cbn [split_by]. pose proof (split_by_nonempty (fun x => (x =? c)%char) s) as Hne.
  destruct (a =? c)%char eqn:E.
  - apply Ascii.eqb_eq in E. subst a.
    destruct (split_by _ s) as [|h t]; [contradiction|].
    change (concat (String c "") ("" :: h :: t))
      with ("" ++ String c "" ++ concat (String c "") (h :: t)).
    now rewrite IH.
  - destruct (split_by _ s) as [|h t]; [contradiction|].
    destruct t as [|h2 t].
    + cbn in IH |- *. now rewrite IH.
    + change (concat (String c "") (String a h :: h2 :: t))
        with (String a (h ++ String c "" ++ concat (String c "") (h2 :: t))).
      change (concat (String c "") (h :: h2 :: t))
        with (h ++ String c "" ++ concat (String c "") (h2 :: t)) in IH.
      now rewrite IH.
Qed.

Lemma split_by_head sep f rest c :
  str_all (fun x => negb (sep x)) f = true -> sep c = true ->
  split_by sep (f ++ String c rest) = f :: split_by sep rest.
Proof.
  intros Hf Hc. induction f as [|a f IH]; cbn [append split_by].
  - now rewrite Hc.
  - cbn [str_all] in Hf. apply andb_prop in Hf as [Ha Hf].
    apply negb_true_iff in Ha. rewrite Ha, (IH Hf). reflexivity.
Qed.

Lemma digits_value_acc d acc :
  digits_value (NilEmpty.string_of_uint d) (Some (Z.pos acc))
  = Some (Z.pos (Pos.of_uint_acc d acc)).
Proof.
  revert acc. induction d as [|d IH|d IH|d IH|d IH|d IH|d IH|d IH|d IH|d IH|d IH];
    intros acc; [reflexivity|..];
    cbn [NilEmpty.string_of_uint digits_value Pos.of_uint_acc];
    match goal with
    | |- (if is_digit ?c then _ else _) = _ =>
        change (is_digit c) with true; cbv iota
    end;
    rewrite <- IH; do 2 f_equal;
    try (match goal with
         | |- context [Z.of_N (N_of_ascii ?c) - 48] =>
             let v := eval vm_compute in (Z.of_N (N_of_ascii c) - 48) in
             change (Z.of_N (N_of_ascii c) - 48) with v
         end; lia).
Qed.

Lemma digits_value_zero d :
  digits_value (NilEmpty.string_of_uint d) (Some 0) = Some (Z.of_N (Pos.of_uint d)).
Proof.
  induction d as [|d IH|d IH|d IH|d IH|d IH|d IH|d IH|d IH|d IH|d IH];
    [reflexivity|exact IH|..];
    cbn [NilEmpty.string_of_uint digits_value Pos.of_uint];
    match goal with
    | |- (if is_digit ?c then _ else _) = _ =>
        change (is_digit c) with true; cbv iota
    end;
    cbn [Z.of_N]; rewrite <- digits_value_acc; reflexivity.
Qed.

Lemma digits_value_none d :
  d <> Decimal.Nil ->
  digits_value (NilEmpty.string_of_uint d) None
  = digits_value (NilEmpty.string_of_uint d) (Some 0).
Proof. destruct d; [contradiction|reflexivity..]. Qed.

Lemma parseInt_uint d :
  d <> Decimal.Nil ->
  parseInt (Some (NilEmpty.string_of_uint d))
  = digits_value (NilEmpty.string_of_uint d) None.
Proof. destruct d; [contradiction|reflexivity..]. Qed.

Lemma to_uint_not_nil p : Pos.to_uint p <> Decimal.Nil.
Proof.
  intros H. pose proof (DecimalPos.Unsigned.of_to p) as E.
  rewrite H in E. discriminate.
Qed.

Lemma string_of_pos p :
  NilZero.string_of_uint (Pos.to_uint p) = NilEmpty.string_of_uint (Pos.to_uint p).
Proof.
  pose proof (to_uint_not_nil p) as H.
  unfold NilZero.string_of_uint. destruct (Pos.to_uint p); [contradiction|reflexivity..].
Qed.

Lemma digits_of_pos p :
  digits_value (NilEmpty.string_of_uint (Pos.to_uint p)) None = Some (Z.pos p).
Proof.
  rewrite digits_value_none by apply to_uint_not_nil.
  rewrite digits_value_zero, DecimalPos.Unsigned.of_to. reflexivity.
Qed.
End ParseFacts.

(** X2: [parseInt] reads back the decimal numeral of every integer that
    a JavaScript number holds exactly, so a line number a backend prints is
    the line number reported. *)
Theorem parseInt_toString :
  forall n : Z,
    - Js.MAX_SAFE_INTEGER <= n <= Js.MAX_SAFE_INTEGER ->
    CodebaseTools.parseInt (Some (Js.toString n)) = Some n
    /\ CodebaseTools.parseInt_or_0 (Some (Js.toString n)) = n.
Proof.
  intros n _.
  assert (H : CodebaseTools.parseInt (Some (Js.toString n)) = Some n).
  { unfold Js.toString. destruct n as [|p|p]; [reflexivity| |].
    - cbn [Z.to_int NilZero.string_of_int]. rewrite string_of_pos.
      rewrite parseInt_uint by apply to_uint_not_nil. apply digits_of_pos.
    - cbn [Z.to_int NilZero.string_of_int]. rewrite string_of_pos.
      unfold CodebaseTools.parseInt.
      change (Js.trimStart (String "-" (NilEmpty.string_of_uint (Pos.to_uint p))))
        with (String "-" (NilEmpty.string_of_uint (Pos.to_uint p))).
      cbv iota beta. rewrite digits_of_pos. reflexivity. }
  split; [exact H|]. unfold CodebaseTools.parseInt_or_0. now rewrite H.
Qed.

Lemma parseInt_toString_witness :
  Js.toString 9007199254740991 = "9007199254740991"
  /\ CodebaseTools.parseInt (Some (Js.toString 9007199254740991)) = Some 9007199254740991
  /\ CodebaseTools.parseInt_or_0 (Some (Js.toString (-120))) = -120.
Proof.
  split; [reflexivity|]. split.
  - apply (parseInt_toString 9007199254740991). vm_compute. split; discriminate.
  - apply (parseInt_toString (-120)). vm_compute. split; discriminate.
Defined.

(** X3: a backend line [file SEP number SEP text] is read as that file, that
    number and the first 2000 characters of the text, also when the text
    holds the separator itself. *)
Theorem parse_match_fields :
  forall (sep : ascii) (f num text : string),
    str_all (fun c => negb (c =? sep)%char) f = true ->
    str_all (fun c => negb (c =? sep)%char) num = true ->
    CodebaseTools.parse_match sep (f ++ String sep (num ++ String sep text))
    = {| CodebaseTools.file := f;
         CodebaseTools.line := CodebaseTools.parseInt_or_0 (Some num);
         CodebaseTools.content := Js.take 2000 text |}.
Proof.
  intros sep f num text Hf Hnum. unfold CodebaseTools.parse_match, Js.split_on.
  rewrite (split_by_head _ f _ sep Hf (Ascii.eqb_refl sep)).
  rewrite (split_by_head _ num _ sep Hnum (Ascii.eqb_refl sep)).
  cbn [hd nth_error skipn].
  fold (Js.split_on sep text). now rewrite join_split_on.
Qed.

Lemma parse_match_fields_witness :
  CodebaseTools.parse_match "|"%char "/repo/src/main.ts|12|a | b"
  = {| CodebaseTools.file := "/repo/src/main.ts";
       CodebaseTools.line := 12;
       CodebaseTools.content := "a | b" |}.
Proof.
  apply (parse_match_fields "|"%char "/repo/src/main.ts" "12" "a | b"); reflexivity.
Defined.

(* ------------------------------------------------------------------ *)
(** ** What grep and glob return *)

Section SearchBounds.
Import Js Env CodebaseTools.

Lemma parse_match_content_bound sep ln :
  (String.length (content (parse_match sep ln)) <= 2000)%nat.
Proof. unfold parse_match. cbn [content]. apply take_length. Qed.

Lemma capped_map_bounds {A : Type} (f : A -> Match) (l : list A) :
  (forall a, (String.length (content (f a)) <= 2000)%nat) ->
  let ms := map f (slice l 0 100) in
  (List.length ms <= 100)%nat
  /\ Forall (fun m => (String.length (content m) <= 2000)%nat) ms.
Proof.
  intros Hf ms. subst ms. split.
  - rewrite slice_from_0 by lia. rewrite length_map, length_firstn.
    change (Z.to_nat 100) with 100%nat. lia.
  - apply Forall_forall. intros m Hm. apply in_map_iff in Hm as [a [<- _]]. apply Hf.
Qed.

Lemma grep_fallback_bounds g :
  let out := grep_fallback g in
  gcount out = Z.of_nat (List.length (matches out))
  /\ (List.length (matches out) <= 100)%nat
  /\ Forall (fun m => (String.length (content m) <= 2000)%nat) (matches out).
Proof.
  unfold grep_fallback. destruct (truthy_opt (stdout g)).
  - cbn [gcount matches]. split; [reflexivity|].
    apply capped_map_bounds. intros a. apply parse_match_content_bound.
  - cbn. repeat split; [lia|constructor].
Qed.

Lemma grep_primary_bounds fs r :
  let out := grep_primary fs r in
  gcount out = Z.of_nat (List.length (matches out))
  /\ (List.length (matches out) <= 100)%nat
  /\ Forall (fun m => (String.length (content m) <= 2000)%nat) (matches out).
Proof.
  unfold grep_primary. cbn [gcount matches]. split; [reflexivity|].
  match goal with
  | |- context [sort_by by_mtime_desc_m ?l] => set (pairs := l)
  end.
  split.
  - rewrite slice_from_0 by lia. rewrite length_map, length_firstn.
    change (Z.to_nat 100) with 100%nat. lia.
  - apply Forall_forall. intros m Hm. apply in_map_iff in Hm as [[m' t] [<- Hin]].
    apply slice_incl in Hin.
    apply (Permutation_in _ (sort_by_perm by_mtime_desc_m pairs)) in Hin.
    subst pairs. apply in_map_iff in Hin as [ln [[= <- _] _]].
    apply parse_match_content_bound.
Qed.

Lemma grep_primary_sorted fs r :
  StronglySorted (desc_by (fun m => mtime_or_0 fs (file m)))
                 (matches (grep_primary fs r)).
Proof.
  unfold grep_primary. cbn [matches].
  match goal with
  | |- context [sort_by by_mtime_desc_m ?l] => set (pairs := l)
  end.
  rewrite slice_from_0 by lia.
  apply (StronglySorted_map (desc_by snd)).
  - intros a b Ha Hb Hab.
    assert (Hkey : forall x, In x (firstn (Z.to_nat 100) (sort_by by_mtime_desc_m pairs)) ->
                             snd x = mtime_or_0 fs (file (fst x))).
    { intros x Hx. apply in_firstn in Hx.
      apply (Permutation_in _ (sort_by_perm by_mtime_desc_m pairs)) in Hx.
      subst pairs. apply in_map_iff in Hx as [ln [<- _]]. reflexivity. }
    unfold desc_by in *. rewrite <- (Hkey a Ha), <- (Hkey b Hb). exact Hab.
  - apply StronglySorted_firstn.
    apply (sort_by_sorted snd by_mtime_desc_m). reflexivity.
Qed.

Lemma grepTool_primary fs spawn cwd pattern directory include r :
  spawn "rg" (rg_args pattern (or_cwd directory cwd) include) None = Returned r ->
  status r = Some 0 ->
  grepTool fs spawn cwd pattern directory include = grep_primary fs r.
Proof.
  intros Hsp Hst. unfold grepTool. rewrite Hsp.
  rewrite (status_is_false r 1) by (rewrite Hst; discriminate).
  now rewrite (proj2 (status_is_true r 0) Hst).
Qed.
End SearchBounds.

(** X4: whatever the backends do, [grep] returns at most 100 matches, its
    count is their number, and no match text exceeds 2000 characters. *)
Theorem grep_result_bounded :
  forall (fs : Env.Fs) (spawn : Env.Spawn) (cwd pattern : string)
         (directory include : option string),
    let out := CodebaseTools.grepTool fs spawn cwd pattern directory include in
    CodebaseTools.gcount out = Z.of_nat (List.length (CodebaseTools.matches out))
    /\ (List.length (CodebaseTools.matches out) <= 100)%nat
    /\ Forall (fun m => (String.length (CodebaseTools.content m) <= 2000)%nat)
              (CodebaseTools.matches out).
Proof.
  intros fs spawn cwd pattern directory include.
  assert (Hempty : CodebaseTools.gcount CodebaseTools.no_matches
                   = Z.of_nat (List.length (CodebaseTools.matches CodebaseTools.no_matches))
                   /\ (List.length (CodebaseTools.matches CodebaseTools.no_matches) <= 100)%nat
                   /\ Forall (fun m => (String.length (CodebaseTools.content m) <= 2000)%nat)
                             (CodebaseTools.matches CodebaseTools.no_matches)).
  { cbn. repeat split; [lia|constructor]. }
  unfold CodebaseTools.grepTool.
  destruct (spawn "rg" _ None) as [r|e]; [|exact Hempty].
  destruct (CodebaseTools.status_is r 1); [exact Hempty|].
  destruct (negb (CodebaseTools.status_is r 0) && negb false).
  - destruct (spawn "grep" _ None) as [g|e]; [apply grep_fallback_bounds|exact Hempty].
  - apply grep_primary_bounds.
Qed.

(** X5: when ripgrep exits with status 0, the matches [grep] returns descend
    along the modification time of their files (0 for a file that cannot be
    read), and [truncated] tells exactly that ripgrep printed more than 100
    non-empty lines. *)
Theorem grep_primary_sorted_by_mtime :
  forall (fs : Env.Fs) (spawn : Env.Spawn) (cwd pattern : string)
         (directory include : option string) (r : Env.SpawnResult),
    spawn "rg" (CodebaseTools.rg_args pattern (CodebaseTools.or_cwd directory cwd) include)
          None
    = Js.Returned r ->
    Env.status r = Some 0 ->
    let out := CodebaseTools.grepTool fs spawn cwd pattern directory include in
    StronglySorted
      (desc_by (fun m => CodebaseTools.mtime_or_0 fs (CodebaseTools.file m)))
      (CodebaseTools.matches out)
    /\ (CodebaseTools.gtruncated out = true
        <-> (100 < List.length
                     (CodebaseTools.stdout_lines (CodebaseTools.or_empty (Env.stdout r))))%nat).
Proof.
  intros fs spawn cwd pattern directory include r Hsp Hst out. subst out.
  rewrite (grepTool_primary _ _ _ _ _ _ _ Hsp Hst).
  split; [apply grep_primary_sorted|].
  unfold CodebaseTools.grep_primary. cbn [CodebaseTools.gtruncated].
  rewrite (sort_by_length CodebaseTools.by_mtime_desc_m), length_map.
  unfold CodebaseTools.or_empty. rewrite Z.gtb_gt. lia.
Qed.

Lemma grep_primary_sorted_by_mtime_witness :
  map CodebaseTools.file
      (CodebaseTools.matches
         (CodebaseTools.grepTool Samples.fs_repo Samples.spawn_rg_matches "/w" "x"
                                 (Some "/repo") None))
  = ["/repo/src/main.ts"; "/repo/src/index.ts"]
  /\ StronglySorted
       (desc_by (fun m => CodebaseTools.mtime_or_0 Samples.fs_repo (CodebaseTools.file m)))
       (CodebaseTools.matches
          (CodebaseTools.grepTool Samples.fs_repo Samples.spawn_rg_matches "/w" "x"
                                  (Some "/repo") None)).
Proof.
  split; [reflexivity|].
  apply (grep_primary_sorted_by_mtime Samples.fs_repo Samples.spawn_rg_matches "/w" "x"
           (Some "/repo") None
           (Samples.ok_result ("/repo/src/index.ts|1|export {}" ++ Js.nl
                               ++ "/repo/src/main.ts|1|main() | 0" ++ Js.nl)));
    reflexivity.
Defined.


(* ------------------------------------------------------------------ *)
(** ** Windows of a file *)

Section WindowFacts.
Import Js Env CodebaseTools.

Lemma firstn_skipn_all {A : Type} (n : nat) (l : list A) :
  (List.length l <= n)%nat -> skipn n l = [].
Proof. intros H. apply skipn_all2. exact H. Qed.

(** [slice] from a non-negative start over a non-negative length. *)
Lemma slice_window {A : Type} (l : list A) (a b : Z) :
  0 <= a -> 0 <= b ->
  slice l a (a + b) = firstn (Z.to_nat b) (skipn (Z.to_nat a) l).
Proof.
  intros Ha Hb. unfold slice, rel_index.
  set (len := Z.of_nat (List.length l)).
  destruct (a <? 0) eqn:Ea; [apply Z.ltb_lt in Ea; lia|].
  destruct (a + b <? 0) eqn:Eb; [apply Z.ltb_lt in Eb; lia|].
  destruct (Z.le_gt_cases a len) as [H|H].
  - rewrite (Z.min_l a len) by lia.
    destruct (Z.le_gt_cases (a + b) len) as [H2|H2].
    + rewrite Z.min_l by lia. f_equal. lia.
    + rewrite Z.min_r by lia.
      rewrite !firstn_all2; try reflexivity; rewrite length_skipn; subst len; lia.
  - rewrite !Z.min_r by lia.
    rewrite !firstn_skipn_all; [now rewrite !firstn_nil| subst len; lia | subst len; lia].
Qed.

Lemma firstn_app_skipn {A : Type} (n m : nat) (l : list A) :
  (firstn n l ++ firstn m (skipn n l))%list = firstn (n + m) l.
Proof.
  revert l. induction n as [|n IH]; intros l; [reflexivity|].
  destruct l as [|x l]; [now rewrite !firstn_nil|].
  cbn. now rewrite IH.
Qed.

Lemma str_length_app (a b : string) :
  String.length (a ++ b) = (String.length a + String.length b)%nat.
Proof. induction a as [|c a IH]; cbn; [reflexivity|now rewrite IH]. Qed.

Lemma cut_line_bound ln : (String.length (cut_line ln) <= 2003)%nat.
Proof.
  unfold cut_line, MAX_LINE_LENGTH.
  destruct (2000 <? String.length ln)%nat eqn:E.
  - rewrite str_length_app. pose proof (take_length 2000 ln).
    change (String.length "...") with 3%nat. lia.
  - apply Nat.ltb_ge in E. lia.
Qed.

Lemma labelled_app first l1 l2 :
  labelled first (l1 ++ l2)
  = (labelled first l1 ++ labelled (first + Z.of_nat (List.length l1)) l2)%list.
Proof.
  unfold labelled. revert first. induction l1 as [|x l1 IH]; intros first.
  - cbn [app List.length map numbered_from]. now rewrite Z.add_0_r.
  - cbn [app List.length map numbered_from]. rewrite IH.
    replace (first + 1 + Z.of_nat (List.length l1))
      with (first + Z.of_nat (S (List.length l1))) by lia.
    reflexivity.
Qed.

Lemma labelled_length first l : List.length (labelled first l) = List.length l.
Proof.
  unfold labelled. rewrite length_map. revert first.
  induction l as [|x l IH]; intros first; cbn; [reflexivity|now rewrite IH].
Qed.

Lemma labelled_nth first l (k : nat) ln :
  nth_error l k = Some ln ->
  nth_error (labelled first l) k
  = Some (padStart 5 "0"%char (toString (first + Z.of_nat k)) ++ "| " ++ ln).
Proof.
  unfold labelled. revert first k.
  induction l as [|x l IH]; intros first [|k]; cbn [nth_error numbered_from map fst snd];
    try discriminate.
  - intros [= ->]. now rewrite Z.add_0_r.
  - intros H. rewrite (IH _ _ H).
    replace (first + 1 + Z.of_nat k) with (first + Z.of_nat (S k)) by lia. reflexivity.
Qed.

Lemma shown_bound ln : (String.length (shown ln) <= 2003)%nat.
Proof. apply cut_line_bound. Qed.

(** The reply to a window that starts at a line and runs forward. *)
Lemma readTool_window fs cwd filePath c m a b :
  fs (read_path cwd filePath) = Some (RegFile c m) ->
  utf8_size c <= 10485760 ->
  0 <= a -> 0 <= b ->
  let lines := counted_lines c in
  let T := Z.of_nat (List.length lines) in
  readTool fs cwd filePath (Some a) (Some b)
  = Returned
      {| rcontent :=
           file_block
             (labelled (a + 1) (map shown (firstn (Z.to_nat b) (skipn (Z.to_nat a) lines))))
             (if a + b <? T then more_note (a + b) else end_note T);
         totalLines := T;
         hasMore := a + b <? T |}.
Proof.
  intros Hf Hsz Ha Hb lines T.
  rewrite (readTool_block _ _ _ _ _ _ _ Hf Hsz). fold lines. fold T.
  rewrite slice_window by lia.
  set (w := firstn (Z.to_nat b) (skipn (Z.to_nat a) lines)).
  assert (Hlen : List.length w = Nat.min (Z.to_nat b) (List.length lines - Z.to_nat a)).
  { subst w. now rewrite length_firstn, length_skipn. }
  rewrite length_map, Hlen.
  destruct (a + b <? T) eqn:E.
  - apply Z.ltb_lt in E.
    replace (a + Z.of_nat (Nat.min (Z.to_nat b) (List.length lines - Z.to_nat a)))
      with (a + b) by (subst T; lia).
    assert (G : (T >? a + b) = true) by (apply Z.gtb_gt; lia).
    now rewrite G.
  - apply Z.ltb_ge in E.
    assert (G : (T >? a + Z.of_nat (Nat.min (Z.to_nat b) (List.length lines - Z.to_nat a)))
                = false).
    { rewrite Z.gtb_ltb. apply Z.ltb_ge. subst T. lia. }
    now rewrite G.
Qed.

Lemma window_app {A : Type} (l : list A) (a b b2 : Z) :
  0 <= a -> 0 <= b -> 0 <= b2 ->
  firstn (Z.to_nat (b + b2)) (skipn (Z.to_nat a) l)
  = (firstn (Z.to_nat b) (skipn (Z.to_nat a) l)
       ++ firstn (Z.to_nat b2) (skipn (Z.to_nat (a + b)) l))%list.
Proof.
  intros Ha Hb Hb2.
  replace (Z.to_nat (a + b)) with (Z.to_nat b + Z.to_nat a)%nat by lia.
  rewrite <- skipn_skipn.
  replace (Z.to_nat (b + b2)) with (Z.to_nat b + Z.to_nat b2)%nat by lia.
  symmetry. apply firstn_app_skipn.
Qed.

Lemma rows_app (lines : list string) (a b b2 : Z) :
  0 <= a -> 0 <= b -> 0 <= b2 ->
  labelled (a + 1) (map shown (firstn (Z.to_nat (b + b2)) (skipn (Z.to_nat a) lines)))
  = (labelled (a + 1) (map shown (firstn (Z.to_nat b) (skipn (Z.to_nat a) lines)))
       ++ labelled (a + b + 1)
            (map shown (firstn (Z.to_nat b2) (skipn (Z.to_nat (a + b)) lines))))%list.
Proof.
  intros Ha Hb Hb2. rewrite window_app by lia. rewrite map_app, labelled_app.
  f_equal. rewrite length_map, length_firstn, length_skipn.
  destruct (Nat.le_gt_cases (Z.to_nat a + Z.to_nat b) (List.length lines)) as [H|H].
  - f_equal. lia.
  - rewrite (skipn_all2 (n := Z.to_nat (a + b))) by lia.
    now rewrite firstn_nil.
Qed.
Lemma round_MB_nearest sz : nearest_MiB sz (round_MB sz).
Proof.
  unfold nearest_MiB, round_MB.
  pose proof (Z.div_mod (2 * sz + 1048576) 2097152 ltac:(lia)) as E.
  pose proof (Z.mod_pos_bound (2 * sz + 1048576) 2097152 ltac:(lia)) as B.
  lia.
Qed.
End WindowFacts.

(** X7: on a regular file within the size ceiling, with offset >= 0 and
    limit >= 0, the text [read] returns holds the lines offset ..
    offset+limit-1 that exist (counted from 0), numbered from offset + 1,
    each of at most 2003 characters, and the note that more lines follow
    exactly when offset + limit is less than the number of lines; and the
    window that starts where a window ended continues it: the rows of both,
    one after the other, are the rows of the window of the summed limits. *)
Theorem read_windows_compose :
  forall (fs : Env.Fs) (cwd filePath c : string) (m offset limit limit2 : Z),
    fs (CodebaseTools.read_path cwd filePath) = Some (Env.RegFile c m) ->
    Js.utf8_size c <= 10485760 ->
    0 <= offset -> 0 <= limit -> 0 <= limit2 ->
    offset + limit + limit2 <= Js.MAX_SAFE_INTEGER ->
    let lines := counted_lines c in
    let T := Z.of_nat (List.length lines) in
    let window (a b : Z) := map shown (firstn (Z.to_nat b) (skipn (Z.to_nat a) lines)) in
    let rows (a b : Z) := labelled (a + 1) (window a b) in
    let note (a b : Z) := if a + b <? T then more_note (a + b) else end_note T in
    exists out1 out2 out12,
      CodebaseTools.readTool fs cwd filePath (Some offset) (Some limit) = Js.Returned out1
      /\ CodebaseTools.readTool fs cwd filePath (Some (offset + limit)) (Some limit2)
         = Js.Returned out2
      /\ CodebaseTools.readTool fs cwd filePath (Some offset) (Some (limit + limit2))
         = Js.Returned out12
      /\ CodebaseTools.rcontent out1 = file_block (rows offset limit) (note offset limit)
      /\ CodebaseTools.rcontent out2
         = file_block (rows (offset + limit) limit2) (note (offset + limit) limit2)
      /\ CodebaseTools.rcontent out12
         = file_block (rows offset limit ++ rows (offset + limit) limit2)%list
                      (note offset (limit + limit2))
      /\ CodebaseTools.totalLines out1 = T
      /\ (CodebaseTools.hasMore out1 = true <-> offset + limit < T)
      /\ Forall (fun ln => (String.length ln <= 2003)%nat) (window offset limit).
Proof.
  intros fs cwd filePath c m offset limit limit2 Hf Hsz Ho Hl Hl2 _ lines T window rows note.
  do 3 eexists.
  split; [apply (readTool_window _ _ _ _ _ _ _ Hf Hsz Ho Hl)|].
  split; [apply (readTool_window _ _ _ _ _ _ _ Hf Hsz); lia|].
  split; [apply (readTool_window _ _ _ _ _ _ _ Hf Hsz); lia|].
  cbn [CodebaseTools.rcontent CodebaseTools.totalLines CodebaseTools.hasMore].
  fold lines. fold T.
  split; [reflexivity|]. split; [reflexivity|]. split.
  - subst rows window note. cbv beta. rewrite rows_app by lia.
    now rewrite Z.add_assoc.
  - split; [reflexivity|]. split; [apply Z.ltb_lt|].
    apply Forall_forall. intros ln Hln. subst window. cbv beta in Hln.
    apply in_map_iff in Hln as [x [<- _]]. apply shown_bound.
Qed.

Lemma read_windows_compose_witness :
  exists out1 out2 out12,
    CodebaseTools.readTool Samples.fs_repo "/w" "/repo/README.md" (Some 0) (Some 1)
    = Js.Returned out1
    /\ CodebaseTools.readTool Samples.fs_repo "/w" "/repo/README.md" (Some 1) (Some 1)
       = Js.Returned out2
    /\ CodebaseTools.readTool Samples.fs_repo "/w" "/repo/README.md" (Some 0) (Some 2)
       = Js.Returned out12
    /\ CodebaseTools.rcontent out1
       = "<file>" ++ Js.nl ++ "00001| # Title" ++ Js.nl ++ Js.nl
         ++ "(File has more lines. Use 'offset' parameter to read beyond line 1)" ++ Js.nl
         ++ "</file>"
    /\ CodebaseTools.rcontent out2
       = "<file>" ++ Js.nl ++ "00002| text" ++ Js.nl ++ Js.nl
         ++ "(File has more lines. Use 'offset' parameter to read beyond line 2)" ++ Js.nl
         ++ "</file>"
    /\ CodebaseTools.rcontent out12
       = "<file>" ++ Js.nl ++ "00001| # Title" ++ Js.nl ++ "00002| text" ++ Js.nl ++ Js.nl
         ++ "(File has more lines. Use 'offset' parameter to read beyond line 2)" ++ Js.nl
         ++ "</file>"
    /\ CodebaseTools.hasMore out1 = true.
Proof.
  destruct (read_windows_compose Samples.fs_repo "/w" "/repo/README.md"
              ("# Title" ++ Js.nl ++ "text" ++ Js.nl ++ "end") 20 0 1 1)
    as [out1 [out2 [out12 [H1 [H2 [H12 [C1 [C2 [C12 [_ [Hm _]]]]]]]]]]];
    try reflexivity; try lia.
  - vm_compute. discriminate.
  - vm_compute. discriminate.
  - exists out1, out2, out12.
    split; [exact H1|]. split; [exact H2|]. split; [exact H12|].
    split; [exact C1|]. split; [exact C2|]. split; [exact C12|].
    apply Hm. vm_compute. reflexivity.
Defined.

(** X8: with a negative offset -k, [read] takes the window from the end of
    the file: for 1 <= k <= T and a limit of at least T + k the returned text
    holds the last k lines, numbered 1-k .. 0, and it says that the file has
    more lines beyond line 0, with hasMore = true, although the last line of
    the file is among them. *)
Theorem read_from_the_end :
  forall (fs : Env.Fs) (cwd filePath c : string) (m k limit : Z),
    fs (CodebaseTools.read_path cwd filePath) = Some (Env.RegFile c m) ->
    Js.utf8_size c <= 10485760 ->
    let lines := counted_lines c in
    let T := Z.of_nat (List.length lines) in
    1 <= k <= T -> T + k <= limit <= Js.MAX_SAFE_INTEGER ->
    CodebaseTools.readTool fs cwd filePath (Some (- k)) (Some limit)
    = Js.Returned
        {| CodebaseTools.rcontent :=
             file_block (labelled (1 - k) (map shown (skipn (Z.to_nat (T - k)) lines)))
                        (more_note 0);
           CodebaseTools.totalLines := T;
           CodebaseTools.hasMore := true |}.
Proof.
  intros fs cwd filePath c m k limit Hf Hsz lines T Hk Hlim.
  rewrite (readTool_block _ _ _ _ _ _ _ Hf Hsz). fold lines. fold T.
  assert (Hsl : Js.slice lines (- k) (- k + limit) = skipn (Z.to_nat (T - k)) lines).
  { unfold Js.slice, Js.rel_index. fold T.
    destruct (- k <? 0) eqn:E1; [|apply Z.ltb_ge in E1; lia].
    destruct (- k + limit <? 0) eqn:E2; [apply Z.ltb_lt in E2; lia|].
    rewrite Z.max_l by lia. rewrite Z.min_r by lia.
    replace (T + - k) with (T - k) by lia.
    rewrite firstn_all2; [reflexivity|]. rewrite length_skipn. subst T. lia. }
  rewrite Hsl, length_map, length_skipn.
  replace (- k + Z.of_nat (List.length lines - Z.to_nat (T - k))) with 0 by (subst T; lia).
  replace (- k + 1) with (1 - k) by lia.
  assert (G : (T >? 0) = true) by (apply Z.gtb_gt; lia).
  now rewrite G.
Qed.

Lemma read_from_the_end_witness :
  CodebaseTools.readTool Samples.fs_repo "/w" "/repo/README.md" (Some (-1)) (Some 2000)
  = Js.Returned
      {| CodebaseTools.rcontent :=
           "<file>" ++ Js.nl ++ "00000| end" ++ Js.nl ++ Js.nl
           ++ "(File has more lines. Use 'offset' parameter to read beyond line 0)" ++ Js.nl
           ++ "</file>";
         CodebaseTools.totalLines := 3;
         CodebaseTools.hasMore := true |}.
Proof.
  apply (read_from_the_end Samples.fs_repo "/w" "/repo/README.md"
           ("# Title" ++ Js.nl ++ "text" ++ Js.nl ++ "end") 20 1 2000).
  - reflexivity.
  - vm_compute. discriminate.
  - vm_compute. split; discriminate.
  - vm_compute. split; discriminate.
Defined.

(** X9: a regular file of more than 10 MiB is refused for every offset and
    limit, with a message that gives its size as the nearest whole number of
    MiB (the upper one of two equally near), which is at least 10. *)
Theorem read_refuses_oversized :
  forall (fs : Env.Fs) (cwd filePath c : string) (m : Z) (offset limit : option Z),
    fs (CodebaseTools.read_path cwd filePath) = Some (Env.RegFile c m) ->
    10485760 < Js.utf8_size c <= Js.MAX_SAFE_INTEGER ->
    exists mb,
      nearest_MiB (Js.utf8_size c) mb
      /\ 10 <= mb
      /\ CodebaseTools.readTool fs cwd filePath offset limit
         = Js.Thrown (Js.JsError ("File is too large (" ++ Js.toString mb
                                  ++ "MB). Max size: 10MB")).
Proof.
  intros fs cwd filePath c m offset limit Hf Hsz.
  exists (CodebaseTools.round_MB (Js.utf8_size c)).
  pose proof (round_MB_nearest (Js.utf8_size c)) as Hn.
  split; [exact Hn|]. split; [unfold nearest_MiB in Hn; lia|].
  apply (readTool_too_large _ _ _ _ m); [exact Hf|lia].
Qed.

Lemma read_refuses_oversized_witness :
  Js.utf8_size Samples.large_text = 11010048
  /\ CodebaseTools.readTool Samples.fs_large "/w" "/repo/large.txt" (Some 5) (Some 1)
     = Js.Thrown (Js.JsError "File is too large (11MB). Max size: 10MB").
Proof.
  assert (Hsz : Js.utf8_size Samples.large_text = 11010048).
  { unfold Samples.large_text. rewrite utf8_size_pow. reflexivity. }
  split; [exact Hsz|].
  destruct (read_refuses_oversized Samples.fs_large "/w" "/repo/large.txt"
              Samples.large_text 0 (Some 5) (Some 1)) as [mb [Hn [_ Hr]]].
  - reflexivity.
  - rewrite Hsz. vm_compute. split; [reflexivity|discriminate].
  - rewrite Hr. unfold nearest_MiB in Hn. rewrite Hsz in Hn.
    replace mb with 11 by lia. reflexivity.
Defined.

(** X10: for an absent path whose parent is a directory, [read] throws
    "File not found: <path>", followed by the first three entries of the
    parent, in its order, whose lower-case name contains the lower-case base
    name or is contained in it, each joined to the parent; the message has no
    second part when no entry qualifies. *)
Theorem read_absent_in_directory :
  forall (fs : Env.Fs) (cwd filePath : string) (offset limit : option Z)
         (entries : list string) (ds dm : Z),
    let p := CodebaseTools.read_path cwd filePath in
    Env.existsSync fs p = false ->
    fs (Path.dirname p) = Some (Env.Directory entries ds dm) ->
    let sg := suggested (Path.basename p) entries in
    (List.length sg <= 3)%nat
    /\ (forall e, In e sg ->
          In e entries
          /\ (Js.includes (Js.toLowerCase e) (Js.toLowerCase (Path.basename p)) = true
              \/ Js.includes (Js.toLowerCase (Path.basename p)) (Js.toLowerCase e) = true))
    /\ CodebaseTools.readTool fs cwd filePath offset limit
       = Js.Thrown
           (Js.JsError
              ("File not found: " ++ p
               ++ match sg with
                  | [] => ""
                  | _ => Js.nl ++ Js.nl ++ "Did you mean one of these?" ++ Js.nl
                         ++ Js.join Js.nl (map (fun e => Path.join [Path.dirname p; e]) sg)
                  end)).
Proof.
  intros fs cwd filePath offset limit entries ds dm p Habs Hdir sg.
  split; [apply suggested_at_most_3|]. split; [apply suggested_sound|].
  rewrite (readTool_absent _ _ _ _ _ Habs). fold p.
  rewrite (read_not_found_in_directory _ _ _ _ _ Hdir). fold sg.
  destruct sg; [now rewrite str_app_nil_r|reflexivity].
Qed.

Lemma read_absent_in_directory_witness :
  CodebaseTools.readTool Samples.fs_repo "/w" "/repo/src/Index.ts" None None
  = Js.Thrown
      (Js.JsError
         ("File not found: /repo/src/Index.ts" ++ Js.nl ++ Js.nl
          ++ "Did you mean one of these?" ++ Js.nl
          ++ "/repo/src/index.ts" ++ Js.nl ++ "/repo/src/index.ts.bak" ++ Js.nl
          ++ "/repo/src/reindex.ts")).
Proof.
  apply (read_absent_in_directory Samples.fs_repo "/w" "/repo/src/Index.ts" None None
           ["index.ts"; "Index.test.ts"; "main.ts"; "index.ts.bak"; "reindex.ts"] 4096 30);
    reflexivity.
Defined.

(* ------------------------------------------------------------------ *)
(** ** list and bash *)

Section ListBashFacts.
Import Js Env CodebaseTools.

End ListBashFacts.


(** X12: [bash] reports exit code 0 exactly when [spawnSync] returned with
    status 0 or with no status at all, as for a child killed at the timeout;
    when [spawnSync] throws, the exit code is 1. *)
Theorem bash_exit_code :
  forall (spawn : CodebaseTools.SpawnTimed) (cwd command : string)
         (workdir : option string) (timeout : option Z),
    let answer :=
      spawn "bash" ["-c"; command] (Some (CodebaseTools.or_cwd workdir cwd))
            (match timeout with Some t => t | None => 30000 end) in
    let out := CodebaseTools.bashTool spawn cwd command workdir timeout in
    (CodebaseTools.exitCode out = 0
     <-> exists r, answer = Js.Returned r
                   /\ (Env.status r = None \/ Env.status r = Some 0))
    /\ (forall e, answer = Js.Thrown e ->
          CodebaseTools.exitCode out = 1 /\ CodebaseTools.bstdout out = "").
Proof.
  intros spawn cwd command workdir timeout answer out. subst out.
  unfold CodebaseTools.bashTool. fold answer.
  destruct answer as [r|e]; cbn [CodebaseTools.exitCode CodebaseTools.bstdout].
  - split.
    + split.
      * intros H0. exists r. split; [reflexivity|].
        destruct (Env.status r) as [st|]; [right; now rewrite H0|now left].
      * intros [r' [[= <-] [Hn|Hz]]]; [now rewrite Hn|now rewrite Hz].
    + intros e [=].
  - split.
    + split; [discriminate|]. intros [r [[=] _]].
    + intros e' _. split; reflexivity.
Qed.

Lemma bash_exit_code_witness :
  CodebaseTools.exitCode
    (CodebaseTools.bashTool Samples.spawn_killed "/w" "sleep 60" None (Some 1000)) = 0.
Proof.
  apply (proj1 (bash_exit_code Samples.spawn_killed "/w" "sleep 60" None (Some 1000))).
  eexists. split; [reflexivity|]. left. reflexivity.
Defined.

(* ------------------------------------------------------------------ *)
(** ** The identifier of a repository URL *)

Section IdentifierFacts.
Import Js Workflow.

Lemma strip_dot_git_suffix s : strip_dot_git (s ++ ".git") = s.
Proof.
  induction s as [|c s IH]; [reflexivity|].
  cbn [append]. unfold strip_dot_git; fold strip_dot_git.
  destruct (String.eqb_spec (String c (s ++ ".git")) ".git") as [E|_].
  - apply (f_equal String.length) in E. cbn in E. rewrite str_length_app in E.
    cbn in E. lia.
  - now rewrite IH.
Qed.

Lemma strip_dot_git_other s : endsWith s ".git" = false -> strip_dot_git s = s.
Proof.
  induction s as [|c s IH]; [reflexivity|].
  unfold endsWith; fold endsWith. unfold strip_dot_git; fold strip_dot_git.
  destruct (String c s =? ".git")%string; [discriminate|].
  intros H. now rewrite IH.
Qed.

(** What ends in [/t] ends in [.git] only if [t] does. *)
Lemma endsWith_git_after_slash x t :
  endsWith t ".git" = false -> endsWith (x ++ String "/" t) ".git" = false.
Proof.
  intros Ht. induction x as [|c x IH].
  - cbn [append]. unfold endsWith; fold endsWith. exact Ht.
  - cbn [append]. unfold endsWith; fold endsWith.
    destruct (String.eqb_spec (String c (x ++ String "/" t)) ".git") as [E|_]; [|exact IH].
    assert (H : no_slash (String c (x ++ String "/" t)) = true) by now rewrite E.
    unfold no_slash in H. cbn [str_all] in H. rewrite str_all_app in H.
    cbn in H. rewrite !andb_false_r in H. discriminate.
Qed.

Lemma split_by_app_sep sep a b c :
  sep c = true ->
  split_by sep (a ++ String c b) = (split_by sep a ++ split_by sep b)%list.
Proof.
  intros Hc. induction a as [|x a IH]; cbn [append split_by].
  - now rewrite Hc.
  - rewrite IH. pose proof (split_by_nonempty sep a) as Hne.
    destruct (sep x); [reflexivity|].
    destruct (split_by sep a) as [|h t]; [contradiction|reflexivity].
Qed.

Lemma identifier_of_parts (L : list string) (owner repo : string) :
  let parts := (L ++ [owner; repo])%list in
  (2 <=? List.length parts)%nat = true
  /\ nth (List.length parts - 1) parts "" = repo
  /\ nth (List.length parts - 2) parts "" = owner.
Proof.
  cbv zeta. rewrite length_app. cbn [List.length].
  split; [apply Nat.leb_le; lia|]. split.
  - rewrite app_nth2 by lia.
    replace (List.length L + 2 - 1 - List.length L)%nat with 1%nat by lia. reflexivity.
  - rewrite app_nth2 by lia.
    replace (List.length L + 2 - 2 - List.length L)%nat with 0%nat by lia. reflexivity.
Qed.

Lemma identifier_of_clean pre c owner repo :
  url_sep c = true ->
  owner <> "" -> repo <> "" ->
  str_all (fun x => negb (url_sep x)) owner = true ->
  str_all (fun x => negb (url_sep x)) repo = true ->
  let parts := filter truthy (split_by url_sep (pre ++ String c (owner ++ String "/" repo))) in
  (2 <=? List.length parts)%nat = true
  /\ nth (List.length parts - 1) parts "" = repo
  /\ nth (List.length parts - 2) parts "" = owner.
Proof.
  intros Hc Ho Hr Hos Hrs.
  assert (To : truthy owner = true)
    by (unfold truthy; destruct (String.eqb_spec owner ""); [contradiction|reflexivity]).
  assert (Tr : truthy repo = true)
    by (unfold truthy; destruct (String.eqb_spec repo ""); [contradiction|reflexivity]).
  rewrite (split_by_app_sep _ _ _ _ Hc).
  rewrite (split_by_head url_sep owner repo "/"%char Hos eq_refl).
  rewrite (split_by_no_sep _ _ Hrs).
  rewrite filter_app. cbn [filter]. rewrite To, Tr.
  apply identifier_of_parts.
Qed.
End IdentifierFacts.

(** X13: a URL that ends in a separator ([/] or [:]), an owner, [/] and a
    repository name has the identifier [owner/name], with or without a
    trailing [.git]: the https and the scp-like address of one repository get
    the same identifier. Owner and name are non-empty and free of [/] and [:],
    and the name itself does not end in [.git]. *)
Theorem repo_identifier_of_url :
  forall (pre : string) (c : ascii) (owner repo : string),
    Workflow.url_sep c = true ->
    owner <> "" -> repo <> "" ->
    str_all (fun x => negb (Workflow.url_sep x)) owner = true ->
    str_all (fun x => negb (Workflow.url_sep x)) repo = true ->
    Js.endsWith repo ".git" = false ->
    Workflow.getRepoIdentifier (pre ++ String c (owner ++ String "/" repo))
    = owner ++ "/" ++ repo
    /\ Workflow.getRepoIdentifier (pre ++ String c (owner ++ String "/" (repo ++ ".git")))
       = owner ++ "/" ++ repo.
Proof.
  intros pre c owner repo Hc Ho Hr Hos Hrs Hgit.
  destruct (identifier_of_clean pre c owner repo Hc Ho Hr Hos Hrs) as [H2 [Hrepo Hown]].
  assert (Hclean : Workflow.getRepoIdentifier (pre ++ String c (owner ++ String "/" repo))
                   = owner ++ "/" ++ repo).
  { unfold Workflow.getRepoIdentifier.
    rewrite strip_dot_git_other.
    - rewrite H2, Hrepo, Hown. reflexivity.
    - replace (pre ++ String c (owner ++ String "/" repo))
        with ((pre ++ String c owner) ++ String "/" repo)
        by (rewrite str_app_assoc; reflexivity).
      now apply endsWith_git_after_slash. }
  split; [exact Hclean|].
  rewrite <- Hclean. unfold Workflow.getRepoIdentifier.
  replace (pre ++ String c (owner ++ String "/" (repo ++ ".git")))
    with ((pre ++ String c (owner ++ String "/" repo)) ++ ".git").
  - now rewrite strip_dot_git_suffix, strip_dot_git_other
      by (replace (pre ++ String c (owner ++ String "/" repo))
            with ((pre ++ String c owner) ++ String "/" repo)
            by (rewrite str_app_assoc; reflexivity);
          now apply endsWith_git_after_slash).
  - rewrite !str_app_assoc. cbn [append]. now rewrite !str_app_assoc.
Qed.

Lemma repo_identifier_of_url_witness :
  Workflow.getRepoIdentifier "https://github.com/mastra-ai/mastra" = "mastra-ai/mastra"
  /\ Workflow.getRepoIdentifier "git@github.com:mastra-ai/mastra.git" = "mastra-ai/mastra".
Proof.
  split.
  - apply (proj1 (repo_identifier_of_url "https://github.com" "/"%char "mastra-ai" "mastra"
                    eq_refl ltac:(discriminate) ltac:(discriminate) eq_refl eq_refl eq_refl)).
  - apply (proj2 (repo_identifier_of_url "git@github.com" ":"%char "mastra-ai" "mastra"
                    eq_refl ltac:(discriminate) ltac:(discriminate) eq_refl eq_refl eq_refl)).
Defined.

(* ------------------------------------------------------------------ *)
(** ** Replacing an entry of the cache *)

Section ReplaceFacts.
Import Js Env Workflow.
Context {W : Type} `{System W}.

(** The step after a reuse check that said no: the path is cleared when it
    exists, then the fetch runs, and its status decides the outcome. *)
Lemma clone_step_when_invalid (cwd : string) (input : StepInput)
      (w w1 w2 w3 : W) (ev1 : list Event) (r : SpawnResult) :
  let repoPath := getRepoPath cwd (repoUrl input) (branch input) in
  sys_exists (REPOS_DIR cwd) w = true ->
  cloneExists repoPath (branch input) w = (Returned false, w1, ev1) ->
  sys_exists repoPath w1 = true ->
  sys_rm repoPath w1 = (Returned tt, w2) ->
  sys_spawn "git" (cloneArgs (repoUrl input) repoPath (branch input)) None w2
  = (Returned r, w3) ->
  cloneRepoStep cwd input w
  = (if status_is_zero (status r)
     then Returned {| out_repoPath := repoPath;
                      out_question := question input;
                      out_branch := branch input |}
     else Thrown (JsError ("Failed to clone repository: " ++ clone_diagnostic r)),
     w3,
     (ev1 ++ [EvRm repoPath;
              EvSpawn "git" (cloneArgs (repoUrl input) repoPath (branch input)) None])%list).
Proof.
  intros repoPath Hroot Hce Hex Hrm Hsp.
  unfold cloneRepoStep, bind, existsSync, rmSync, spawnSync.
  rewrite Hroot. cbn [negb ret]. fold repoPath. rewrite Hce, Hex, Hrm, Hsp.
  destruct (status_is_zero (status r)); reflexivity.
Qed.

Lemma cloneExists_without_marker (repoPath : string) (br : option string) (w : W) :
  sys_exists (Path.join [repoPath; ".git"]) w = false ->
  cloneExists repoPath br w = (Returned false, w, []).
Proof.
  intros Hgit. unfold cloneExists, try_catch, bind, existsSync. now rewrite Hgit.
Qed.

Lemma cloneExists_other_branch (repoPath b : string) (w w1 : W)
      (r0 : SpawnResult) (out0 : string) :
  b <> "" ->
  sys_exists (Path.join [repoPath; ".git"]) w = true ->
  sys_spawn "git" ["rev-parse"; "--abbrev-ref"; "HEAD"] (Some repoPath) w = (Returned r0, w1) ->
  status r0 = Some 0 -> stdout r0 = Some out0 -> trim out0 <> b ->
  cloneExists repoPath (Some b) w
  = (Returned false, w1,
     [EvSpawn "git" ["rev-parse"; "--abbrev-ref"; "HEAD"] (Some repoPath)]).
Proof.
  intros Hb Hgit Hsp Hst Hout Hne.
  unfold cloneExists, try_catch, bind, existsSync. rewrite Hgit. cbn [negb].
  unfold truthy. destruct (String.eqb_spec b ""); [contradiction|]. cbn [negb].
  unfold getCurrentBranch, try_catch, bind, spawnSync. rewrite Hsp, Hst, Hout.
  cbn [status_is_zero Z.eqb ret].
  destruct (String.eqb_spec (trim out0) b); [contradiction|reflexivity].
Qed.
End ReplaceFacts.

(** X14: when the cache root exists and the derived path exists without its
    marker directory, the step deletes the path and then runs
    [git clone --depth 1 (--branch b) url path], in that order and nothing
    else; it returns the path when the clone exits with status 0 and throws
    "Failed to clone repository: ..." with the clone's diagnostic otherwise. *)
Theorem clone_step_replaces_unmarked_entry :
  forall (W : Type) (Sys : Workflow.System W) (cwd : string)
         (input : Workflow.StepInput) (w w2 w3 : W) (r : Env.SpawnResult),
    let repoPath :=
      Workflow.getRepoPath cwd (Workflow.repoUrl input) (Workflow.branch input) in
    let args :=
      (["clone"; "--depth"; "1"]
         ++ match Workflow.branch input with
            | Some b => if Js.truthy b then ["--branch"; b] else []
            | None => []
            end
         ++ [Workflow.repoUrl input; repoPath])%list in
    Workflow.sys_exists (Workflow.REPOS_DIR cwd) w = true ->
    Workflow.sys_exists (Path.join [repoPath; ".git"]) w = false ->
    Workflow.sys_exists repoPath w = true ->
    Workflow.sys_rm repoPath w = (Js.Returned tt, w2) ->
    Workflow.sys_spawn "git" args None w2 = (Js.Returned r, w3) ->
    Workflow.cloneRepoStep cwd input w
    = (match Env.status r with
       | Some 0 => Js.Returned {| Workflow.out_repoPath := repoPath;
                                  Workflow.out_question := Workflow.question input;
                                  Workflow.out_branch := Workflow.branch input |}
       | _ => Js.Thrown (Js.JsError ("Failed to clone repository: "
                                     ++ Workflow.clone_diagnostic r))
       end,
       w3,
       [Workflow.EvRm repoPath; Workflow.EvSpawn "git" args None]).
Proof.
  intros W Sys cwd input w w2 w3 r repoPath args Hroot Hgit Hex Hrm Hsp.
  rewrite (clone_step_when_invalid cwd input w w w2 w3 [] r Hroot
             (cloneExists_without_marker _ _ _ Hgit) Hex Hrm Hsp).
  fold repoPath. cbn [app]. f_equal. f_equal.
  destruct (Env.status r) as [[|p|p]|]; reflexivity.
Qed.

Lemma clone_step_replaces_unmarked_entry_witness :
  exists w3,
    Workflow.cloneRepoStep "/app/src/mastra" Samples.ask_main Samples.world_stale
    = (Js.Returned {| Workflow.out_repoPath := "/app/.repos/mastra-ai/mastra@main";
                      Workflow.out_question := "How do I create an agent?";
                      Workflow.out_branch := Some "main" |},
       w3,
       [Workflow.EvRm "/app/.repos/mastra-ai/mastra@main";
        Workflow.EvSpawn "git"
          ["clone"; "--depth"; "1"; "--branch"; "main";
           "https://github.com/mastra-ai/mastra"; "/app/.repos/mastra-ai/mastra@main"]
          None]).
Proof.
  eexists.
  eapply (clone_step_replaces_unmarked_entry Workflow.MemWorld Workflow.MemSystem
           "/app/src/mastra" Samples.ask_main Samples.world_stale
           _ _ (Workflow.exit_with 0 "" "")); reflexivity.
Defined.

(** X15: when the entry at the derived path is on another branch than the
    one asked for, the step reads the current branch, deletes the entry and
    fetches again with [--branch] set to the branch asked for; nothing of the
    old entry is reused. *)
Theorem clone_step_replaces_other_branch :
  forall (W : Type) (Sys : Workflow.System W) (cwd : string)
         (input : Workflow.StepInput) (b : string) (w w1 w2 w3 : W)
         (r0 r : Env.SpawnResult) (out0 : string),
    let repoPath := Workflow.getRepoPath cwd (Workflow.repoUrl input) (Some b) in
    let args :=
      ["clone"; "--depth"; "1"; "--branch"; b; Workflow.repoUrl input; repoPath] in
    Workflow.branch input = Some b -> b <> "" ->
    Workflow.sys_exists (Workflow.REPOS_DIR cwd) w = true ->
    Workflow.sys_exists (Path.join [repoPath; ".git"]) w = true ->
    Workflow.sys_spawn "git" ["rev-parse"; "--abbrev-ref"; "HEAD"] (Some repoPath) w
    = (Js.Returned r0, w1) ->
    Env.status r0 = Some 0 -> Env.stdout r0 = Some out0 -> Js.trim out0 <> b ->
    Workflow.sys_exists repoPath w1 = true ->
    Workflow.sys_rm repoPath w1 = (Js.Returned tt, w2) ->
    Workflow.sys_spawn "git" args None w2 = (Js.Returned r, w3) ->
    Env.status r = Some 0 ->
    Workflow.cloneRepoStep cwd input w
    = (Js.Returned {| Workflow.out_repoPath := repoPath;
                      Workflow.out_question := Workflow.question input;
                      Workflow.out_branch := Some b |},
       w3,
       [Workflow.EvSpawn "git" ["rev-parse"; "--abbrev-ref"; "HEAD"] (Some repoPath);
        Workflow.EvRm repoPath;
        Workflow.EvSpawn "git" args None]).
Proof.
  intros W Sys cwd input b w w1 w2 w3 r0 r out0 repoPath args
         Hbr Hb Hroot Hgit Hrev Hst0 Hout0 Hne Hex Hrm Hsp Hst.
  assert (Hargs : Workflow.cloneArgs (Workflow.repoUrl input) repoPath (Workflow.branch input)
                  = args).
  { unfold Workflow.cloneArgs. rewrite Hbr. unfold Js.truthy.
    destruct (String.eqb_spec b ""); [contradiction|reflexivity]. }
  pose proof (cloneExists_other_branch repoPath b w w1 r0 out0 Hb Hgit Hrev Hst0 Hout0 Hne)
    as Hce.
  subst repoPath. rewrite <- Hbr in *.
  rewrite (clone_step_when_invalid cwd input w w1 w2 w3 _ r Hroot Hce Hex Hrm);
    [|rewrite Hargs; exact Hsp].
  rewrite Hargs, Hst. reflexivity.
Qed.

Lemma clone_step_replaces_other_branch_witness :
  exists w3,
    Workflow.cloneRepoStep "/app/src/mastra" Samples.ask_main Samples.world_other_branch
    = (Js.Returned {| Workflow.out_repoPath := "/app/.repos/mastra-ai/mastra@main";
                      Workflow.out_question := "How do I create an agent?";
                      Workflow.out_branch := Some "main" |},
       w3,
       [Workflow.EvSpawn "git" ["rev-parse"; "--abbrev-ref"; "HEAD"]
                         (Some "/app/.repos/mastra-ai/mastra@main");
        Workflow.EvRm "/app/.repos/mastra-ai/mastra@main";
        Workflow.EvSpawn "git"
          ["clone"; "--depth"; "1"; "--branch"; "main";
           "https://github.com/mastra-ai/mastra"; "/app/.repos/mastra-ai/mastra@main"]
          None]).
Proof.
  eexists.
  eapply (clone_step_replaces_other_branch Workflow.MemWorld Workflow.MemSystem
           "/app/src/mastra" Samples.ask_main "main" Samples.world_other_branch
           Samples.world_other_branch _ _
           (Workflow.exit_with 0 ("dev" ++ Js.nl) "") (Workflow.exit_with 0 "" "")
           ("dev" ++ Js.nl));
    try reflexivity; discriminate.
Defined.

(* ------------------------------------------------------------------ *)
(** ** More on searching the documentation *)

Section SearchTotals.
Import Js DocsTools.

Lemma sum_scores_cons r rs : sum_scores (r :: rs) = score r + sum_scores rs.
Proof. reflexivity. Qed.

Lemma sum_scores_nonneg rs :
  Forall (fun r => 0 <= score r) rs -> 0 <= sum_scores rs.
Proof.
  induction 1 as [|r rs Hr Hrs IH]; [cbn; lia|]. rewrite sum_scores_cons. lia.
Qed.

Lemma sum_scores_firstn_le (n : nat) rs :
  Forall (fun r => 0 <= score r) rs -> sum_scores (firstn n rs) <= sum_scores rs.
Proof.
  intros Hall. revert n. induction Hall as [|r rs Hr Hrs IH]; intros [|n].
  - cbn. lia.
  - cbn. lia.
  - cbn [firstn]. rewrite sum_scores_cons.
    pose proof (sum_scores_nonneg rs Hrs). cbn. lia.
  - cbn [firstn]. rewrite !sum_scores_cons. specialize (IH n). lia.
Qed.

Lemma result_of_score_pos terms f :
  has_match terms f = true -> 1 <= score (result_of terms f).
Proof.
  unfold has_match, result_of, count_matching. cbn [score].
  rewrite <- filter_length_pos. intros H. apply Z.ltb_lt in H. lia.
Qed.
End SearchTotals.

(** X16: when the docs root is a directory and maxResults >= 0, [searchDocs]
    returns at most maxResults files and at most as many as there are doc
    files, each with a score of at least 1, and [totalMatches] is at least
    the sum of the returned scores, and equal to it when no more than
    maxResults files have a match. *)
Theorem search_docs_totals :
  forall (cwd repoPath : string) (root : list DocsTools.Dirent) (query : string)
         (maxResults : Z) (docsPath n : string) (children : list DocsTools.Dirent),
    DocsTools.first_existing repoPath root DocsTools.possibleNames
    = Some (docsPath, DocsTools.Dir n children) ->
    0 <= maxResults ->
    let docs := flat_map (DocsTools.visit cwd docsPath docsPath) children in
    let matching_files :=
      filter (has_match (DocsTools.searchTerms_of query)) docs in
    exists out,
      DocsTools.searchDocsTool cwd repoPath root query (Some maxResults) = Js.Returned out
      /\ Z.of_nat (List.length (DocsTools.results out)) <= maxResults
      /\ (List.length (DocsTools.results out) <= List.length docs)%nat
      /\ Forall (fun r => 1 <= DocsTools.score r) (DocsTools.results out)
      /\ sum_scores (DocsTools.results out) <= DocsTools.totalMatches out
      /\ (Z.of_nat (List.length matching_files) <= maxResults ->
          sum_scores (DocsTools.results out) = DocsTools.totalMatches out).
Proof.
  intros cwd repoPath root query maxResults docsPath n children Hdocs Hmax docs matching_files.
  destruct (rank_spec docs query maxResults Hmax) as [ranked [Hp [_ [Hr Ht]]]].
  fold matching_files in Hp, Ht.
  exists (DocsTools.rank docs query maxResults).
  split; [unfold DocsTools.searchDocsTool; now rewrite Hdocs|].
  assert (Hlen : List.length ranked = List.length matching_files).
  { rewrite (Permutation_length Hp). apply length_map. }
  assert (Hpos : Forall (fun r => 1 <= DocsTools.score r) ranked).
  { apply Forall_forall. intros r Hin. apply (Permutation_in _ Hp) in Hin.
    apply in_map_iff in Hin as [f [<- Hf]]. apply filter_In in Hf as [_ Hf].
    now apply result_of_score_pos. }
  rewrite Hr, Ht, <- (sum_scores_perm _ _ Hp).
  split; [rewrite length_firstn; lia|]. split.
  { rewrite length_firstn, Hlen. pose proof (filter_length_le
      (has_match (DocsTools.searchTerms_of query)) docs). fold matching_files in H. lia. }
  split.
  { apply Forall_forall. intros r Hin. apply in_firstn in Hin.
    rewrite Forall_forall in Hpos. now apply Hpos. }
  split.
  { apply sum_scores_firstn_le. eapply Forall_impl; [|exact Hpos].
    cbn. intros r Hr1. lia. }
  intros Hfew. rewrite firstn_all2; [reflexivity|]. lia.
Qed.

Lemma search_docs_totals_witness :
  exists out,
    DocsTools.searchDocsTool "/w" "/repo" Samples.repo_with_docs "agent memory" (Some 1)
    = Js.Returned out
    /\ sum_scores (DocsTools.results out) <= DocsTools.totalMatches out.
Proof.
  destruct (search_docs_totals "/w" "/repo" Samples.repo_with_docs "agent memory" 1
              "/repo/docs" "docs"
              [ DocsTools.File "memory.md" ("# Memory" ++ Js.nl ++ "text");
                DocsTools.File "agents.mdx"
                  ("# Agents" ++ Js.nl ++ "An agent has memory." ++ Js.nl ++ "" ++ Js.nl
                   ++ "Create an AGENT.");
                DocsTools.Dir "guide" [ DocsTools.File "intro.md" ("Welcome" ++ Js.nl ++ "bye") ];
                DocsTools.Dir ".cache" [ DocsTools.File "agent.md" "agent" ];
                DocsTools.File "notes.txt" "agent";
                DocsTools.Other "link.md" ])
    as [out [Hout [_ [_ [_ [Hle _]]]]]].
  - reflexivity.
  - lia.
  - exists out. split; [exact Hout|exact Hle].
Defined.



(* ------------------------------------------------------------------ *)
(** ** Labels of the lines read, and the cut of glob *)

Section LabelFacts.
Import Js CodebaseTools.

Lemma digits_value_zeros (j : nat) s :
  digits_value (repeat_char "0" j ++ s) (Some 0) = digits_value s (Some 0).
Proof. induction j as [|j IH]; [reflexivity|]. cbn. exact IH. Qed.

Lemma digits_value_padded (j : nat) p :
  digits_value (repeat_char "0" j ++ NilEmpty.string_of_uint (Pos.to_uint p)) None
  = Some (Z.pos p).
Proof.
  destruct j as [|j].
  - cbn [repeat_char append]. apply digits_of_pos.
  - change (digits_value (repeat_char "0" (S j) ++ NilEmpty.string_of_uint (Pos.to_uint p)) None)
      with (digits_value (repeat_char "0" j ++ NilEmpty.string_of_uint (Pos.to_uint p)) (Some 0)).
    rewrite digits_value_zeros, <- digits_value_none by apply to_uint_not_nil.
    apply digits_of_pos.
Qed.

Lemma parseInt_digits s :
  match s with
  | String c _ => is_digit c = true
  | EmptyString => True
  end ->
  parseInt (Some s) = digits_value s None.
Proof.
  destruct s as [|c s]; [reflexivity|]. intros Hc. unfold parseInt.
  assert (Hws : is_ws c = false).
  { revert Hc. destruct c as [[] [] [] [] [] [] [] []]; cbn; congruence. }
  cbn [trimStart]. rewrite Hws.
  revert Hc. destruct c as [[] [] [] [] [] [] [] []]; cbn; congruence.
Qed.

Lemma repeat_char_length ch j : String.length (repeat_char ch j) = j.
Proof. induction j as [|j IH]; cbn; [reflexivity|now rewrite IH]. Qed.

Lemma label_length n : (5 <= String.length (padStart 5 "0"%char (toString n)))%nat.
Proof. unfold padStart. rewrite str_length_app, repeat_char_length. lia. Qed.

Lemma label_reads_back n :
  0 < n -> parseInt (Some (padStart 5 "0"%char (toString n))) = Some n.
Proof.
  intros Hn. unfold padStart, toString.
  destruct n as [|p|p]; try lia.
  cbn [Z.to_int NilZero.string_of_int]. rewrite string_of_pos.
  set (j := (5 - String.length (NilEmpty.string_of_uint (Pos.to_uint p)))%nat).
  rewrite parseInt_digits; [apply digits_value_padded|].
  destruct j as [|j]; [|reflexivity].
  cbn [repeat_char append].
  pose proof (to_uint_not_nil p) as Hnil.
  destruct (Pos.to_uint p); [contradiction|reflexivity..].
Qed.
End LabelFacts.

(** X18: for an offset >= 0, the text [read] returns has one row for each
    line of the window, and the k-th row (k from 0) is a label, ["| "] and
    the line as shown; the label has at least five characters and [parseInt]
    reads offset + k + 1 back from it. *)
Theorem read_line_labels :
  forall (fs : Env.Fs) (cwd filePath c : string) (m offset limit : Z),
    fs (CodebaseTools.read_path cwd filePath) = Some (Env.RegFile c m) ->
    Js.utf8_size c <= 10485760 ->
    0 <= offset <= Js.MAX_SAFE_INTEGER -> 0 <= limit <= Js.MAX_SAFE_INTEGER ->
    let window := firstn (Z.to_nat limit) (skipn (Z.to_nat offset) (counted_lines c)) in
    exists out rows note,
      CodebaseTools.readTool fs cwd filePath (Some offset) (Some limit) = Js.Returned out
      /\ CodebaseTools.rcontent out = file_block rows note
      /\ List.length rows = List.length window
      /\ (forall (k : nat) (ln : string),
            nth_error window k = Some ln ->
            exists label,
              nth_error rows k = Some (label ++ "| " ++ shown ln)
              /\ (5 <= String.length label)%nat
              /\ CodebaseTools.parseInt (Some label) = Some (offset + Z.of_nat k + 1)).
Proof.
  intros fs cwd filePath c m offset limit Hf Hsz Ho Hl window.
  do 3 eexists.
  split; [apply (readTool_window _ _ _ _ _ _ _ Hf Hsz); lia|].
  cbn [CodebaseTools.rcontent]. fold window.
  split; [reflexivity|]. split; [now rewrite labelled_length, length_map|].
  intros k ln Hk.
  exists (Js.padStart 5 "0"%char (Js.toString (offset + Z.of_nat k + 1))).
  split; [|split; [apply label_length|apply label_reads_back; lia]].
  rewrite (labelled_nth _ _ k (shown ln)) by (now rewrite nth_error_map, Hk).
  replace (offset + 1 + Z.of_nat k) with (offset + Z.of_nat k + 1) by lia.
  reflexivity.
Qed.

Lemma read_line_labels_witness :
  exists out rows note,
    CodebaseTools.readTool Samples.fs_repo "/w" "/repo/README.md" (Some 1) (Some 5)
    = Js.Returned out
    /\ CodebaseTools.rcontent out = file_block rows note
    /\ List.length rows = 2%nat
    /\ exists label,
         nth_error rows 1 = Some (label ++ "| end")
         /\ CodebaseTools.parseInt (Some label) = Some 3.
Proof.
  destruct (read_line_labels Samples.fs_repo "/w" "/repo/README.md"
              ("# Title" ++ Js.nl ++ "text" ++ Js.nl ++ "end") 20 1 5)
    as [out [rows [note [Hr [Hc [Hlen Hrow]]]]]]; try reflexivity.
  - vm_compute. discriminate.
  - vm_compute. split; discriminate.
  - vm_compute. split; discriminate.
  - exists out, rows, note. split; [exact Hr|]. split; [exact Hc|]. split; [exact Hlen|].
    destruct (Hrow 1%nat "end" eq_refl) as [label [H1 [_ H3]]].
    exists label. split; [exact H1|exact H3].
Defined.

(** X19: the count of [glob] is the number of files returned, which is
    min(100, number of qualifying files); and [truncated] tells exactly that
    more than 100 files qualified, so that some were left out. *)
Theorem glob_cut_exact :
  forall (fs : Env.Fs) (spawn : Env.Spawn) (cwd pattern : string)
         (directory : option string),
    let out := CodebaseTools.globTool fs spawn cwd pattern directory in
    CodebaseTools.count out = Z.of_nat (List.length (CodebaseTools.files out))
    /\ match CodebaseTools.glob_qualifying spawn cwd (CodebaseTools.or_cwd directory cwd)
                                           pattern with
       | Js.Returned fl =>
           List.length (CodebaseTools.files out) = Nat.min 100 (List.length fl)
           /\ (CodebaseTools.truncated out = true <-> (100 < List.length fl)%nat)
       | Js.Thrown _ => out = glob_empty
       end.
Proof.
  intros fs spawn cwd pattern directory out.
  split; [apply glob_count|].
  destruct (CodebaseTools.glob_qualifying _ _ _ _) as [fl|e] eqn:Hq.
  - assert (Hlen : List.length (CodebaseTools.files out) = Nat.min 100 (List.length fl)).
    { subst out. rewrite (globTool_files _ _ _ _ _ _ Hq).
      rewrite length_map, length_firstn.
      rewrite (sort_by_length CodebaseTools.by_mtime_desc).
      rewrite length_map, length_firstn. lia. }
    split; [exact Hlen|].
    pose proof (glob_truncated_iff fs _ _ _ _ _ Hq) as Ht. cbv zeta in Ht. fold out in Ht.
    rewrite Ht, Hlen. lia.
  - subst out. now apply (globTool_on_error _ _ _ _ _ e).
Qed.

(** The derived path is not confined to the cache root: segments [..] of
    the URL are followed. *)
Example repo_path_outside_cache_root :
  Workflow.REPOS_DIR "/app/src/mastra" = "/app/.repos"
  /\ Workflow.getRepoPath "/app/src/mastra" "https://github.com/../.." None = "/".
Proof. split; reflexivity. Qed.

(** X20: when the cache root is missing, the step first creates it; when
    then nothing stands at the derived path, it deletes nothing and runs
    [git clone --depth 1 (--branch b) url path]; a clone that does not exit
    with status 0 makes the step throw with the clone's diagnostic text
    ([stderr], or the spawn error when [stderr] is empty). *)
Theorem clone_step_fresh_fetch :
  forall (W : Type) (Sys : Workflow.System W) (cwd : string)
         (input : Workflow.StepInput) (w w1 w2 : W) (r : Env.SpawnResult),
    let repoPath :=
      Workflow.getRepoPath cwd (Workflow.repoUrl input) (Workflow.branch input) in
    let args :=
      (["clone"; "--depth"; "1"]
         ++ match Workflow.branch input with
            | Some b => if Js.truthy b then ["--branch"; b] else []
            | None => []
            end
         ++ [Workflow.repoUrl input; repoPath])%list in
    Workflow.sys_exists (Workflow.REPOS_DIR cwd) w = false ->
    Workflow.sys_mkdir (Workflow.REPOS_DIR cwd) w = (Js.Returned tt, w1) ->
    Workflow.sys_exists (Path.join [repoPath; ".git"]) w1 = false ->
    Workflow.sys_exists repoPath w1 = false ->
    Workflow.sys_spawn "git" args None w1 = (Js.Returned r, w2) ->
    Workflow.cloneRepoStep cwd input w
    = (match Env.status r with
       | Some 0 => Js.Returned {| Workflow.out_repoPath := repoPath;
                                  Workflow.out_question := Workflow.question input;
                                  Workflow.out_branch := Workflow.branch input |}
       | _ => Js.Thrown
                (Js.JsError
                   ("Failed to clone repository: "
                    ++ match Env.stderr r with
                       | Some s => if Js.truthy s then s
                                   else match Env.error r with
                                        | Some e => e
                                        | None => "undefined"
                                        end
                       | None => match Env.error r with
                                 | Some e => e
                                 | None => "undefined"
                                 end
                       end))
       end,
       w2,
       [Workflow.EvMkdir (Workflow.REPOS_DIR cwd); Workflow.EvSpawn "git" args None]).
Proof.
  intros W Sys cwd input w w1 w2 r repoPath args Hroot Hmk Hgit Hex Hsp.
  unfold Workflow.cloneRepoStep, Workflow.bind, Workflow.existsSync, Workflow.mkdirSync,
    Workflow.spawnSync.
  rewrite Hroot. cbn [negb]. rewrite Hmk. fold repoPath.
  rewrite (cloneExists_without_marker _ _ _ Hgit). rewrite Hex.
  cbn [Workflow.ret]. fold args.
  change (Workflow.cloneArgs (Workflow.repoUrl input) repoPath (Workflow.branch input))
    with args.
  rewrite Hsp.
  destruct (Env.status r) as [[|p|p]|]; reflexivity.
Qed.

Lemma clone_step_fresh_fetch_witness :
  exists w2,
    Workflow.cloneRepoStep "/app/src/mastra" Samples.ask_main Samples.world_empty
    = (Js.Returned {| Workflow.out_repoPath := "/app/.repos/mastra-ai/mastra@main";
                      Workflow.out_question := "How do I create an agent?";
                      Workflow.out_branch := Some "main" |},
       w2,
       [Workflow.EvMkdir "/app/.repos";
        Workflow.EvSpawn "git"
          ["clone"; "--depth"; "1"; "--branch"; "main";
           "https://github.com/mastra-ai/mastra"; "/app/.repos/mastra-ai/mastra@main"]
          None]).
Proof.
  eexists.
  eapply (clone_step_fresh_fetch Workflow.MemWorld Workflow.MemSystem
            "/app/src/mastra" Samples.ask_main Samples.world_empty
            _ _ (Workflow.exit_with 0 "" "")); reflexivity.
Defined.
